(** * Chaos playbook engine: fault injection and retry decisions

    A shallow embedding of the decision core of
    [src/chaos_playbook_engine/agents]:

    - [chaos_agent_universal.py]: the seeded injection decision, the
      weighted choice of an error code and [ChaosAgent.call];
    - [test_agent_adk_v2.py] and [test_agent_adk_v3.py]: the playbook
      lookup, the retry decision with its fallback heuristic, the backoff
      and the retry loop;
    - [test_agent.py]: the suite runner.

    In [test_agent_adk_v3_v2.py] the line [async def _tool_decide_retry]
    stands at the left margin: the class ends there, and the definitions
    indented after it ([_tool_apply_backoff], [run_test_suite],
    [_run_single_test], [get_metrics]) follow both [return]s of that
    function, so they are never bound.  That file has no retry loop to
    model.

    Python [int] is [Z].  A finite [float] is the rational it denotes
    ([Q]): comparisons, [min] and scaling by a power of two are exact on
    it, [random()] is exactly a 53-bit fraction, and a conversion from
    [int] or a product that Python rounds is rounded here to the nearest
    double, ties to even.  A [str] is the [string] of its characters, a
    character being a code point below 256.  A [dict] whose key order is
    observable is an association list, and a key that may be absent is an
    [option] field; an exception is the [Raise] case of [Result].  The
    lines that only log are left out. *)

From Stdlib Require Import ZArith QArith Qpower Qminmax List String Ascii Bool Lia.
From Stdlib Require Import DecimalString.
Import ListNotations.

Local Open Scope Z_scope.

(* ================================================================== *)
(** ** Python values *)

Module Py.

(** The exceptions the modelled code can meet. *)
Inductive Exc : Type :=
| KeyError (key : string)
| ValueError (msg : string)
| TypeError (msg : string)
| AttributeError (msg : string)
| JSONDecodeError (msg : string)
| OverflowError (msg : string)
| ReasonerError (msg : string).

(** [str(e)]. *)
Definition message (e : Exc) : string :=
  match e with
  | KeyError key => "'" ++ key ++ "'"
  | ValueError msg | TypeError msg | AttributeError msg
  | JSONDecodeError msg | OverflowError msg | ReasonerError msg => msg
  end.

Inductive Result (A : Type) : Type :=
| Ok (a : A)
| Raise (e : Exc).

Arguments Ok {A} a.
Arguments Raise {A} e.

Definition bind {A B : Type} (m : Result A) (k : A -> Result B) : Result B :=
  match m with
  | Ok a => k a
  | Raise e => Raise e
  end.


(** [d[key]] on a dict field that may be absent. *)
Definition subscript {A : Type} (key : string) (field : option A) : Result A :=
  match field with
  | Some a => Ok a
  | None => Raise (KeyError key)
  end.

(** [d.get(key, default)]. *)
Definition get {A : Type} (field : option A) (default : A) : A :=
  match field with
  | Some a => a
  | None => default
  end.

(** [str(n)] for an [int]. *)
Definition str (n : Z) : string :=
  NilZero.string_of_int (Z.to_int n).

(** The code point of a character. *)
Definition code_point (c : ascii) : Z := Z.of_N (N_of_ascii c).

(** The characters [int()] skips around a number: the white space below
    256. *)
Definition is_space (c : ascii) : bool :=
  let n := code_point c in
  ((9 <=? n) && (n <=? 13)) || (n =? 32) || (n =? 133) || (n =? 160).

Definition digit_value (c : ascii) : option Z :=
  let n := code_point c in
  if (48 <=? n) && (n <=? 57) then Some (n - 48) else None.

Fixpoint lstrip (s : string) : string :=
  match s with
  | String c rest => if is_space c then lstrip rest else s
  | EmptyString => EmptyString
  end.

Definition hex_digit (n : Z) : ascii :=
  ascii_of_N (Z.to_N (if n <? 10 then 48 + n else 87 + n)).

(** One character of [repr(s)] inside the quotes [quote]. *)
Definition escaped (quote c : ascii) : string :=
  let n := code_point c in
  if Ascii.eqb c quote || (n =? 92) then String "\" (String c EmptyString)
  else if n =? 9 then "\t"
  else if n =? 10 then "\n"
  else if n =? 13 then "\r"
  else if (n <? 32) || ((127 <=? n) && (n <=? 160)) || (n =? 173) then
    String "\" (String "x" (String (hex_digit (n / 16))
                                   (String (hex_digit (n mod 16)) EmptyString)))
  else String c EmptyString.

Fixpoint has_char (c : ascii) (s : string) : bool :=
  match s with
  | EmptyString => false
  | String c' rest => Ascii.eqb c c' || has_char c rest
  end.

Fixpoint escape_all (quote : ascii) (s : string) : string :=
  match s with
  | EmptyString => EmptyString
  | String c rest => escaped quote c ++ escape_all quote rest
  end.

(** [repr(s)]: in double quotes when [s] has a single quote and no double
    quote, in single quotes otherwise. *)
Definition repr (s : string) : string :=
  let quote :=
    if has_char "'" s && negb (has_char "034" s) then "034"%char
    else "'"%char in
  String quote (escape_all quote s ++ String quote EmptyString).

(** The digits of a literal, with single underscores between them: the
    value, the number of digits and what follows them; [None] when two
    underscores meet or one ends the digits. *)
Fixpoint scan_digits (s : string) (value digits : Z) (after_underscore : bool)
  : option (Z * Z * string) :=
  match s with
  | EmptyString =>
      if after_underscore then None else Some (value, digits, EmptyString)
  | String c rest =>
      match digit_value c with
      | Some d => scan_digits rest (10 * value + d) (digits + 1) false
      | None =>
          if Ascii.eqb c "_" then
            if after_underscore then None
            else scan_digits rest value digits true
          else if after_underscore then None
          else Some (value, digits, s)
      end
  end.

(** [sys.get_int_max_str_digits()], as the interpreter starts. *)
Definition max_str_digits : Z := 4300.

(** [int(s)] for a [str]: white space around, a sign, decimal digits with
    single underscores between them; [ValueError] otherwise, with the
    first 200 characters of [repr(s)], or for more digits than
    [max_str_digits]. *)
Definition int (s : string) : Result Z :=
  let invalid :=
    Raise (ValueError ("invalid literal for int() with base 10: "
                       ++ substring 0 200 (repr s))) in
  let body := lstrip s in
  let '(negative, body) :=
    match body with
    | String "+" rest => (false, rest)
    | String "-" rest => (true, rest)
    | _ => (false, body)
    end in
  match body with
  | String "_" _ => invalid
  | _ =>
      match scan_digits body 0 0 false with
      | None => invalid
      | Some (value, digits, rest) =>
          if max_str_digits <? digits then
            Raise (ValueError
                     ("Exceeds the limit (" ++ str max_str_digits
                      ++ " digits) for integer string conversion: value has "
                      ++ str digits
                      ++ " digits; use sys.set_int_max_str_digits() to increase the limit"))
          else if digits =? 0 then invalid
          else
            match lstrip rest with
            | EmptyString => Ok (if negative then - value else value)
            | _ => invalid
            end
      end
  end.

(** [c.isspace()] for a character below 256: what [str.strip] removes. *)
Definition isspace (c : ascii) : bool :=
  let n := code_point c in
  ((9 <=? n) && (n <=? 13)) || ((28 <=? n) && (n <=? 32))
  || (n =? 133) || (n =? 160).

Fixpoint lstrip_space (s : string) : string :=
  match s with
  | String c rest => if isspace c then lstrip_space rest else s
  | EmptyString => EmptyString
  end.

Fixpoint rstrip_space (s : string) : string :=
  match s with
  | EmptyString => EmptyString
  | String c rest =>
      match rstrip_space rest with
      | EmptyString => if isspace c then EmptyString else String c EmptyString
      | kept => String c kept
      end
  end.

(** [s.strip()]. *)
Definition strip (s : string) : string := rstrip_space (lstrip_space s).

(** [s.startswith(prefix)]. *)
Definition startswith (s prefix : string) : bool := String.prefix prefix s.

(** [s[n:]]. *)
Fixpoint drop (n : nat) (s : string) : string :=
  match n, s with
  | S n', String _ rest => drop n' rest
  | _, _ => s
  end.

(** [s.split(sep)[0]] for a separator that is not empty: [s] up to the
    first [sep]. *)
Fixpoint before (sep s : string) : string :=
  match s with
  | EmptyString => EmptyString
  | String c rest =>
      if String.prefix sep s then EmptyString else String c (before sep rest)
  end.

(** [x in xs] for a list of strings. *)
Definition contains (x : string) (xs : list string) : bool :=
  existsb (String.eqb x) xs.

(** A [dict] with [str] keys, in insertion order. *)
Definition dict (V : Type) : Type := list (string * V).

Fixpoint lookup {V : Type} (key : string) (d : dict V) : option V :=
  match d with
  | [] => None
  | (k, v) :: rest => if String.eqb key k then Some v else lookup key rest
  end.

Definition keys {V : Type} (d : dict V) : list string := map fst d.

End Py.

Notation "x <- m ;; k" := (Py.bind m (fun x => k))
  (at level 61, m at next level, right associativity).

(* ================================================================== *)
(** ** The standard library's [random.Random]

    CPython's generator is MT19937: [Random(seed)] keys the state with
    [init_by_array] on the 32-bit digits of [abs(seed)], and [random()]
    joins two tempered outputs into a 53-bit fraction. *)

Module PyRandom.

Definition N : Z := 624.
Definition M : Z := 397.
Definition MATRIX_A : Z := 0x9908b0df.
Definition UPPER_MASK : Z := 0x80000000.
Definition LOWER_MASK : Z := 0x7fffffff.

Definition u32 (x : Z) : Z := Z.land x 0xffffffff.

Definition mt_get (mt : list Z) (i : Z) : Z := nth (Z.to_nat i) mt 0.

Fixpoint upd_nat (mt : list Z) (i : nat) (v : Z) : list Z :=
  match mt, i with
  | [], _ => []
  | _ :: rest, O => v :: rest
  | x :: rest, S i' => x :: upd_nat rest i' v
  end.

Definition mt_set (mt : list Z) (i : Z) (v : Z) : list Z :=
  upd_nat mt (Z.to_nat i) v.

(** [init_genrand(s)]: mt[0] = s, then
    mt[i] = 1812433253 * (mt[i-1] ^ (mt[i-1] >> 30)) + i. *)
Fixpoint init_genrand_from (count : nat) (mti : Z) (prev : Z) : list Z :=
  match count with
  | O => []
  | S count' =>
      let x := u32 (1812433253 * Z.lxor prev (Z.shiftr prev 30) + mti) in
      x :: init_genrand_from count' (mti + 1) x
  end.

Definition init_genrand (s : Z) : list Z :=
  u32 s :: init_genrand_from 623 1 (u32 s).

(** The 32-bit digits of a non-negative integer, least significant
    first; zero has the single digit 0. *)
Fixpoint key_digits (fuel : nat) (n : Z) : list Z :=
  match fuel with
  | O => []
  | S fuel' =>
      if n <? 0x100000000 then [n]
      else u32 n :: key_digits fuel' (Z.shiftr n 32)
  end.

Definition key_of_seed (seed : Z) : list Z :=
  let n := Z.abs seed in
  key_digits (S (Z.to_nat (Z.log2 n))) n.

(** First loop of [init_by_array]. *)
Fixpoint mix_key (k : nat) (key : list Z) (mt : list Z) (i j : Z)
  : list Z * Z :=
  match k with
  | O => (mt, i)
  | S k' =>
      let p := mt_get mt (i - 1) in
      let v := u32 (Z.lxor (mt_get mt i)
                           (Z.lxor p (Z.shiftr p 30) * 1664525)
                    + mt_get key j + j) in
      let mt := mt_set mt i v in
      let i := i + 1 in
      let j := j + 1 in
      let '(mt, i) :=
        if N <=? i then (mt_set mt 0 (mt_get mt (N - 1)), 1) else (mt, i) in
      let j := if Z.of_nat (List.length key) <=? j then 0 else j in
      mix_key k' key mt i j
  end.

(** Second loop of [init_by_array]. *)
Fixpoint mix_index (k : nat) (mt : list Z) (i : Z) : list Z :=
  match k with
  | O => mt
  | S k' =>
      let p := mt_get mt (i - 1) in
      let v := u32 (Z.lxor (mt_get mt i)
                           (Z.lxor p (Z.shiftr p 30) * 1566083941)
                    - i) in
      let mt := mt_set mt i v in
      let i := i + 1 in
      let '(mt, i) :=
        if N <=? i then (mt_set mt 0 (mt_get mt (N - 1)), 1) else (mt, i) in
      mix_index k' mt i
  end.

Definition init_by_array (key : list Z) : list Z :=
  let mt := init_genrand 19650218 in
  let k := Z.max N (Z.of_nat (List.length key)) in
  let '(mt, i) := mix_key (Z.to_nat k) key mt 1 0 in
  let mt := mix_index (Z.to_nat (N - 1)) mt i in
  mt_set mt 0 0x80000000.

(** The generator: the state vector and the index of the next word. *)
Record Random : Type := mkRandom { mt : list Z; mti : Z }.

(** [random.Random(seed)] for an [int] seed. *)
Definition seeded (seed : Z) : Random :=
  mkRandom (init_by_array (key_of_seed seed)) N.

Definition mag01 (y : Z) : Z :=
  if Z.testbit y 0 then MATRIX_A else 0.

Definition twist_word (mt : list Z) (kk next src : Z) : list Z :=
  let y := Z.lor (Z.land (mt_get mt kk) UPPER_MASK)
                 (Z.land (mt_get mt next) LOWER_MASK) in
  mt_set mt kk (Z.lxor (Z.lxor (mt_get mt src) (Z.shiftr y 1)) (mag01 y)).

(** The two regeneration loops, [kk] running upwards. *)
Fixpoint twist_loop (count : nat) (kk offset : Z) (mt : list Z) : list Z :=
  match count with
  | O => mt
  | S count' =>
      twist_loop count' (kk + 1) offset (twist_word mt kk (kk + 1) (kk + offset))
  end.

Definition regenerate (mt : list Z) : list Z :=
  let mt := twist_loop (Z.to_nat (N - M)) 0 M mt in
  let mt := twist_loop (Z.to_nat (M - 1)) (N - M) (M - N) mt in
  twist_word mt (N - 1) 0 (M - 1).

Definition temper (y : Z) : Z :=
  let y := Z.lxor y (Z.shiftr y 11) in
  let y := Z.lxor y (Z.land (Z.shiftl y 7) 0x9d2c5680) in
  let y := Z.lxor y (Z.land (Z.shiftl y 15) 0xefc60000) in
  Z.lxor y (Z.shiftr y 18).

(** [genrand_uint32]: the next 32-bit output and the advanced state. *)
Definition genrand_uint32 (g : Random) : Z * Random :=
  let g := if N <=? mti g then mkRandom (regenerate (mt g)) 0 else g in
  (u32 (temper (mt_get (mt g) (mti g))), mkRandom (mt g) (mti g + 1)).

(** The 53-bit numerator of [random()]: (a >> 5) * 2^26 + (b >> 6). *)
Definition random_bits (g : Random) : Z * Random :=
  let '(a, g) := genrand_uint32 g in
  let '(b, g) := genrand_uint32 g in
  (Z.shiftr a 5 * 67108864 + Z.shiftr b 6, g).

(** [g.random()]: the float numerator / 2^53, which is exact. *)
Definition random (g : Random) : Q * Random :=
  let '(n, g) := random_bits g in
  (Qmake n 9007199254740992, g).

End PyRandom.

(* ------------------------------------------------------------------ *)
(** *** [Random.choices] with [k = 1] *)

Module PyChoices.

(** The double nearest to [num / 2^shift] for [num >= 0], ties to even,
    as a rational; exact when [num] has at most 53 bits. *)
Definition nearest_double (num shift : Z) : Q :=
  let bits := if num =? 0 then 0 else Z.log2 num + 1 in
  if bits <=? 53 then Qmake num (Z.to_pos (2 ^ shift))
  else
    let sh := bits - 53 in
    let q := Z.shiftr num sh in
    let r := Z.land num (2 ^ sh - 1) in
    let half := 2 ^ (sh - 1) in
    let up := (half <? r) || ((half =? r) && Z.odd q) in
    Qmake ((if up then q + 1 else q) * 2 ^ sh) (Z.to_pos (2 ^ shift)).

(** [float(n)] for an [int], as [n + 0.0] and [x * n] convert it: the
    nearest double, ties to even, or [OverflowError] beyond the doubles. *)
Definition float_of_int (n : Z) : Py.Result Q :=
  let x := nearest_double (Z.abs n) 0 in
  if Qle_bool (inject_Z (2 ^ 1024)) x then
    Py.Raise (Py.OverflowError "int too large to convert to float")
  else Py.Ok (if n <? 0 then Qopp x else x).

(** The first [int] that has no double: it would round to 2^1024. *)
Definition float_limit : Z := 2 ^ 1024 - 2 ^ 970.

(** [itertools.accumulate(weights)]. *)
Fixpoint accumulate_from (acc : Z) (weights : list Z) : list Z :=
  match weights with
  | [] => []
  | w :: rest => (acc + w) :: accumulate_from (acc + w) rest
  end.

Definition accumulate (weights : list Z) : list Z :=
  accumulate_from 0 weights.

Definition Qltb (x y : Q) : bool :=
  match Qcompare x y with
  | Lt => true
  | _ => false
  end.

(** [bisect.bisect_right(a, x, lo, hi)]. *)
Fixpoint bisect (fuel : nat) (a : list Z) (x : Q) (lo hi : Z) : Z :=
  match fuel with
  | O => lo
  | S fuel' =>
      if lo <? hi then
        let mid := (lo + hi) / 2 in
        if Qltb x (inject_Z (nth (Z.to_nat mid) a 0))
        then bisect fuel' a x lo mid
        else bisect fuel' a x (mid + 1) hi
      else lo
  end.

(** [rng.choices(population, weights=weights, k=1)[0]] for integer
    weights on a non-empty population.  The total is converted to a float
    ([cum_weights[-1] + 0.0]), which is finite when the conversion does
    not raise; [random() * total] is the product of two doubles. *)
Definition choices (rng : PyRandom.Random) (population : list string)
           (weights : list Z) : Py.Result string :=
  let n := Z.of_nat (List.length population) in
  let cum_weights := accumulate weights in
  if negb (Z.of_nat (List.length cum_weights) =? n) then
    Py.Raise (Py.ValueError "The number of weights does not match the population")
  else
    total <- float_of_int (last cum_weights 0) ;;
    if Qle_bool total 0 then
      Py.Raise (Py.ValueError "Total of weights must be greater than zero")
    else
      let x :=
        nearest_double (fst (PyRandom.random_bits rng) * Qnum total) 53 in
      let i := bisect (S (List.length population)) cum_weights x 0 (n - 1) in
      Py.Ok (nth (Z.to_nat i) population EmptyString).

End PyChoices.

(* ------------------------------------------------------------------ *)
(** *** Numbers: [int] and [float], and their product *)

Module PyNumber.

(** A [float]: a finite double as the rational it denotes, an infinity
    or a NaN; the sign of a zero is not kept. *)
Inductive Float : Type :=
| Finite (x : Q)
| Infinite (negative : bool)
| NaN.

(** A number of a playbook: an [int] or a [float]. *)
Inductive Number : Type :=
| Int (n : Z)
| Flt (x : Float).

(** The double nearest to the rational [num / den] for [num > 0], ties to
    even, with gradual underflow; an infinity from 2^1024 on. *)
Definition round_positive (num den : Z) : Float :=
  let e0 := Z.log2 num - Z.log2 den in
  let below :=
    if 0 <=? e0 then num <? den * 2 ^ e0 else num * 2 ^ (- e0) <? den in
  let e := if below then e0 - 1 else e0 in
  let p := Z.max (e - 52) (-1074) in
  let n' := if 0 <=? p then num else num * 2 ^ (- p) in
  let d' := if 0 <=? p then den * 2 ^ p else den in
  let q := n' / d' in
  let r := n' mod d' in
  let up := (d' <? 2 * r) || ((d' =? 2 * r) && Z.odd q) in
  let m := if up then q + 1 else q in
  let value := if 0 <=? p then Qmake (m * 2 ^ p) 1
               else Qmake m (Z.to_pos (2 ^ (- p))) in
  if Qle_bool (inject_Z (2 ^ 1024)) value then Infinite false
  else Finite value.

Definition negate (x : Float) : Float :=
  match x with
  | Finite q => Finite (Qopp q)
  | Infinite negative => Infinite (negb negative)
  | NaN => NaN
  end.

(** The double nearest to a rational. *)
Definition round_double (q : Q) : Float :=
  match Qnum q with
  | Z0 => Finite 0
  | Zpos n => round_positive (Zpos n) (Zpos (Qden q))
  | Zneg n => negate (round_positive (Zpos n) (Zpos (Qden q)))
  end.

(** [x * y] for two floats. *)
Definition float_mul (x y : Float) : Float :=
  match x, y with
  | NaN, _ | _, NaN => NaN
  | Finite a, Finite b => round_double (a * b)
  | Infinite s, Finite b | Finite b, Infinite s =>
      match Qnum b with
      | Z0 => NaN
      | Zpos _ => Infinite s
      | Zneg _ => Infinite (negb s)
      end
  | Infinite s, Infinite t => Infinite (xorb s t)
  end.

(** [x * n] for a number [x] and an [int] [n]: exact on two ints; with a
    float, [n] is converted first and the product rounded. *)
Definition mul_int (x : Number) (n : Z) : Py.Result Number :=
  match x with
  | Int a => Py.Ok (Int (a * n))
  | Flt a =>
      f <- PyChoices.float_of_int n ;;
      Py.Ok (Flt (float_mul a (Finite f)))
  end.

End PyNumber.

(* ================================================================== *)
(** ** [chaos_agent_universal.py] *)

Module ChaosAgentUniversal.

(** The fields of [ChaosAgentConfig] that the decisions read. *)
Record ChaosAgentConfig : Type := mkConfig {
  default_failure_rate : Q;
  default_seed : Z;
  error_weights : Py.dict Z;
  mock_success_enabled : bool
}.

(** One entry of [chaos_strategies[operation_id]]. *)
Record ErrorInfo : Type := mkErrorInfo {
  message : string;
  http_method : string;
  path : string
}.

(** The agent: its configuration, the error table read from the API
    description, and the attribute [_call_counter], which does not
    exist until [_should_inject_chaos] first sets it. *)
Record ChaosAgent : Type := mkAgent {
  config : ChaosAgentConfig;
  chaos_strategies : Py.dict (Py.dict ErrorInfo);
  _call_counter : option Z
}.

Definition set_call_counter (self : ChaosAgent) (c : Z) : ChaosAgent :=
  mkAgent (config self) (chaos_strategies self) (Some c).

(** The variate of draw [draw_index] under [seed]:
    [random.Random(seed + draw_index).random()]. *)
Definition variate (seed draw_index : Z) : Q :=
  fst (PyRandom.random (PyRandom.seeded (seed + draw_index))).

(** [_should_inject_chaos(self, failure_rate, seed)]. *)
Definition _should_inject_chaos (self : ChaosAgent) (failure_rate : Q)
           (seed : Z) : bool * ChaosAgent :=
  if Qle_bool failure_rate 0 then (false, self)
  else if Qle_bool 1 failure_rate then (true, self)
  else
    let counter := Py.get (_call_counter self) 0 + 1 in
    let self := set_call_counter self counter in
    let varied_seed := seed + counter in
    let rng := PyRandom.seeded varied_seed in
    (PyChoices.Qltb (fst (PyRandom.random rng)) failure_rate, self).

(** [select_error_code(self, tool_name, seed)]. *)
Definition select_error_code (self : ChaosAgent) (tool_name : string)
           (seed : Z) : Py.Result string :=
  match Py.lookup tool_name (chaos_strategies self) with
  | None => Py.Ok "400"%string
  | Some errors =>
      let available_errors := Py.keys errors in
      match available_errors with
      | [] => Py.Ok "400"%string
      | _ =>
          let weights :=
            map (fun code => Py.get (Py.lookup code (error_weights (config self))) 10)
                available_errors in
          let rng := PyRandom.seeded seed in
          PyChoices.choices rng available_errors weights
      end
  end.

(** Response bodies: the mocked success payload is opaque. *)
Inductive Body : Type :=
| MockData
| MockDisabled
| ErrorBody (code type message : string).

Record Response : Type := mkResponse {
  status_code : Z;
  body : Body;
  error : option string;
  tool_name : string;
  chaos_injected : bool
}.

(** [mock_success_response(self, tool_name, params)]. *)
Definition mock_success_response (self : ChaosAgent) (tool : string)
  : Response :=
  if negb (mock_success_enabled (config self))
  then mkResponse 200 MockDisabled None tool false
  else mkResponse 200 MockData None tool false.

(** [mock_error_response(self, tool_name, error_code)]. *)
Definition mock_error_response (self : ChaosAgent) (tool : string)
           (error_code : string) : Py.Result Response :=
  match Py.lookup tool (chaos_strategies self) with
  | None =>
      Py.Ok (mkResponse 404
               (ErrorBody "404" "error" ("Unknown operation: " ++ tool))
               (Some "Unknown operation"%string) tool false)
  | Some errors =>
      match Py.lookup error_code errors with
      | None =>
          Py.Ok (mkResponse 500
                   (ErrorBody "500" "error" "Internal server error")
                   (Some "Internal error"%string) tool true)
      | Some strategy =>
          code <- Py.int error_code ;;
          Py.Ok (mkResponse code
                            (ErrorBody error_code "error" (message strategy))
                            (Some ("HTTP " ++ error_code)%string) tool true)
      end
  end.

(** [call(self, tool_name, params, failure_rate=None, seed=None)]. *)
Definition call (self : ChaosAgent) (tool : string)
           (failure_rate : option Q) (seed : option Z)
  : Py.Result Response * ChaosAgent :=
  let failure_rate := Py.get failure_rate (default_failure_rate (config self)) in
  let seed := Py.get seed (default_seed (config self)) in
  let '(inject_chaos, self) := _should_inject_chaos self failure_rate seed in
  if negb inject_chaos then (Py.Ok (mock_success_response self tool), self)
  else
    (error_code <- select_error_code self tool seed ;;
     mock_error_response self tool error_code, self).

(** Successive calls on one agent for one operation and one seed, one
    call per failure rate given. *)
Fixpoint call_sequence (rates : list (option Q)) (self : ChaosAgent)
         (tool : string) (seed : option Z) : list (Py.Result Response) :=
  match rates with
  | [] => []
  | failure_rate :: rates' =>
      let '(r, self) := call self tool failure_rate seed in
      r :: call_sequence rates' self tool seed
  end.

(** The status code of a response, when there is one. *)
Definition status_of (r : Py.Result Response) : option Z :=
  match r with
  | Py.Ok response => Some (status_code response)
  | Py.Raise _ => None
  end.

(** Agents that differ at most in their call counter. *)
Definition same_tables (a b : ChaosAgent) : Prop :=
  config a = config b /\ chaos_strategies a = chaos_strategies b.

(** What an injected failure of [tool] under [seed] looks like. *)
Definition injected_failure (self : ChaosAgent) (tool : string) (seed : Z)
  : Py.Result Response :=
  error_code <- select_error_code self tool seed ;;
  mock_error_response self tool error_code.

(** Two agents for worked examples: one with the petstore's error table
    for [getPetById], one with no table at all. *)
Definition petstore_agent (counter : option Z) : ChaosAgent :=
  mkAgent
    (mkConfig 0 42 [("400", 40); ("404", 30); ("422", 20); ("500", 10)]%string
              true)
    [("getPetById",
      [("400", mkErrorInfo "Invalid ID supplied" "GET" "/pet/{petId}");
       ("404", mkErrorInfo "Pet not found" "GET" "/pet/{petId}")])]%string
    counter.

Definition bare_agent (counter : option Z) : ChaosAgent :=
  mkAgent (mkConfig 1 7 [] false) [] counter.

End ChaosAgentUniversal.

(* ================================================================== *)
(** ** The reasoner's reply

    The language model and [json.loads] are outside the repository: a
    reply is what the [try] block has in hand once [json.loads] was
    attempted on the text the agent hands it ([read_reply] in [V3] and
    in [V2]). *)

Module Json.

(** The values [json.loads] builds. *)
#[warnings="-register-all"]
Inductive value : Type :=
| Null
| Bool (b : bool)
| Int (n : Z)
| Float (x : Q)
| Str (s : string)
| Arr (items : list value)
| Obj (fields : Py.dict value).

(** [bool(v)]. *)
Definition truthy (v : value) : bool :=
  match v with
  | Null => false
  | Bool b => b
  | Int n => negb (n =? 0)
  | Float x => negb (Qeq_bool x 0)
  | Str s => negb (String.eqb s EmptyString)
  | Arr [] => false
  | Arr _ => true
  | Obj [] => false
  | Obj _ => true
  end.

Definition type_name (v : value) : string :=
  match v with
  | Null => "NoneType"
  | Bool _ => "bool"
  | Int _ => "int"
  | Float _ => "float"
  | Str _ => "str"
  | Arr _ => "list"
  | Obj _ => "dict"
  end.

(** [v.get(key, default)]: only a dict has [get]. *)
Definition get (v : value) (key : string) (default : value)
  : Py.Result value :=
  match v with
  | Obj fields => Py.Ok (Py.get (Py.lookup key fields) default)
  | _ => Py.Raise (Py.AttributeError
                     ("'" ++ type_name v ++ "' object has no attribute 'get'"))
  end.

(** [v[key]] for a [str] key. *)
Definition subscript (v : value) (key : string) : Py.Result value :=
  match v with
  | Obj fields => Py.subscript key (Py.lookup key fields)
  | Str _ => Py.Raise (Py.TypeError "string indices must be integers")
  | Arr _ => Py.Raise (Py.TypeError "list indices must be integers or slices, not str")
  | _ => Py.Raise (Py.TypeError
                     ("'" ++ type_name v ++ "' object is not subscriptable"))
  end.

(** What the reasoner step produced: the call (or reading its text)
    raised, [json.loads] rejected the text it was handed, or a value was
    parsed out of it. *)
Inductive Reply : Type :=
| CallRaised (msg : string)
| Malformed (msg : string)
| Parsed (v : value).

Definition loaded (r : Reply) : Py.Result value :=
  match r with
  | CallRaised msg => Py.Raise (Py.ReasonerError msg)
  | Malformed msg => Py.Raise (Py.JSONDecodeError msg)
  | Parsed v => Py.Ok v
  end.

(** The replies the v3 [try] cannot turn into a decision: the call
    raised, [json.loads] rejected what it was handed, or what it parsed
    was not an object. *)
Definition unusable (r : Reply) : bool :=
  match r with
  | Parsed (Obj _) => false
  | _ => true
  end.

(** The replies the v2 [try] cannot turn into a decision: those of
    [unusable], and objects without one of the entries it subscripts. *)
Definition nonconforming (r : Reply) : bool :=
  match r with
  | Parsed (Obj fields) =>
      match Py.lookup "should_retry" fields, Py.lookup "reasoning" fields,
            Py.lookup "confidence" fields with
      | Some _, Some _, Some _ => false
      | _, _, _ => true
      end
  | _ => true
  end.

End Json.

(* ================================================================== *)
(** ** The records of [test_agent_adk_v3.py] *)

Module Adk.

Record TestAgentMetrics : Type := mkMetrics {
  total_tests : Z;
  passed : Z;
  failed : Z;
  total_attempts : Z;
  llm_calls : Z;
  tool_calls : Z;
  tests_with_llm_reasoning : Z
}.

(** One entry of [playbook['procedures']]. *)
Record Procedure : Type := mkProcedure {
  error_codes : option (list string);
  recovery_strategy : option string
}.

Record Playbook : Type := mkPlaybook {
  procedures : option (list Procedure)
}.

(** The dict [_tool_check_playbook] returns. *)
Record Strategy : Type := mkStrategy {
  strategy_error_code : Z;
  strategy_action : string;
  strategy_max_retries : Z
}.

(** The dict a retry decision is. *)
Record Decision : Type := mkDecision {
  action : string;
  reason : Json.value;
  confidence : Json.value;
  error_type : Json.value;
  llm_reasoning : option Json.value;
  llm_called : bool
}.

(** What [chaos_agent_func] returned. *)
Record CallResult : Type := mkCallResult {
  status_code : option Z;
  error : option string
}.

(** The dict [_run_single_test] returns; [None] is an absent key. *)
Record TestResult : Type := mkTestResult {
  test_id : string;
  operation : string;
  ok : bool;
  attempts : Z;
  final_status : option Z;
  result_error : option string;
  result_reason : option string;
  decision : option Decision
}.

(** The collaborators of one run: the operation behind
    [chaos_agent_func] and the reasoner, each answering its [n]-th
    invocation. *)
Record Env : Type := mkEnv {
  chaos_agent_func : nat -> CallResult;
  reasoner : nat -> Json.Reply
}.

(** The mutable state of a run: the agent's metrics, how often each
    collaborator was invoked, the delays slept and the decisions taken,
    oldest first. *)
Record State : Type := mkState {
  metrics : TestAgentMetrics;
  operations_called : nat;
  reasoner_asked : nat;
  slept : list Q;
  decisions_made : list Decision
}.

Definition with_metrics (st : State) (m : TestAgentMetrics) : State :=
  mkState m (operations_called st) (reasoner_asked st) (slept st)
          (decisions_made st).

Definition count_tool_call (st : State) : State :=
  let m := metrics st in
  with_metrics st
    (mkMetrics (total_tests m) (passed m) (failed m) (total_attempts m)
               (llm_calls m) (tool_calls m + 1) (tests_with_llm_reasoning m)).

Definition count_attempt (st : State) : State :=
  let m := metrics st in
  with_metrics st
    (mkMetrics (total_tests m) (passed m) (failed m) (total_attempts m + 1)
               (llm_calls m) (tool_calls m) (tests_with_llm_reasoning m)).

Definition count_llm_call (st : State) : State :=
  let m := metrics st in
  with_metrics st
    (mkMetrics (total_tests m) (passed m) (failed m) (total_attempts m)
               (llm_calls m + 1) (tool_calls m)
               (tests_with_llm_reasoning m + 1)).

(** [await asyncio.sleep(delay)]. *)
Definition sleep (delay : Q) (st : State) : State :=
  mkState (metrics st) (operations_called st) (reasoner_asked st)
          (slept st ++ [delay]) (decisions_made st).

Definition record_decision (d : Decision) (st : State) : State :=
  mkState (metrics st) (operations_called st) (reasoner_asked st)
          (slept st) (decisions_made st ++ [d]).

(** [_tool_call_operation(self, operation, params)]. *)
Definition _tool_call_operation (env : Env) (st : State)
  : CallResult * State :=
  let st := count_tool_call st in
  let result := chaos_agent_func env (operations_called st) in
  (result,
   mkState (metrics st) (S (operations_called st)) (reasoner_asked st)
           (slept st) (decisions_made st)).

(** The search of [_tool_check_playbook] through the procedures. *)
Fixpoint find_strategy (error_code : Z) (error_key : string)
         (procs : list Procedure) : Py.Result Strategy :=
  match procs with
  | [] => Py.Ok (mkStrategy error_code "fail" 0)
  | procedure :: rest =>
      if Py.contains error_key (Py.get (error_codes procedure) [])
      then
        action <- Py.subscript "recovery_strategy" (recovery_strategy procedure) ;;
        Py.Ok (mkStrategy error_code action 3)
      else find_strategy error_code error_key rest
  end.

(** [_tool_check_playbook(self, error_code)]. *)
Definition _tool_check_playbook (playbook : Playbook) (error_code : Z)
           (st : State) : Py.Result Strategy * State :=
  let st := count_tool_call st in
  let error_key := Py.str error_code in
  (find_strategy error_code error_key (Py.get (procedures playbook) []), st).

(** The decision built from a parsed reply. *)
Definition llm_decision (result_json : Json.value) : Py.Result Decision :=
  should_retry <- Json.get result_json "should_retry" (Json.Bool false) ;;
  reasoning <- Json.get result_json "reasoning" (Json.Str "No reasoning") ;;
  conf <- Json.get result_json "confidence" (Json.Float (1 # 2)) ;;
  etype <- Json.get result_json "error_type" (Json.Str "unknown") ;;
  Py.Ok (mkDecision (if Json.truthy should_retry then "retry" else "fail")
                    reasoning conf etype (Some result_json) true).

(** The heuristic of the [except] branch. *)
Definition heuristic_should_retry (error_code attempt max_retries : Z) : bool :=
  negb (error_code =? 400) && negb (error_code =? 422)
  && (attempt <? max_retries).

Definition fallback_decision (error_code attempt max_retries : Z)
           (why : string) : Decision :=
  mkDecision
    (if heuristic_should_retry error_code attempt max_retries
     then "retry" else "fail")
    (Json.Str why) (Json.Float (1 # 2)) (Json.Str "unknown") None false.

(** The two assignments to [delay] in [_tool_apply_backoff]:
    [base_delay * (2 ** (attempt - 1))], then [min(delay, 10)]. *)
Definition backoff_delay (attempt : Z) (base_delay : Q) : Q :=
  let delay := (base_delay * Qpower 2 (attempt - 1))%Q in
  Qmin delay 10.

(** [_tool_apply_backoff(self, attempt, base_delay=0.5)]: it returns the
    delay it slept as [delay_applied].  The integer [2 ** (attempt - 1)]
    is converted to a float for the product, which raises from 2^1024
    on. *)
Definition _tool_apply_backoff (attempt : Z) (base_delay : Q) (st : State)
  : Py.Result Q * State :=
  let st := count_tool_call st in
  if 1024 <=? attempt - 1 then
    (Py.Raise (Py.OverflowError "int too large to convert to float"), st)
  else
    let delay := backoff_delay attempt base_delay in
    (Py.Ok delay, sleep delay st).

Definition default_base_delay : Q := 1 # 2.

End Adk.

(* ================================================================== *)
(** ** [test_agent_adk_v3.py] *)

Module V3.

Import Adk.

(** What [decide_retry_tool] hands to [json.loads]: the reply stripped
    and, when it then starts with a fence of three backquotes, what
    stands between that fence and the next one, less a leading "json",
    stripped again. *)
Definition response_text (text : string) : string :=
  let response_text := Py.strip text in
  if Py.startswith response_text "```" then
    let response_text := Py.before "```" (Py.drop 3 response_text) in
    let response_text :=
      if Py.startswith response_text "json" then Py.drop 4 response_text
      else response_text in
    Py.strip response_text
  else response_text.

(** The reply of one reasoner step: [response] is what
    [model.generate_content(prompt).text] gave or raised, [loads] is
    [json.loads]. *)
Definition read_reply (loads : string -> Py.Result Json.value)
           (response : Py.Result string) : Json.Reply :=
  match response with
  | Py.Raise e => Json.CallRaised (Py.message e)
  | Py.Ok text =>
      match loads (response_text text) with
      | Py.Raise e => Json.Malformed (Py.message e)
      | Py.Ok v => Json.Parsed v
      end
  end.

(** [decide_retry_tool(error_code, attempt, max_retries,
    strategy_action)], given the reasoner's reply: the whole body is
    one [try] whose [except Exception] computes the heuristic. *)
Definition decide_retry_tool (error_code attempt max_retries : Z)
           (strategy_action : string) (reply : Json.Reply)
  : Py.Result Decision :=
  match (result_json <- Json.loaded reply ;; llm_decision result_json) with
  | Py.Ok decision => Py.Ok decision
  | Py.Raise e =>
      Py.Ok (fallback_decision error_code attempt max_retries
                               "Fallback heuristic")
  end.

(** [_tool_decide_retry(self, error_code, attempt, max_retries,
    strategy)]. *)
Definition _tool_decide_retry (env : Env) (error_code attempt max_retries : Z)
           (strategy : Strategy) (st : State)
  : Py.Result Decision * State :=
  let st := count_llm_call st in
  let reply := reasoner env (reasoner_asked st) in
  let st := mkState (metrics st) (operations_called st)
                    (S (reasoner_asked st)) (slept st) (decisions_made st) in
  let decision :=
    decide_retry_tool error_code attempt max_retries
                      (strategy_action strategy) reply in
  match decision with
  | Py.Ok d => (decision, record_decision d st)
  | Py.Raise _ => (decision, st)
  end.

Definition max_retries : Z := 3.

(** The [while attempt < max_retries] loop of [_run_single_test] and the
    [return] after it; [None] only when [fuel] iterations were not
    enough to leave the loop. *)
Fixpoint retry_loop (fuel : nat) (env : Env) (playbook : Playbook)
         (test_id operation : string) (attempt : Z) (st : State)
  : option (Py.Result TestResult * State) :=
  match fuel with
  | O => None
  | S fuel' =>
      if attempt <? max_retries then
        let attempt := attempt + 1 in
        let st := count_attempt st in
        let '(result, st) := _tool_call_operation env st in
        let status_code := Py.get (status_code result) 500 in
        let error := error result in
        if status_code =? 200 then
          Some (Py.Ok (mkTestResult test_id operation true attempt
                                    (Some status_code) None None None), st)
        else
          let '(strategy, st) := _tool_check_playbook playbook status_code st in
          match strategy with
          | Py.Raise e => Some (Py.Raise e, st)
          | Py.Ok strategy =>
              let '(decision, st) :=
                _tool_decide_retry env status_code attempt max_retries
                                   strategy st in
              match decision with
              | Py.Raise e => Some (Py.Raise e, st)
              | Py.Ok decision =>
                  if negb (String.eqb (action decision) "retry")
                     || (max_retries <=? attempt)
                  then
                    Some (Py.Ok (mkTestResult test_id operation false attempt
                                              (Some status_code) error
                                              (Some (action decision))
                                              (Some decision)), st)
                  else
                    let '(applied, st) :=
                      _tool_apply_backoff attempt default_base_delay st in
                    match applied with
                    | Py.Raise e => Some (Py.Raise e, st)
                    | Py.Ok _ =>
                        retry_loop fuel' env playbook test_id operation
                                   attempt st
                    end
              end
          end
      else
        Some (Py.Ok (mkTestResult test_id operation false attempt
                                  None None (Some "max_retries_exceeded"%string)
                                  None), st)
  end.

(** [_run_single_test(self, test_id, operation, params)]. *)
Definition _run_single_test (env : Env) (playbook : Playbook)
           (test_id operation : string) (st : State)
  : option (Py.Result TestResult * State) :=
  retry_loop (S (Z.to_nat max_retries)) env playbook test_id operation 0 st.

End V3.

(* ================================================================== *)
(** ** [test_agent_adk_v2.py] *)

Module V2.

(** A playbook procedure names its error code as a number or a string. *)
Inductive Code : Type :=
| CodeInt (n : Z)
| CodeStr (s : string).

Definition str_code (c : Code) : string :=
  match c with
  | CodeInt n => Py.str n
  | CodeStr s => s
  end.

(** One entry of [playbook['procedures']]; its [backoff_seconds] is a
    number. *)
Record Procedure : Type := mkProcedure {
  proc_error_code : option Code;
  proc_action : option string;
  proc_max_retries : option Z;
  proc_backoff_seconds : option PyNumber.Number;
  proc_reason : option string
}.

Record Playbook : Type := mkPlaybook {
  procedures : option (list Procedure)
}.

(** A strategy dict; [None] is an absent key. *)
Record Strategy : Type := mkStrategy {
  found : bool;
  strategy_error_code : Z;
  strategy_action : option string;
  strategy_max_retries : option Z;
  strategy_backoff_seconds : option PyNumber.Number;
  strategy_reason : option string
}.

(** A decision dict: the reasoner's decisions carry [confidence],
    [error_type] and [llm_reasoning], the fallback's carry [fallback]. *)
Record Decision : Type := mkDecision {
  action : string;
  reason : Json.value;
  confidence : option Json.value;
  error_type : option Json.value;
  decision_attempt : Z;
  decision_max_retries : Z;
  llm_reasoning : option Json.value;
  llm_called : bool;
  fallback : option bool
}.

Record CallResult : Type := mkCallResult {
  status_code : option Z;
  error : option string;
  chaos_injected : option bool
}.

(** The [decision] entry of a result: a decision taken, or the literal
    [{'action': 'success'}]. *)
Inductive Outcome : Type :=
| Taken (d : Decision)
| Success.

Record TestResult : Type := mkTestResult {
  test_id : string;
  operation : string;
  result_status_code : Z;
  ok : bool;
  result_chaos_injected : bool;
  result_error : option string;
  attempts : Z;
  decision : Outcome;
  playbook_used : bool;
  llm_used : bool
}.

Record Env : Type := mkEnv {
  chaos_agent_func : option (nat -> Py.Result CallResult);
  reasoner : nat -> Json.Reply
}.

Record State : Type := mkState {
  llm_calls : Z;
  tool_calls : Z;
  operations_called : nat;
  reasoner_asked : nat;
  slept : list PyNumber.Number
}.

(** [_tool_call_operation(self, operation_id, params)]. *)
Definition _tool_call_operation (env : Env) (st : State)
  : CallResult * State :=
  let st := mkState (llm_calls st) (tool_calls st + 1) (operations_called st)
                    (reasoner_asked st) (slept st) in
  match chaos_agent_func env with
  | None =>
      (mkCallResult (Some 500) (Some "ChaosAgent not initialized"%string)
                    (Some false), st)
  | Some func =>
      let st' := mkState (llm_calls st) (tool_calls st)
                         (S (operations_called st)) (reasoner_asked st)
                         (slept st) in
      match func (operations_called st) with
      | Py.Ok result => (result, st')
      | Py.Raise e =>
          (mkCallResult (Some 500) (Some (Py.message e)) (Some false), st')
      end
  end.

(** [_tool_check_playbook(self, error_code)]. *)
Fixpoint find_strategy (error_code : Z) (procs : list Procedure) : Strategy :=
  match procs with
  | [] =>
      mkStrategy false error_code (Some "fail"%string) (Some 0) None
                 (Some "No strategy in playbook for this error"%string)
  | procedure :: rest =>
      if String.eqb (Py.get (option_map str_code (proc_error_code procedure))
                            EmptyString)
                    (Py.str error_code)
      then
        mkStrategy true error_code
                   (Some (Py.get (proc_action procedure) "fail"%string))
                   (Some (Py.get (proc_max_retries procedure) 0))
                   (Some (Py.get (proc_backoff_seconds procedure)
                                 (PyNumber.Int 1)))
                   (Some (Py.get (proc_reason procedure)
                                 "No reason provided"%string))
      else find_strategy error_code rest
  end.

Definition _tool_check_playbook (playbook : Playbook) (error_code : Z)
  : Strategy :=
  find_strategy error_code (Py.get (procedures playbook) []).

(** [_fallback_decide_retry(self, error_code, attempt, max_retries,
    strategy)]. *)
Definition _fallback_decide_retry (error_code attempt max_retries : Z)
           (strategy : Strategy) : Py.Result Decision :=
  verdict <-
    (if max_retries <=? attempt then
       Py.Ok ("fail"%string, "Max retries reached"%string)
     else
       a <- Py.subscript "action" (strategy_action strategy) ;;
       if String.eqb a "retry" then
         Py.Ok ("retry"%string, "Playbook recommends retry"%string)
       else
         Py.Ok ("fail"%string, "Playbook recommends failure"%string)) ;;
  Py.Ok (mkDecision (fst verdict) (Json.Str (snd verdict)) None None
                    attempt max_retries None false (Some true)).

(** The decision built from a parsed reply. *)
Definition llm_decision (attempt max_retries : Z) (result_json : Json.value)
  : Py.Result Decision :=
  should_retry <- Json.subscript result_json "should_retry" ;;
  reasoning <- Json.subscript result_json "reasoning" ;;
  conf <- Json.subscript result_json "confidence" ;;
  etype <- Json.get result_json "error_type" (Json.Str "unknown") ;;
  Py.Ok (mkDecision (if Json.truthy should_retry then "retry" else "fail")
                    reasoning (Some conf) (Some etype) attempt max_retries
                    (Some result_json) true None).

(** What [_tool_decide_retry] hands to [json.loads]: the reply
    stripped. *)
Definition response_text (text : string) : string := Py.strip text.

(** The reply of one reasoner step: [response] is what
    [(await self.model.generate_content(prompt)).text] gave or raised,
    [loads] is [json.loads]. *)
Definition read_reply (loads : string -> Py.Result Json.value)
           (response : Py.Result string) : Json.Reply :=
  match response with
  | Py.Raise e => Json.CallRaised (Py.message e)
  | Py.Ok text =>
      match loads (response_text text) with
      | Py.Raise e => Json.Malformed (Py.message e)
      | Py.Ok v => Json.Parsed v
      end
  end.

(** The three strategy entries the prompt is formatted from, read before
    the [try] is entered. *)
Definition format_prompt (strategy : Strategy) : Py.Result unit :=
  _ <- Py.subscript "action" (strategy_action strategy) ;;
  _ <- Py.subscript "reason" (strategy_reason strategy) ;;
  _ <- Py.subscript "backoff_seconds" (strategy_backoff_seconds strategy) ;;
  Py.Ok tt.

(** [_tool_decide_retry(self, error_code, attempt, max_retries,
    strategy)]. *)
Definition _tool_decide_retry (env : Env) (error_code attempt max_retries : Z)
           (strategy : Strategy) (st : State)
  : Py.Result Decision * State :=
  let st := mkState (llm_calls st + 1) (tool_calls st) (operations_called st)
                    (reasoner_asked st) (slept st) in
  match format_prompt strategy with
  | Py.Raise e => (Py.Raise e, st)
  | Py.Ok _ =>
      let reply := reasoner env (reasoner_asked st) in
      let st := mkState (llm_calls st) (tool_calls st) (operations_called st)
                        (S (reasoner_asked st)) (slept st) in
      match (result_json <- Json.loaded reply ;;
             llm_decision attempt max_retries result_json) with
      | Py.Ok decision => (Py.Ok decision, st)
      | Py.Raise _ =>
          (_fallback_decide_retry error_code attempt max_retries strategy, st)
      end
  end.

(** How [await asyncio.sleep(seconds)] ends. *)
Inductive Sleep : Type :=
| Over
| Failed (e : Py.Exc)
| Pending.

(** [asyncio.sleep(seconds)]: a delay of zero or less is over at once;
    otherwise the loop adds the delay to its clock, which raises for an
    [int] that has no double, and the sleep is over when the timer is
    due.  A timer at plus infinity is never due, and when one at NaN is
    due depends on the loop's other timers: both are [Pending]. *)
Definition asyncio_sleep (seconds : PyNumber.Number) : Sleep :=
  match seconds with
  | PyNumber.Int n =>
      if PyChoices.float_limit <=? n then
        Failed (Py.OverflowError "int too large to convert to float")
      else Over
  | PyNumber.Flt (PyNumber.Finite _) => Over
  | PyNumber.Flt (PyNumber.Infinite negative) =>
      if negative then Over else Pending
  | PyNumber.Flt PyNumber.NaN => Pending
  end.

(** [_tool_apply_backoff(self, seconds)]: a sleep that is over is
    recorded as the delay asked for; [None] is a sleep left pending. *)
Definition _tool_apply_backoff (seconds : PyNumber.Number) (st : State)
  : option (Py.Result State) :=
  match asyncio_sleep seconds with
  | Over =>
      Some (Py.Ok (mkState (llm_calls st) (tool_calls st) (operations_called st)
                           (reasoner_asked st) (slept st ++ [seconds])))
  | Failed e => Some (Py.Raise e)
  | Pending => None
  end.

(** The delay [run_test] computes before it retries:
    [playbook_strategy.get('backoff_seconds', 1) * attempt]. *)
Definition retry_backoff (strategy : Strategy) (attempt : Z)
  : Py.Result PyNumber.Number :=
  PyNumber.mul_int (Py.get (strategy_backoff_seconds strategy) (PyNumber.Int 1))
                   attempt.

(** [run_test(self, test_spec, attempt=1)]; the recursion is bounded by
    the reasoner's answers only, so [None] stands for a recursion deeper
    than [fuel], or for a sleep left pending. *)
Fixpoint run_test (fuel : nat) (env : Env) (playbook : Playbook)
         (spec_test_id spec_operation : string) (attempt : Z) (st : State)
  : option (Py.Result TestResult * State) :=
  match fuel with
  | O => None
  | S fuel' =>
      let '(call_result, st) := _tool_call_operation env st in
      match Py.subscript "status_code" (status_code call_result) with
      | Py.Raise e => Some (Py.Raise e, st)
      | Py.Ok status =>
          if 400 <=? status then
            let playbook_strategy := _tool_check_playbook playbook status in
            let '(decision, st) :=
              _tool_decide_retry env status attempt
                (Py.get (strategy_max_retries playbook_strategy) 0)
                playbook_strategy st in
            match decision with
            | Py.Raise e => Some (Py.Raise e, st)
            | Py.Ok decision =>
                if String.eqb (action decision) "retry" then
                  match retry_backoff playbook_strategy attempt with
                  | Py.Raise e => Some (Py.Raise e, st)
                  | Py.Ok backoff =>
                      match _tool_apply_backoff backoff st with
                      | None => None
                      | Some (Py.Raise e) => Some (Py.Raise e, st)
                      | Some (Py.Ok st) =>
                          run_test fuel' env playbook spec_test_id
                                   spec_operation (attempt + 1) st
                      end
                  end
                else
                  Some (Py.Ok (mkTestResult spec_test_id spec_operation status
                                 false
                                 (Py.get (chaos_injected call_result) false)
                                 (error call_result) attempt (Taken decision)
                                 true true), st)
            end
          else
            Some (Py.Ok (mkTestResult spec_test_id spec_operation status true
                           (Py.get (chaos_injected call_result) false)
                           None attempt Success
                           (negb (attempt =? 1)) (negb (attempt =? 1))), st)
      end
  end.

End V2.

(* ================================================================== *)
(** ** Worked scenarios *)

Module Scenario.

(** The playbook of the 503 example: one procedure, retry on "503". *)
Definition playbook_503 : Adk.Playbook :=
  Adk.mkPlaybook
    (Some [Adk.mkProcedure (Some ["503"%string]) (Some "retry"%string)]).

(** An operation that answers 503 on every invocation. *)
Definition always_503 (n : nat) : Adk.CallResult :=
  Adk.mkCallResult (Some 503) (Some "HTTP 503"%string).

Definition reply_retry : Json.Reply :=
  Json.Parsed
    (Json.Obj [("should_retry", Json.Bool true);
               ("reasoning", Json.Str "transient outage");
               ("confidence", Json.Float (9 # 10));
               ("error_type", Json.Str "transient")]%string).

Definition reply_fail : Json.Reply :=
  Json.Parsed
    (Json.Obj [("should_retry", Json.Bool false);
               ("reasoning", Json.Str "still down");
               ("confidence", Json.Float (8 # 10));
               ("error_type", Json.Str "permanent")]%string).

(** [json.loads] on the two texts of the fenced example: the empty
    object, and a text that is not JSON. *)
Definition loads_empty_object (text : string) : Py.Result Json.value :=
  if String.eqb text "{}" then Py.Ok (Json.Obj [])
  else Py.Raise (Py.JSONDecodeError "Expecting value: line 1 column 1 (char 0)").

(** A reply that wraps the empty object in a fence. *)
Definition fenced_reply : string := "```json {} ```".


(** The reasoner says retry every time. *)
Definition env_always_retry : Adk.Env :=
  Adk.mkEnv always_503 (fun _ => reply_retry).

(** The reasoner says retry once, then fail. *)
Definition env_retry_then_fail : Adk.Env :=
  Adk.mkEnv always_503
            (fun n => match n with O => reply_retry | S _ => reply_fail end).

Definition fresh_state : Adk.State :=
  Adk.mkState (Adk.mkMetrics 0 0 0 0 0 0 0) 0 0 [] [].

(** The v2 playbook of the same example, with a one second backoff. *)
Definition v2_playbook_503 : V2.Playbook :=
  V2.mkPlaybook
    (Some [V2.mkProcedure (Some (V2.CodeInt 503)) (Some "retry"%string) (Some 3)
                          (Some (PyNumber.Int 1))
                          (Some "transient outage"%string)]).

(** An operation that answers 503 three times and 200 from then on. *)
Definition v2_recovers_on_fourth (n : nat) : Py.Result V2.CallResult :=
  if Nat.ltb n 3
  then Py.Ok (V2.mkCallResult (Some 503) (Some "HTTP 503"%string) (Some true))
  else Py.Ok (V2.mkCallResult (Some 200) None (Some false)).

Definition v2_env_always_retry : V2.Env :=
  V2.mkEnv (Some v2_recovers_on_fourth) (fun _ => reply_retry).

Definition v2_fresh_state : V2.State := V2.mkState 0 0 0 0 [].

End Scenario.

(* ================================================================== *)
(** ** [chaos_agent_universal.py]: the remaining queries and runs of calls *)

Module ChaosAgentRuns.

Import ChaosAgentUniversal.

(** [get_error_codes_for_operation(self, tool_name)]. *)
Definition get_error_codes_for_operation (self : ChaosAgent) (tool : string)
  : list string :=
  match Py.lookup tool (chaos_strategies self) with
  | None => []
  | Some errors => Py.keys errors
  end.

(** The failure rate [call] works with: the argument, or the configured
    default when it is [None]. *)
Definition effective_rate (self : ChaosAgent) (failure_rate : option Q) : Q :=
  Py.get failure_rate (default_failure_rate (config self)).

(** The rates at which [_should_inject_chaos] draws a variate. *)
Definition draws (rate : Q) : bool :=
  negb (Qle_bool rate 0) && negb (Qle_bool 1 rate).

(** The agent as successive calls leave it, call by call as in
    [call_sequence]. *)
Fixpoint agent_after (rates : list (option Q)) (self : ChaosAgent)
         (tool : string) (seed : option Z) : ChaosAgent :=
  match rates with
  | [] => self
  | failure_rate :: rates' =>
      agent_after rates' (snd (call self tool failure_rate seed)) tool seed
  end.

(** The weights [select_error_code] gives the declared codes of an
    operation: the configured weight, or 10 for a code without one. *)
Definition operation_weights (self : ChaosAgent) (tool : string) : list Z :=
  map (fun code => Py.get (Py.lookup code (error_weights (config self))) 10)
      (get_error_codes_for_operation self tool).

(** The response [mock_error_response] gives for a declared error code. *)
Definition declared_error (tool code : string) (info : ErrorInfo) (status : Z)
  : Response :=
  mkResponse status (ErrorBody code "error" (message info))
             (Some ("HTTP " ++ code)%string) tool true.

(** Its response for a known operation without the code asked for. *)
Definition internal_error (tool : string) : Response :=
  mkResponse 500 (ErrorBody "500" "error" "Internal server error")
             (Some "Internal error"%string) tool true.

(** Its response for an operation the specification does not have. *)
Definition unknown_operation (tool : string) : Response :=
  mkResponse 404 (ErrorBody "404" "error" ("Unknown operation: " ++ tool))
             (Some "Unknown operation"%string) tool false.

(** An agent whose one operation declares no error response. *)
Definition quiet_agent : ChaosAgent :=
  mkAgent (mkConfig 0 42 [] true) [("getInventory"%string, [])] None.

(** An agent whose weights for the declared codes are all zero. *)
Definition weightless_agent : ChaosAgent :=
  mkAgent (mkConfig 0 42 [("400", 0); ("404", 0)]%string true)
          (chaos_strategies (petstore_agent None)) None.

End ChaosAgentRuns.

(* ================================================================== *)
(** ** [test_agent.py] *)

Module TestAgentPy.

Import ChaosAgentUniversal.

(** One entry of [test_suite["tests"]]; [None] is an absent key. *)
Record TestCase : Type := mkTestCase {
  case_test_id : option string;
  case_operation : option string;
  case_params : option Json.value;
  case_expected_success : option bool
}.

Record TestSuite : Type := mkTestSuite {
  tests : option (list TestCase)
}.

(** The [error] entry of a result: absent, the response's text, or the
    text [str(e)] of the exception caught. *)
Inductive ErrorEntry : Type :=
| NoError
| ErrorText (s : string)
| ExceptionText (e : Py.Exc).

Definition error_entry (e : option string) : ErrorEntry :=
  match e with
  | Some s => ErrorText s
  | None => NoError
  end.

(** The dict [run_tests] appends for one test. *)
Record Outcome : Type := mkOutcome {
  test_id : string;
  operation : string;
  params : Json.value;
  expected_success : bool;
  status_code : option Z;
  ok : bool;
  chaos_injected : bool;
  error : ErrorEntry
}.

(** [f"{n:04d}"] for [n >= 0]. *)
Definition zero_padded4 (n : Z) : string :=
  let digits := Py.str n in
  match (4 - String.length digits)%nat with
  | 3%nat => ("000" ++ digits)%string
  | 2%nat => ("00" ++ digits)%string
  | 1%nat => ("0" ++ digits)%string
  | _ => digits
  end.

(** The tests [run_tests] can read: [test["operation"]] and
    [test["params"]] are subscripted. *)
Definition well_formed (test : TestCase) : Prop :=
  case_operation test <> None /\ case_params test <> None.

(** The body of the loop after the call: [ok] compares "the status is
    200" with the expectation; an exception of the call is caught and
    judged a failure. *)
Definition judged (id op : string) (args : Json.value) (test : TestCase)
           (called : Py.Result Response) : Outcome :=
  let expected := Py.get (case_expected_success test) true in
  match called with
  | Py.Ok result =>
      mkOutcome id op args expected
                (Some (ChaosAgentUniversal.status_code result))
                (Bool.eqb (ChaosAgentUniversal.status_code result =? 200) expected)
                (ChaosAgentUniversal.chaos_injected result)
                (error_entry (ChaosAgentUniversal.error result))
  | Py.Raise e =>
      mkOutcome id op args expected None false false (ExceptionText e)
  end.

(** The [for idx, test in enumerate(...)] loop of [run_tests]. *)
Fixpoint run_tests_from (idx : Z) (cases : list TestCase)
         (chaos_agent : ChaosAgent) (failure_rate : Q) (seed_offset : Z)
  : Py.Result (list Outcome) * ChaosAgent :=
  match cases with
  | [] => (Py.Ok [], chaos_agent)
  | test :: rest =>
      match Py.subscript "operation" (case_operation test) with
      | Py.Raise e => (Py.Raise e, chaos_agent)
      | Py.Ok op =>
          match Py.subscript "params" (case_params test) with
          | Py.Raise e => (Py.Raise e, chaos_agent)
          | Py.Ok args =>
              let id := Py.get (case_test_id test)
                               ("test_" ++ zero_padded4 (idx + 1))%string in
              let '(called, chaos_agent) :=
                call chaos_agent op (Some failure_rate)
                     (Some (seed_offset + idx)) in
              let outcome := judged id op args test called in
              let '(results, chaos_agent) :=
                run_tests_from (idx + 1) rest chaos_agent failure_rate
                               seed_offset in
              (match results with
               | Py.Ok outcomes => Py.Ok (outcome :: outcomes)
               | Py.Raise e => Py.Raise e
               end, chaos_agent)
          end
      end
  end.

(** [run_tests(self, test_suite, failure_rate=0.3, seed_offset=0)]. *)
Definition run_tests (chaos_agent : ChaosAgent) (test_suite : TestSuite)
           (failure_rate : Q) (seed_offset : Z)
  : Py.Result (list Outcome) * ChaosAgent :=
  match Py.subscript "tests" (tests test_suite) with
  | Py.Raise e => (Py.Raise e, chaos_agent)
  | Py.Ok cases => run_tests_from 0 cases chaos_agent failure_rate seed_offset
  end.

(** What the test at index [idx] is judged on when the agent's counter
    stands at [counter]: the decision drawn for seed [seed_offset + idx],
    then the mocked success or the injected failure of that seed. *)
Definition response_at (self : ChaosAgent) (op : string) (failure_rate : Q)
           (seed counter : Z) : Py.Result Response :=
  if Qle_bool failure_rate 0 then Py.Ok (mock_success_response self op)
  else if Qle_bool 1 failure_rate then injected_failure self op seed
  else if PyChoices.Qltb (variate seed (counter + 1)) failure_rate
       then injected_failure self op seed
       else Py.Ok (mock_success_response self op).

(** The outcomes of a suite written without the agent's state: the test
    at index [idx] draws with seed [seed_offset + idx] and the counter one
    past that of the test before it. *)
Fixpoint outcomes_from (idx counter : Z) (cases : list TestCase)
         (self : ChaosAgent) (failure_rate : Q) (seed_offset : Z)
  : list Outcome :=
  match cases with
  | [] => []
  | test :: rest =>
      judged (Py.get (case_test_id test) ("test_" ++ zero_padded4 (idx + 1))%string)
             (Py.get (case_operation test) EmptyString)
             (Py.get (case_params test) Json.Null) test
             (response_at self (Py.get (case_operation test) EmptyString)
                          failure_rate (seed_offset + idx) counter)
      :: outcomes_from (idx + 1) (counter + 1) rest self failure_rate seed_offset
  end.

(** A suite of three tests on the petstore agent. *)
Definition petstore_suite : TestSuite :=
  mkTestSuite
    (Some [mkTestCase (Some "find"%string) (Some "getPetById"%string)
                      (Some (Json.Obj [("petId"%string, Json.Int 1)])) None;
           mkTestCase None (Some "getPetById"%string)
                      (Some (Json.Obj [("petId"%string, Json.Int 2)]))
                      (Some false);
           mkTestCase None (Some "deletePet"%string)
                      (Some (Json.Obj [])) (Some true)]).

(** The petstore suite with a test in the middle that has no
    [operation]. *)
Definition malformed_suite : TestSuite :=
  mkTestSuite
    (Some [mkTestCase (Some "find"%string) (Some "getPetById"%string)
                      (Some (Json.Obj [])) None;
           mkTestCase (Some "broken"%string) None (Some (Json.Obj [])) None;
           mkTestCase None (Some "getPetById"%string) (Some (Json.Obj [])) None]).

End TestAgentPy.

(* ================================================================== *)
(** ** [test_agent_adk_v3.py]: the suite runner *)

Module V3Suite.

Import Adk.

(** One entry of [tests]; its [params] go to [chaos_agent_func], which
    an [Env] answers by invocation number. *)
Record TestSpec : Type := mkTestSpec {
  spec_test_id : option string;
  spec_operation : option string
}.

(** [self.metrics.total_tests = len(tests)]. *)
Definition set_total_tests (n : Z) (st : State) : State :=
  let m := metrics st in
  with_metrics st
    (mkMetrics n (passed m) (failed m) (total_attempts m)
               (llm_calls m) (tool_calls m) (tests_with_llm_reasoning m)).

(** [self.metrics.passed += 1]. *)
Definition count_passed (st : State) : State :=
  let m := metrics st in
  with_metrics st
    (mkMetrics (total_tests m) (passed m + 1) (failed m) (total_attempts m)
               (llm_calls m) (tool_calls m) (tests_with_llm_reasoning m)).

(** [self.metrics.failed += 1]. *)
Definition count_failed (st : State) : State :=
  let m := metrics st in
  with_metrics st
    (mkMetrics (total_tests m) (passed m) (failed m + 1) (total_attempts m)
               (llm_calls m) (tool_calls m) (tests_with_llm_reasoning m)).

(** The [for i, test_spec in enumerate(tests, 1)] loop of
    [run_test_suite]. *)
Fixpoint suite_loop (i : Z) (tests : list TestSpec) (env : Env)
         (playbook : Playbook) (st : State)
  : option (Py.Result (list TestResult) * State) :=
  match tests with
  | [] => Some (Py.Ok [], st)
  | test_spec :: rest =>
      let test_id := Py.get (spec_test_id test_spec) ("test_" ++ Py.str i)%string in
      let operation := Py.get (spec_operation test_spec) "unknown"%string in
      match V3._run_single_test env playbook test_id operation st with
      | None => None
      | Some (Py.Raise e, st) => Some (Py.Raise e, st)
      | Some (Py.Ok result, st) =>
          let st := if ok result then count_passed st else count_failed st in
          match suite_loop (i + 1) rest env playbook st with
          | None => None
          | Some (Py.Raise e, st) => Some (Py.Raise e, st)
          | Some (Py.Ok results, st) => Some (Py.Ok (result :: results), st)
          end
      end
  end.

(** [run_test_suite(self, tests)]. *)
Definition run_test_suite (env : Env) (playbook : Playbook)
           (tests : list TestSpec) (st : State)
  : option (Py.Result (list TestResult) * State) :=
  suite_loop 1 tests env playbook
             (set_total_tests (Z.of_nat (List.length tests)) st).

(** The delays slept before attempts [attempt + 2], [attempt + 3], ...:
    [count] backoffs, the first one after attempt [attempt + 1]. *)
Fixpoint backoffs (attempt : Z) (count : nat) : list Q :=
  match count with
  | O => []
  | S count' =>
      backoff_delay (attempt + 1) default_base_delay
      :: backoffs (attempt + 1) count'
  end.

(** The number of tests of a list that passed, and their attempts. *)
Definition passed_among (results : list TestResult) : Z :=
  Z.of_nat (List.length (filter ok results)).

Definition attempts_among (results : list TestResult) : Z :=
  fold_right Z.add 0 (map attempts results).

(** A reasoner that is out of service. *)
Definition env_reasoner_down (status : Z) : Env :=
  mkEnv (fun _ => mkCallResult (Some status) (Some "upstream error"%string))
        (fun _ => Json.CallRaised "timeout").

End V3Suite.

(* ================================================================== *)
(** ** [test_agent_adk_v2.py]: the suite runner and the metrics *)

Module V2Suite.

Import V2.

(** [str(procedure.get('error_code', '')) == str(error_code)], the test
    of [_tool_check_playbook]. *)
Definition names_code (error_code : Z) (procedure : Procedure) : bool :=
  String.eqb (Py.get (option_map str_code (proc_error_code procedure))
                     EmptyString)
             (Py.str error_code).

(** The replies the [try] of [_tool_decide_retry] turns into the
    decision "retry": objects with the three subscripted entries and a
    true [should_retry]. *)
Definition says_retry (r : Json.Reply) : bool :=
  match r with
  | Json.Parsed (Json.Obj fields) =>
      match Py.lookup "should_retry" fields, Py.lookup "reasoning" fields,
            Py.lookup "confidence" fields with
      | Some v, Some _, Some _ => Json.truthy v
      | _, _, _ => false
      end
  | _ => false
  end.

(** The delays of [count] retries in a row under one strategy, the first
    after attempt [attempt]. *)
Fixpoint waits (strategy : Strategy) (attempt : Z) (count : nat)
  : Py.Result (list PyNumber.Number) :=
  match count with
  | O => Py.Ok []
  | S count' =>
      backoff <- retry_backoff strategy attempt ;;
      rest <- waits strategy (attempt + 1) count' ;;
      Py.Ok (backoff :: rest)
  end.

(** One entry of [test_suite]. *)
Record TestSpec : Type := mkTestSpec {
  spec_test_id : option string;
  spec_operation : option string
}.

(** [run_test(self, test_spec, attempt)] on a dict: [test_spec['test_id']]
    is read first, for the log line, then [test_spec['operation']]. *)
Definition run_test_spec (fuel : nat) (env : Env) (playbook : Playbook)
           (test_spec : TestSpec) (attempt : Z) (st : State)
  : option (Py.Result TestResult * State) :=
  match spec_test_id test_spec, spec_operation test_spec with
  | None, _ => Some (Py.Raise (Py.KeyError "test_id"), st)
  | Some _, None => Some (Py.Raise (Py.KeyError "operation"), st)
  | Some test_id, Some operation =>
      run_test fuel env playbook test_id operation attempt st
  end.

(** [run_test_suite(self, test_suite)]; the last component is
    [self.test_results]. *)
Fixpoint run_test_suite (fuel : nat) (env : Env) (playbook : Playbook)
         (test_suite : list TestSpec) (st : State)
         (test_results : list TestResult)
  : option (Py.Result (list TestResult) * State * list TestResult) :=
  match test_suite with
  | [] => Some (Py.Ok [], st, test_results)
  | test :: rest =>
      match run_test_spec fuel env playbook test 1 st with
      | None => None
      | Some (Py.Raise e, st) => Some (Py.Raise e, st, test_results)
      | Some (Py.Ok result, st) =>
          match run_test_suite fuel env playbook rest st
                               (test_results ++ [result]) with
          | None => None
          | Some (Py.Raise e, st, test_results) =>
              Some (Py.Raise e, st, test_results)
          | Some (Py.Ok results, st, test_results) =>
              Some (Py.Ok (result :: results), st, test_results)
          end
      end
  end.

(** The counting entries of [get_metrics(self)]; its three ratios are
    quotients of these. *)
Record Metrics : Type := mkMetrics {
  total_tests : Z;
  passed : Z;
  failed : Z;
  total_attempts : Z;
  metric_llm_calls : Z;
  metric_tool_calls : Z;
  tests_with_llm_reasoning : Z
}.

Definition get_metrics (st : State) (test_results : list TestResult)
  : Metrics :=
  let total_tests := Z.of_nat (List.length test_results) in
  let passed := Z.of_nat (List.length (filter ok test_results)) in
  let failed := total_tests - passed in
  let llm_used := Z.of_nat (List.length (filter llm_used test_results)) in
  let total_attempts := fold_right Z.add 0 (map attempts test_results) in
  mkMetrics total_tests passed failed total_attempts (llm_calls st)
            (tool_calls st) llm_used.

(** The playbook of the 503 example with a backoff of a tenth of a
    second, the double 0.1. *)
Definition playbook_tenth : Playbook :=
  mkPlaybook
    (Some [mkProcedure (Some (CodeInt 503)) (Some "retry"%string) (Some 3)
                       (Some (PyNumber.Flt
                                (PyNumber.Finite
                                   (3602879701896397 # 36028797018963968))))
                       (Some "transient outage"%string)]).

(** An operation that fails with 503 every time, and a reasoner that is
    out of service. *)
Definition env_reasoner_down : Env :=
  mkEnv (Some (fun _ => Py.Ok (mkCallResult (Some 503) (Some "HTTP 503"%string)
                                            (Some true))))
        (fun _ => Json.CallRaised "timeout").

End V2Suite.


(* ================================================================== *)
(** * Properties *)

Arguments PyRandom.seeded : simpl never.
Arguments PyRandom.random_bits : simpl never.
Arguments PyRandom.random : simpl never.
Arguments PyChoices.choices : simpl never.

(** ** The random stream *)

Lemma u32_range (x : Z) : 0 <= PyRandom.u32 x < 4294967296.
Proof.
  unfold PyRandom.u32.
  change 0xffffffff with (Z.ones 32).
  rewrite Z.land_ones by lia.
  apply Z.mod_pos_bound; lia.
Qed.

Lemma genrand_uint32_range (g : PyRandom.Random) :
  0 <= fst (PyRandom.genrand_uint32 g) < 4294967296.
Proof.
  unfold PyRandom.genrand_uint32; cbn [fst]. apply u32_range.
Qed.

Lemma random_bits_range (g : PyRandom.Random) :
  0 <= fst (PyRandom.random_bits g) < 9007199254740992.
Proof.
  unfold PyRandom.random_bits.
  pose proof (genrand_uint32_range g) as Ha.
  destruct (PyRandom.genrand_uint32 g) as [a g1]; cbn [fst] in Ha.
  pose proof (genrand_uint32_range g1) as Hb.
  destruct (PyRandom.genrand_uint32 g1) as [b g2]; cbn [fst] in *.
  assert (0 <= Z.shiftr a 5 < 134217728) as Ha5.
  { rewrite Z.shiftr_div_pow2 by lia. change (2 ^ 5) with 32.
    split; [apply Z.div_pos; lia | apply Z.div_lt_upper_bound; lia]. }
  assert (0 <= Z.shiftr b 6 < 67108864) as Hb6.
  { rewrite Z.shiftr_div_pow2 by lia. change (2 ^ 6) with 64.
    split; [apply Z.div_pos; lia | apply Z.div_lt_upper_bound; lia]. }
  nia.
Qed.

(** The model against CPython: the first variates of
    [random.Random(42)], [random.Random(43)] and [random.Random(44)] are
    0.6394267984578837, 0.038551839337380045 and 0.40853587925449375. *)
Example random_reference_values :
  map (fun seed => fst (PyRandom.random_bits (PyRandom.seeded seed))) [42; 43; 44]
  = [5759444582531269; 347244098548544; 3679764067156032].
Proof. vm_compute. reflexivity. Qed.

(** [random()] lies in [0, 1). *)
Lemma random_unit_interval (g : PyRandom.Random) :
  (0 <= fst (PyRandom.random g) < 1)%Q.
Proof.
  unfold PyRandom.random.
  pose proof (random_bits_range g) as H.
  destruct (PyRandom.random_bits g) as [n g']; cbn [fst] in *.
  unfold Qle, Qlt; cbn [Qnum Qden]. lia.
Qed.

Lemma Qltb_lt (x y : Q) : PyChoices.Qltb x y = true <-> (x < y)%Q.
Proof.
  unfold PyChoices.Qltb. rewrite Qlt_alt.
  destruct (Qcompare x y); split; congruence.
Qed.

(** ** The injection decision *)

Section Injection.

Import ChaosAgentUniversal.

Lemma should_inject_never (self : ChaosAgent) (rate : Q) (seed : Z) :
  (rate <= 0)%Q -> _should_inject_chaos self rate seed = (false, self).
Proof.
  intros H. unfold _should_inject_chaos.
  apply Qle_bool_iff in H. now rewrite H.
Qed.

Lemma should_inject_always (self : ChaosAgent) (rate : Q) (seed : Z) :
  (1 <= rate)%Q -> _should_inject_chaos self rate seed = (true, self).
Proof.
  intros H. unfold _should_inject_chaos.
  destruct (Qle_bool rate 0) eqn:E0.
  - apply Qle_bool_iff in E0.
    exfalso. apply (Qle_not_lt _ _ (Qle_trans _ _ _ H E0)). reflexivity.
  - apply Qle_bool_iff in H. now rewrite H.
Qed.

(** Between 0 and 1 the decision draws with the counter's next value. *)
Lemma should_inject_draw (self : ChaosAgent) (rate : Q) (seed : Z) :
  (0 < rate < 1)%Q ->
  let draw_index := Py.get (_call_counter self) 0 + 1 in
  _should_inject_chaos self rate seed =
    (PyChoices.Qltb (variate seed draw_index) rate,
     set_call_counter self draw_index).
Proof.
  intros [Hlo Hhi] draw_index. unfold _should_inject_chaos.
  destruct (Qle_bool rate 0) eqn:E0.
  { apply Qle_bool_iff in E0. exfalso. exact (Qle_not_lt _ _ E0 Hlo). }
  destruct (Qle_bool 1 rate) eqn:E1.
  { apply Qle_bool_iff in E1. exfalso. exact (Qle_not_lt _ _ E1 Hhi). }
  reflexivity.
Qed.

(** C5: the decision is [false] for a rate at or below 0, [true] for a
    rate at or above 1, and otherwise [true] exactly when the variate it
    draws, a number of [0, 1), is strictly below the rate. *)
Theorem should_inject_contract (self : ChaosAgent) (rate : Q) (seed : Z) :
  ((rate <= 0)%Q -> fst (_should_inject_chaos self rate seed) = false) /\
  ((1 <= rate)%Q -> fst (_should_inject_chaos self rate seed) = true) /\
  ((0 < rate < 1)%Q ->
   let v := variate seed (Py.get (_call_counter self) 0 + 1) in
   (0 <= v < 1)%Q /\
   (fst (_should_inject_chaos self rate seed) = true <-> (v < rate)%Q)).
Proof.
  split; [| split].
  - intros H. now rewrite should_inject_never.
  - intros H. now rewrite should_inject_always.
  - intros H v. split.
    + apply random_unit_interval.
    + rewrite (should_inject_draw self rate seed H). cbn [fst].
      apply Qltb_lt.
Qed.

(** C1, as the code has it: the draw index is the instance's own
    [_call_counter], one more than its value before the call.  For a fixed
    seed, rate in (0, 1) and draw index the decision is the same on every
    instance, it is [variate seed draw_index < rate], and the call leaves
    the counter at the draw index. *)
Theorem should_inject_fixed_by_draw_index
        (self other : ChaosAgent) (rate : Q) (seed draw_index : Z) :
  (0 < rate < 1)%Q ->
  Py.get (_call_counter self) 0 + 1 = draw_index ->
  Py.get (_call_counter other) 0 + 1 = draw_index ->
  fst (_should_inject_chaos self rate seed)
  = fst (_should_inject_chaos other rate seed) /\
  fst (_should_inject_chaos self rate seed)
  = PyChoices.Qltb (variate seed draw_index) rate /\
  _call_counter (snd (_should_inject_chaos self rate seed)) = Some draw_index.
Proof.
  intros Hrate Hself Hother.
  rewrite (should_inject_draw self rate seed Hrate).
  rewrite (should_inject_draw other rate seed Hrate).
  cbn [fst snd]. rewrite Hself, Hother. repeat split.
Qed.

(** The theorem at two different agents whose counters both stand at 1. *)
Lemma should_inject_fixed_by_draw_index_witness :
  fst (_should_inject_chaos (petstore_agent (Some 1)) (3 # 10) 42)
  = fst (_should_inject_chaos (bare_agent (Some 1)) (3 # 10) 42) /\
  fst (_should_inject_chaos (petstore_agent (Some 1)) (3 # 10) 42)
  = PyChoices.Qltb (variate 42 2) (3 # 10) /\
  _call_counter (snd (_should_inject_chaos (petstore_agent (Some 1)) (3 # 10) 42))
  = Some 2.
Proof.
  apply (should_inject_fixed_by_draw_index
           (petstore_agent (Some 1)) (bare_agent (Some 1)) (3 # 10) 42 2).
  - split; reflexivity.
  - reflexivity.
  - reflexivity.
Defined.

(** C1, as stated, fails: a fresh agent asked twice with the same rate 0.3
    and seed 42 injects the first time and not the second, because the
    first call moved its hidden counter; two identical calls of [call]
    answer 404 and then 200. *)
Lemma should_inject_same_arguments_disagree :
  let first := _should_inject_chaos (petstore_agent None) (3 # 10) 42 in
  let second := _should_inject_chaos (snd first) (3 # 10) 42 in
  fst first = true /\ fst second = false /\
  _call_counter (snd first) = Some 1 /\ _call_counter (snd second) = Some 2 /\
  map status_of
      (call_sequence [Some (3 # 10); Some (3 # 10)] (petstore_agent None)
                     "getPetById" (Some 42))
  = [Some 404; Some 200].
Proof.
  vm_compute. repeat split.
Qed.

(** ** The choice of the error code *)

Lemma should_inject_same_tables (self : ChaosAgent) (rate : Q) (seed : Z) :
  same_tables self (snd (_should_inject_chaos self rate seed)).
Proof.
  unfold _should_inject_chaos.
  destruct (Qle_bool rate 0); [now split |].
  destruct (Qle_bool 1 rate); now split.
Qed.

Lemma injected_failure_same_tables (a b : ChaosAgent) (tool : string) (seed : Z) :
  same_tables a b -> injected_failure a tool seed = injected_failure b tool seed.
Proof.
  intros [Hc Hs].
  unfold injected_failure, select_error_code, mock_error_response.
  now rewrite Hc, Hs.
Qed.

Lemma mock_success_same_tables (a b : ChaosAgent) (tool : string) :
  same_tables a b -> mock_success_response a tool = mock_success_response b tool.
Proof.
  intros [Hc _]. unfold mock_success_response. now rewrite Hc.
Qed.

Lemma call_outcome (self : ChaosAgent) (tool : string)
      (rate : option Q) (seed : option Z) :
  same_tables self (snd (call self tool rate seed)) /\
  (fst (call self tool rate seed) = Py.Ok (mock_success_response self tool) \/
   fst (call self tool rate seed)
   = injected_failure self tool (Py.get seed (default_seed (config self)))).
Proof.
  unfold call.
  pose proof (should_inject_same_tables self
                (Py.get rate (default_failure_rate (config self)))
                (Py.get seed (default_seed (config self)))) as Hsame.
  destruct (_should_inject_chaos self _ _) as [inject self'].
  cbn [snd] in Hsame.
  destruct inject; cbn [negb fst snd]; split; trivial.
  - right. symmetry. now apply injected_failure_same_tables.
  - left. f_equal. symmetry. now apply mock_success_same_tables.
Qed.

(** C10: the error code chosen for [(tool_name, seed)] does not depend on
    the call counter, the only part of the agent a call changes; so in a
    run of calls with one seed, whatever the failure rates, every response
    is either the mocked success or one and the same injected failure. *)
Theorem error_class_fixed_by_seed (self : ChaosAgent) (tool : string) (seed : Z) :
  (forall counter,
      select_error_code (set_call_counter self counter) tool seed
      = select_error_code self tool seed) /\
  (forall rates r,
      In r (call_sequence rates self tool (Some seed)) ->
      r = Py.Ok (mock_success_response self tool) \/
      r = (error_code <- select_error_code self tool seed ;;
           mock_error_response self tool error_code)).
Proof.
  split; [reflexivity |].
  intros rates.
  assert (forall other, same_tables self other ->
            forall r, In r (call_sequence rates other tool (Some seed)) ->
              r = Py.Ok (mock_success_response self tool) \/
              r = injected_failure self tool seed) as Hgen.
  { induction rates as [| rate rates IH]; intros other Hsame r Hin;
      [destruct Hin |].
    cbn [call_sequence] in Hin.
    destruct (call_outcome other tool rate (Some seed)) as [Hnext Hout].
    destruct (call other tool rate (Some seed)) as [r0 other'].
    cbn [fst snd] in *. destruct Hin as [<- | Hin].
    - rewrite (mock_success_same_tables self other tool Hsame).
      rewrite (injected_failure_same_tables self other tool seed Hsame).
      exact Hout.
    - apply (IH other'); trivial.
      destruct Hsame as [Hc Hs], Hnext as [Hc' Hs'].
      split; congruence. }
  intros r Hin. apply (Hgen self); [now split | exact Hin].
Qed.

End Injection.

(** ** The playbook lookup *)

Section Lookup.

Import Adk.

Lemma find_strategy_first_match
      (error_code : Z) (before after : list Procedure) (p : Procedure) :
  (forall q, In q before ->
             Py.contains (Py.str error_code) (Py.get (error_codes q) []) = false) ->
  Py.contains (Py.str error_code) (Py.get (error_codes p) []) = true ->
  find_strategy error_code (Py.str error_code) (before ++ p :: after)
  = (action <- Py.subscript "recovery_strategy" (recovery_strategy p) ;;
     Py.Ok (mkStrategy error_code action 3)).
Proof.
  intros Hbefore Hp. induction before as [| q before IH]; cbn.
  - now rewrite Hp.
  - rewrite (Hbefore q) by now left.
    apply IH. intros q' Hq'. apply Hbefore. now right.
Qed.

Lemma find_strategy_no_match (error_code : Z) (procs : list Procedure) :
  (forall q, In q procs ->
             Py.contains (Py.str error_code) (Py.get (error_codes q) []) = false) ->
  find_strategy error_code (Py.str error_code) procs
  = Py.Ok (mkStrategy error_code "fail" 0).
Proof.
  intros Hnone. induction procs as [| q procs IH]; cbn; [reflexivity |].
  rewrite (Hnone q) by now left.
  apply IH. intros q' Hq'. apply Hnone. now right.
Qed.

(** C7: the lookup answers with the recovery strategy of the first
    procedure, in list order, whose error codes contain the code looked
    up, and with action "fail" and no retries when no procedure does. *)
Theorem check_playbook_first_match_or_default
        (playbook : Playbook) (error_code : Z) (st : State) :
  (forall before p after,
      Py.get (procedures playbook) [] = before ++ p :: after ->
      (forall q, In q before ->
                 Py.contains (Py.str error_code) (Py.get (error_codes q) []) = false) ->
      Py.contains (Py.str error_code) (Py.get (error_codes p) []) = true ->
      fst (_tool_check_playbook playbook error_code st)
      = (action <- Py.subscript "recovery_strategy" (recovery_strategy p) ;;
         Py.Ok (mkStrategy error_code action 3))) /\
  ((forall q, In q (Py.get (procedures playbook) []) ->
              Py.contains (Py.str error_code) (Py.get (error_codes q) []) = false) ->
   exists strategy,
     fst (_tool_check_playbook playbook error_code st) = Py.Ok strategy /\
     strategy_action strategy = "fail"%string /\
     strategy_max_retries strategy = 0).
Proof.
  unfold _tool_check_playbook; cbn [fst]. split.
  - intros before p after -> Hbefore Hp.
    now apply find_strategy_first_match.
  - intros Hnone. eexists. split.
    + now apply find_strategy_no_match.
    + now split.
Qed.

End Lookup.

(** ** The backoff *)

Section Backoff.

Import Adk.

Lemma backoff_delay_capped (attempt : Z) (base_delay : Q) :
  (backoff_delay attempt base_delay <= 10)%Q.
Proof.
  unfold backoff_delay. apply Q.le_min_r.
Qed.

Lemma backoff_delay_monotone (attempt later : Z) (base_delay : Q) :
  (0 <= base_delay)%Q -> attempt <= later ->
  (backoff_delay attempt base_delay <= backoff_delay later base_delay)%Q.
Proof.
  intros Hbase Hle. unfold backoff_delay.
  apply Q.min_le_compat_r.
  rewrite (Qmult_comm base_delay), (Qmult_comm base_delay).
  apply Qmult_le_compat_r; [| exact Hbase].
  apply Qpower_le_compat_l; [lia | discriminate].
Qed.

Lemma apply_backoff_in_range (attempt : Z) (base_delay : Q) (st : State) :
  attempt <= 1024 ->
  _tool_apply_backoff attempt base_delay st
  = (Py.Ok (backoff_delay attempt base_delay),
     sleep (backoff_delay attempt base_delay) (count_tool_call st)).
Proof.
  intros Hhi. unfold _tool_apply_backoff.
  assert ((1024 <=? attempt - 1) = false) as -> by (apply Z.leb_gt; lia).
  reflexivity.
Qed.

(** Beyond attempt 1024 the conversion of [2 ** (attempt - 1)] to a float
    fails and nothing is slept. *)
Lemma apply_backoff_overflows (attempt : Z) (base_delay : Q) (st : State) :
  1024 < attempt ->
  fst (_tool_apply_backoff attempt base_delay st)
  = Py.Raise (Py.OverflowError "int too large to convert to float") /\
  slept (snd (_tool_apply_backoff attempt base_delay st)) = slept st.
Proof.
  intros Hhi. unfold _tool_apply_backoff.
  assert ((1024 <=? attempt - 1) = true) as -> by (apply Z.leb_le; lia).
  now split.
Qed.

(** X24: the backoff of v3.  For an attempt from 1 to 1024 the delay
    [_tool_apply_backoff] sleeps and returns is
    min(base_delay * 2^(attempt-1), 10); it never exceeds 10, for a
    non-negative base it does not decrease as the attempt grows, and once
    the cap is reached it stays there. *)
Theorem backoff_exponential_capped (attempt : Z) (base_delay : Q) (st : State) :
  1 <= attempt -> attempt <= 1024 ->
  exists delay,
    fst (_tool_apply_backoff attempt base_delay st) = Py.Ok delay /\
    (delay == Qmin (base_delay * Qpower 2 (attempt - 1)) 10)%Q /\
    slept (snd (_tool_apply_backoff attempt base_delay st)) = slept st ++ [delay] /\
    (delay <= 10)%Q /\
    ((0 <= base_delay)%Q ->
     forall later st', attempt <= later -> later <= 1024 ->
       exists delay',
         fst (_tool_apply_backoff later base_delay st') = Py.Ok delay' /\
         (delay <= delay')%Q /\
         ((10 <= base_delay * Qpower 2 (attempt - 1))%Q -> (delay' == 10)%Q)).
Proof.
  intros Hlo Hhi. exists (backoff_delay attempt base_delay).
  rewrite (apply_backoff_in_range attempt base_delay st Hhi).
  cbn [fst snd sleep slept].
  split; [reflexivity |]. split; [reflexivity |]. split; [reflexivity |].
  split; [apply backoff_delay_capped |].
  intros Hbase later st' Hlater Hlater_hi.
  exists (backoff_delay later base_delay).
  rewrite (apply_backoff_in_range later base_delay st' Hlater_hi). cbn [fst].
  split; [reflexivity |]. split.
  - now apply backoff_delay_monotone.
  - intros Hcap. apply Qle_antisym; [apply backoff_delay_capped |].
    apply Qle_trans with (backoff_delay attempt base_delay).
    + unfold backoff_delay. apply Q.min_glb; [exact Hcap | apply Qle_refl].
    + now apply backoff_delay_monotone.
Qed.

(** The theorem at the second attempt with the default base of 0.5. *)
Lemma backoff_exponential_capped_witness :
  exists delay,
    fst (_tool_apply_backoff 2 (1 # 2) Scenario.fresh_state) = Py.Ok delay /\
    (delay == Qmin ((1 # 2) * Qpower 2 (2 - 1)) 10)%Q /\
    slept (snd (_tool_apply_backoff 2 (1 # 2) Scenario.fresh_state))
    = slept Scenario.fresh_state ++ [delay] /\
    (delay <= 10)%Q /\
    ((0 <= 1 # 2)%Q ->
     forall later st', 2 <= later -> later <= 1024 ->
       exists delay',
         fst (_tool_apply_backoff later (1 # 2) st') = Py.Ok delay' /\
         (delay <= delay')%Q /\
         ((10 <= (1 # 2) * Qpower 2 (2 - 1))%Q -> (delay' == 10)%Q)).
Proof.
  apply (backoff_exponential_capped 2 (1 # 2) Scenario.fresh_state); lia.
Defined.

End Backoff.

(** ** The retry decision of v3 *)

(** A [return] inside the loop: the run [H] ends with the pair at hand. *)
Ltac leave_loop H := injection H as <-; cbn [fst snd].

Section RetryLoop.

Import Adk.

Variables (env : Env) (playbook : Playbook) (tid op : string).

Lemma llm_decision_action (j : Json.value) (d : Decision) :
  llm_decision j = Py.Ok d ->
  (action d = "retry"%string \/ action d = "fail"%string) /\ llm_called d = true.
Proof.
  destruct j; cbn; try discriminate.
  intros [= <-]; cbn. destruct (Json.truthy _); auto.
Qed.

Lemma fallback_decision_action (e a m : Z) (why : string) :
  action (fallback_decision e a m why) = "retry"%string \/
  action (fallback_decision e a m why) = "fail"%string.
Proof.
  unfold fallback_decision; cbn. destruct (heuristic_should_retry e a m); auto.
Qed.

Lemma decide_retry_tool_returns (e a m : Z) (sa : string) (reply : Json.Reply) :
  exists d, V3.decide_retry_tool e a m sa reply = Py.Ok d /\
            (action d = "retry"%string \/ action d = "fail"%string).
Proof.
  unfold V3.decide_retry_tool.
  destruct (Py.bind (Json.loaded reply) _) as [d | err] eqn:E.
  - exists d. split; [reflexivity |].
    destruct reply; cbn in E; try discriminate.
    now apply llm_decision_action in E.
  - eexists. split; [reflexivity | apply fallback_decision_action].
Qed.

(** What each tool does to the part of the state the loop is judged by. *)
Lemma call_operation_effect (st : State) :
  fst (_tool_call_operation env st) = chaos_agent_func env (operations_called st) /\
  operations_called (snd (_tool_call_operation env st)) = S (operations_called st) /\
  decisions_made (snd (_tool_call_operation env st)) = decisions_made st.
Proof. repeat split. Qed.

Lemma check_playbook_effect (code : Z) (st : State) :
  operations_called (snd (_tool_check_playbook playbook code st))
  = operations_called st /\
  decisions_made (snd (_tool_check_playbook playbook code st)) = decisions_made st.
Proof. repeat split. Qed.

Lemma apply_backoff_effect (attempt : Z) (base : Q) (st : State) :
  operations_called (snd (_tool_apply_backoff attempt base st))
  = operations_called st /\
  decisions_made (snd (_tool_apply_backoff attempt base st)) = decisions_made st.
Proof.
  unfold _tool_apply_backoff. destruct (1024 <=? attempt - 1); now split.
Qed.

Lemma v3_decide_effect (code attempt m : Z) (strategy : Strategy) (st : State) :
  exists d,
    fst (V3._tool_decide_retry env code attempt m strategy st) = Py.Ok d /\
    (action d = "retry"%string \/ action d = "fail"%string) /\
    operations_called (snd (V3._tool_decide_retry env code attempt m strategy st))
    = operations_called st /\
    decisions_made (snd (V3._tool_decide_retry env code attempt m strategy st))
    = decisions_made st ++ [d].
Proof.
  unfold V3._tool_decide_retry.
  destruct (decide_retry_tool_returns code attempt m (strategy_action strategy)
              (reasoner env (reasoner_asked (count_llm_call st))))
    as (d & -> & Hd).
  exists d. repeat split; trivial.
Qed.

(** The state of the loop as the properties below see it. *)
Lemma v3_loop (fuel : nat) :
  forall (attempt : Z) (st : State) out,
    0 <= attempt -> attempt < 3 ->
    V3.retry_loop fuel env playbook tid op attempt st = Some out ->
    exists new,
      decisions_made (snd out) = decisions_made st ++ new /\
      (operations_called (snd out)
       <= operations_called st + Z.to_nat (3 - attempt))%nat /\
      forall r, fst out = Py.Ok r ->
        attempt + 1 <= attempts r /\ attempts r <= 3 /\
        operations_called (snd out)
        = (operations_called st + Z.to_nat (attempts r - attempt))%nat /\
        (ok r = true ->
         decision r = None /\ result_reason r = None /\
         Py.get (status_code
                   (chaos_agent_func env (pred (operations_called (snd out)))))
                500 = 200) /\
        (ok r = false ->
         exists d older,
           new = older ++ [d] /\ decision r = Some d /\
           result_reason r = Some (action d) /\
           (action d = "retry"%string \/ action d = "fail"%string) /\
           (action d = "retry"%string -> attempts r = 3)).
Proof.
  induction fuel as [| fuel IH]; intros attempt st out Hlo Hhi Hrun;
    [discriminate |].
  cbn [V3.retry_loop] in Hrun.
  assert ((attempt <? V3.max_retries) = true) as Hlt
      by (apply Z.ltb_lt; unfold V3.max_retries; lia).
  rewrite Hlt in Hrun.
  destruct (call_operation_effect (count_attempt st)) as (Hres & Hops1 & Hdec1).
  destruct (_tool_call_operation env (count_attempt st)) as [result st1].
  cbn [fst snd] in Hres, Hops1, Hdec1.
  change (operations_called (count_attempt st)) with (operations_called st) in *.
  change (decisions_made (count_attempt st)) with (decisions_made st) in *.
  destruct (Py.get (status_code result) 500 =? 200) eqn:Hstatus.
  { leave_loop Hrun. exists [].
    rewrite app_nil_r. split; [congruence |]. split; [lia |].
    intros r [= <-]; cbn. repeat split; try lia; try discriminate.
    rewrite Hops1. cbn [pred]. rewrite <- Hres. now apply Z.eqb_eq. }
  destruct (check_playbook_effect (Py.get (status_code result) 500) st1)
    as (Hops2 & Hdec2).
  destruct (_tool_check_playbook playbook _ st1) as [[strategy | e] st2];
    cbn [snd] in Hops2, Hdec2.
  2:{ leave_loop Hrun. exists [].
      rewrite app_nil_r. split; [congruence |]. split; [lia |]. discriminate. }
  destruct (v3_decide_effect (Py.get (status_code result) 500) (attempt + 1)
              V3.max_retries strategy st2) as (d & Hd & Hact & Hops3 & Hdec3).
  destruct (V3._tool_decide_retry env _ _ _ strategy st2) as [decision st3].
  cbn [fst snd] in Hd, Hops3, Hdec3. subst decision.
  destruct (negb (String.eqb (action d) "retry") || (V3.max_retries <=? attempt + 1))
    eqn:Hstop.
  { leave_loop Hrun. exists [d].
    split; [congruence |]. split; [lia |].
    intros r [= <-]; cbn. repeat split; try lia; try discriminate.
    intros _. exists d, []. repeat split; trivial.
      intros Hretry. rewrite Hretry in Hstop. cbn in Hstop.
      apply Z.leb_le in Hstop. unfold V3.max_retries in Hstop. lia. }
  apply orb_false_iff in Hstop. destruct Hstop as [_ Hmore].
  apply Z.leb_gt in Hmore. unfold V3.max_retries in Hmore.
  destruct (apply_backoff_effect (attempt + 1) default_base_delay st3)
    as (Hops4 & Hdec4).
  destruct (_tool_apply_backoff (attempt + 1) default_base_delay st3)
    as [[delay | e] st4]; cbn [snd] in Hops4, Hdec4.
  2:{ leave_loop Hrun. exists [d].
      split; [congruence |]. split; [lia | discriminate]. }
  destruct (IH (attempt + 1) st4 out) as (new & Hnew & Hops & Hres'); trivial;
    try lia.
  exists (d :: new). split.
  { rewrite Hnew, Hdec4, Hdec3, Hdec2, Hdec1, <- app_assoc. reflexivity. }
  split.
  { rewrite Hops4, Hops3, Hops2, Hops1 in Hops.
    replace (Z.to_nat (3 - attempt)) with (S (Z.to_nat (3 - (attempt + 1))))
      by lia. lia. }
  intros r Hr. destruct (Hres' r Hr) as (H1 & H2 & H3 & H4 & H5).
  split; [lia |]. split; [lia |]. split.
  { rewrite H3, Hops4, Hops3, Hops2, Hops1.
    replace (Z.to_nat (attempts r - attempt))
      with (S (Z.to_nat (attempts r - (attempt + 1)))) by lia. lia. }
  split; [exact H4 |].
  intros Hfail. destruct (H5 Hfail) as (d' & older & -> & Hrest).
  exists d', (d :: older). split; [reflexivity | exact Hrest].
Qed.

(** The loop leaves within [3 - attempt] iterations. *)
Lemma v3_loop_terminates (fuel : nat) :
  forall (attempt : Z) (st : State),
    (Z.to_nat (3 - attempt) < fuel)%nat ->
    exists out, V3.retry_loop fuel env playbook tid op attempt st = Some out.
Proof.
  induction fuel as [| fuel IH]; intros attempt st Hfuel; [lia |].
  cbn [V3.retry_loop].
  destruct (attempt <? V3.max_retries) eqn:Hlt; [| eauto].
  apply Z.ltb_lt in Hlt. unfold V3.max_retries in Hlt.
  destruct (_tool_call_operation env (count_attempt st)) as [result st1].
  destruct (Py.get (status_code result) 500 =? 200); [eauto |].
  destruct (_tool_check_playbook playbook _ st1) as [[strategy | e] st2];
    [| eauto].
  destruct (V3._tool_decide_retry env _ _ _ strategy st2) as [[d | e] st3];
    [| eauto].
  destruct (negb _ || _); [eauto |].
  destruct (_tool_apply_backoff (attempt + 1) default_base_delay st3)
    as [[delay | e] st4]; [| eauto].
  apply IH. lia.
Qed.

End RetryLoop.

(** ** The retry loop: bound, exit reason and recorded decision *)

Section RunSingleTest.

Import Adk.

(** C3: when the operation never answers 200, v3's [_run_single_test]
    ends after at most [max_retries] = 3 invocations, and a result it
    returns is a failure whose [attempts] is the number of invocations
    made, between 1 and 3. *)
Theorem retry_bound (env : Env) (playbook : Playbook) (tid op : string)
        (st : State) :
  (forall n, Py.get (status_code (chaos_agent_func env n)) 500 <> 200) ->
  exists out,
    V3._run_single_test env playbook tid op st = Some out /\
    (operations_called (snd out) <= operations_called st + 3)%nat /\
    forall r, fst out = Py.Ok r ->
      ok r = false /\ 1 <= attempts r /\ attempts r <= V3.max_retries /\
      operations_called (snd out)
      = (operations_called st + Z.to_nat (attempts r))%nat.
Proof.
  intros Hfails.
  destruct (v3_loop_terminates env playbook tid op 4 0 st) as [out Hrun];
    [cbn; lia |].
  exists out. split; [exact Hrun |].
  destruct (v3_loop env playbook tid op 4 0 st out) as (new & _ & Hops & Hres);
    trivial; try lia.
  split; [exact Hops |].
  intros r Hr. destruct (Hres r Hr) as (H1 & H2 & H3 & H4 & _).
  unfold V3.max_retries. rewrite Z.sub_0_r in H3.
  repeat split; trivial; try lia.
  destruct (ok r); [| reflexivity].
  destruct (H4 eq_refl) as (_ & _ & H200). now apply Hfails in H200.
Qed.

(** The theorem for the 503 scenario. *)
Lemma retry_bound_witness :
  exists out,
    V3._run_single_test Scenario.env_always_retry Scenario.playbook_503
                        "t1" "getPetById" Scenario.fresh_state = Some out /\
    (operations_called (snd out)
     <= operations_called Scenario.fresh_state + 3)%nat /\
    forall r, fst out = Py.Ok r ->
      ok r = false /\ 1 <= attempts r /\ attempts r <= V3.max_retries /\
      operations_called (snd out)
      = (operations_called Scenario.fresh_state + Z.to_nat (attempts r))%nat.
Proof.
  apply (retry_bound Scenario.env_always_retry Scenario.playbook_503
                     "t1" "getPetById" Scenario.fresh_state).
  intros n. cbn. discriminate.
Defined.

(** No result of the v3 loop carries the reason "max_retries_exceeded":
    the [return] after the [while] is never reached. *)
Lemma v3_never_reports_exhaustion (env : Env) (playbook : Playbook)
      (tid op : string) (st : State) out r :
  V3._run_single_test env playbook tid op st = Some out ->
  fst out = Py.Ok r ->
  result_reason r <> Some "max_retries_exceeded"%string.
Proof.
  intros Hrun Hr.
  destruct (v3_loop env playbook tid op 4 0 st out) as (new & _ & _ & Hres);
    trivial; try lia.
  destruct (Hres r Hr) as (_ & _ & _ & Hok & Hfail).
  destruct (ok r).
  - destruct (Hok eq_refl) as (_ & -> & _). discriminate.
  - destruct (Hfail eq_refl) as (d & older & _ & _ & -> & [-> | ->] & _);
      discriminate.
Qed.

(** C4, evaluated: with the playbook mapping "503" to retry, an operation
    that always answers 503 and a reasoner that always says retry, v3's
    [_run_single_test] ends with [ok] false and [attempts] 3 as claimed,
    but the reason it records is the last decision's action, "retry". *)
Lemma exhausted_retries_report_retry :
  exists r st',
    V3._run_single_test Scenario.env_always_retry Scenario.playbook_503
                        "t1" "getPetById" Scenario.fresh_state
    = Some (Py.Ok r, st') /\
    ok r = false /\ attempts r = 3 /\
    result_reason r = Some "retry"%string /\
    operations_called st' = 3%nat.
Proof.
  eexists. eexists. split; [vm_compute; reflexivity |].
  repeat split.
Qed.

(** C9, as stated, fails: in a run where the reasoner first says retry
    and then fail, two decisions are taken and the result holds the second
    one only. *)
Lemma result_keeps_last_decision_only :
  exists r st' d1 d2,
    V3._run_single_test Scenario.env_retry_then_fail Scenario.playbook_503
                        "t1" "getPetById" Scenario.fresh_state
    = Some (Py.Ok r, st') /\
    decisions_made st' = [d1; d2] /\
    action d1 = "retry"%string /\ action d2 = "fail"%string /\
    decision r = Some d2.
Proof.
  do 4 eexists. split; [vm_compute; reflexivity |].
  repeat split.
Qed.

(** C9, as the code has it: v3's [_run_single_test] always ends; a result
    it returns has no decision trail: a failed one holds, under
    [decision], the last decision taken and no earlier one, a passed one
    holds none. *)
Theorem result_holds_last_decision (env : Env) (playbook : Playbook)
        (tid op : string) (st : State) :
  exists out new,
    V3._run_single_test env playbook tid op st = Some out /\
    decisions_made (snd out) = decisions_made st ++ new /\
    forall r, fst out = Py.Ok r ->
      (ok r = true -> decision r = None) /\
      (ok r = false ->
       exists d older, new = older ++ [d] /\ decision r = Some d).
Proof.
  destruct (v3_loop_terminates env playbook tid op 4 0 st) as [out Hrun];
    [cbn; lia |].
  destruct (v3_loop env playbook tid op 4 0 st out) as (new & Hnew & _ & Hres);
    trivial; try lia.
  exists out, new. split; [exact Hrun |]. split; [exact Hnew |].
  intros r Hr. destruct (Hres r Hr) as (_ & _ & _ & Hok & Hfail). split.
  - intros H. now destruct (Hok H).
  - intros H. destruct (Hfail H) as (d & older & Hd & Hdec & _).
    now exists d, older.
Qed.

End RunSingleTest.

(** ** The fallback of the retry decision *)

Section Fallback.

Lemma v3_unusable_reply_raises (reply : Json.Reply) :
  Json.unusable reply = true ->
  exists e, (result_json <- Json.loaded reply ;; Adk.llm_decision result_json)
            = Py.Raise e.
Proof.
  destruct reply as [msg | msg | v]; cbn; intros H; eauto.
  destruct v; cbn; eauto. discriminate.
Qed.


(** The v2 heuristic, for a strategy that has its [action] entry. *)
Lemma v2_fallback_decision (e attempt m : Z) (strategy : V2.Strategy)
      (act : string) :
  V2.strategy_action strategy = Some act ->
  exists d,
    V2._fallback_decide_retry e attempt m strategy = Py.Ok d /\
    V2.action d
    = (if m <=? attempt then "fail"%string
       else if String.eqb act "retry" then "retry"%string else "fail"%string) /\
    V2.llm_called d = false /\ V2.fallback d = Some true.
Proof.
  intros Hact. unfold V2._fallback_decide_retry. rewrite Hact.
  destruct (m <=? attempt); cbn.
  - eexists. repeat split.
  - destruct (String.eqb act "retry"); cbn; eexists; repeat split.
Qed.

(** Below [max_retries] the v2 heuristic reads [strategy['action']], and
    raises [KeyError] on a strategy without that entry. *)
Lemma v2_fallback_without_action_raises (e attempt m : Z)
      (strategy : V2.Strategy) :
  attempt < m ->
  V2.strategy_action strategy = None ->
  V2._fallback_decide_retry e attempt m strategy = Py.Raise (Py.KeyError "action").
Proof.
  intros Hlt Hact. unfold V2._fallback_decide_retry.
  apply Z.leb_gt in Hlt. now rewrite Hlt, Hact.
Qed.



(** In v2 the prompt is formatted before the [try]: for the strategy the
    lookup returns when no procedure matches, which has no
    [backoff_seconds] entry, [_tool_decide_retry] raises [KeyError]
    whatever the reasoner would have said, and [run_test] with it. *)
Lemma v2_unmatched_error_raises :
  fst (V2._tool_decide_retry Scenario.v2_env_always_retry 503 1 0
         (V2._tool_check_playbook (V2.mkPlaybook (Some [])) 503)
         Scenario.v2_fresh_state)
  = Py.Raise (Py.KeyError "backoff_seconds") /\
  option_map fst
    (V2.run_test 5 Scenario.v2_env_always_retry (V2.mkPlaybook (Some []))
                 "t1" "getPetById" 1 Scenario.v2_fresh_state)
  = Some (Py.Raise (Py.KeyError "backoff_seconds")).
Proof.
  split; vm_compute; reflexivity.
Qed.



(** The same reply in v2, which hands [json.loads] the fence as well: the
    text is rejected and the fallback decides. *)
Lemma v2_fenced_reply_falls_back :
  V2.response_text Scenario.fenced_reply = Scenario.fenced_reply /\
  Json.nonconforming
    (V2.read_reply Scenario.loads_empty_object (Py.Ok Scenario.fenced_reply))
  = true /\
  Json.unusable
    (V3.read_reply Scenario.loads_empty_object (Py.Ok Scenario.fenced_reply))
  = false.
Proof.
  repeat split.
Qed.

(** C8, as stated, fails on v3: its fallback ignores the strategy.  With
    strategy action "fail", error 503 and attempt 1 of 3 it retries; with
    strategy action "retry" and error 400 it fails. *)
Lemma v3_heuristic_ignores_strategy :
  exists d d',
    V3.decide_retry_tool 503 1 3 "fail" (Json.CallRaised "timeout") = Py.Ok d /\
    Adk.action d = "retry"%string /\ Adk.llm_called d = false /\
    V3.decide_retry_tool 400 1 3 "retry" (Json.CallRaised "timeout") = Py.Ok d' /\
    Adk.action d' = "fail"%string /\ Adk.llm_called d' = false.
Proof.
  do 2 eexists. split; [vm_compute; reflexivity |].
  split; [reflexivity |]. split; [reflexivity |].
  split; [vm_compute; reflexivity |]. split; reflexivity.
Qed.

(** C8, as the code has it.  v2's [_fallback_decide_retry] returns "fail"
    when [attempt >= max_retries], without reading the strategy; below
    that, for a strategy with an [action] entry, it returns "retry"
    exactly when that action is "retry" and "fail" otherwise; it does not
    raise in either case.  The heuristic of v3's [decide_retry_tool]
    returns "retry" exactly when the error code is neither 400 nor 422 and
    [attempt < max_retries], whatever the strategy, and never raises. *)
Theorem heuristic_decision (error_code attempt max_retries : Z) :
  (forall strategy,
      max_retries <= attempt ->
      exists d,
        V2._fallback_decide_retry error_code attempt max_retries strategy
        = Py.Ok d /\ V2.action d = "fail"%string) /\
  (forall strategy act,
      attempt < max_retries ->
      V2.strategy_action strategy = Some act ->
      exists d,
        V2._fallback_decide_retry error_code attempt max_retries strategy
        = Py.Ok d /\
        (act = "retry"%string -> V2.action d = "retry"%string) /\
        (act <> "retry"%string -> V2.action d = "fail"%string)) /\
  (forall strategy_action reply,
      Json.unusable reply = true ->
      exists d,
        V3.decide_retry_tool error_code attempt max_retries strategy_action
                             reply = Py.Ok d /\
        (error_code <> 400 /\ error_code <> 422 /\ attempt < max_retries ->
         Adk.action d = "retry"%string) /\
        (error_code = 400 \/ error_code = 422 \/ max_retries <= attempt ->
         Adk.action d = "fail"%string)).
Proof.
  split; [| split].
  - intros strategy Hle. unfold V2._fallback_decide_retry.
    apply Z.leb_le in Hle. rewrite Hle. cbn. eexists. now split.
  - intros strategy act Hlt Hact.
    destruct (v2_fallback_decision error_code attempt max_retries strategy act Hact)
      as (d & Hd & Haction & _).
    exists d. split; [exact Hd |].
    apply Z.leb_gt in Hlt. rewrite Hlt in Haction. split.
    + intros ->. exact Haction.
    + intros Hne. apply String.eqb_neq in Hne. now rewrite Hne in Haction.
  - intros sa reply Hbad.
    destruct (v3_unusable_reply_raises reply Hbad) as [err Herr].
    unfold V3.decide_retry_tool. rewrite Herr.
    eexists. split; [reflexivity |].
    unfold Adk.fallback_decision, Adk.heuristic_should_retry; cbn [Adk.action].
    split.
    + intros (H400 & H422 & Hlt).
      apply Z.eqb_neq in H400, H422. apply Z.ltb_lt in Hlt.
      now rewrite H400, H422, Hlt.
    + intros [-> | [-> | Hle]]; [reflexivity | reflexivity |].
      apply Z.ltb_ge in Hle. rewrite Hle.
      now rewrite andb_false_r.
Qed.

(** C6, evaluated on v2: [run_test] sleeps [backoff_seconds * attempt]
    through the tool whose docstring says "Apply exponential backoff
    before retry".  With a backoff of one second the run that recovers at
    its fourth call sleeps 1, 2 and 3 seconds, where the claimed
    min(1 * 2^(attempt-1), 10), as v3 computes it, gives 4 at the third
    attempt; at an eleventh attempt the delay is 11, above the cap of
    10. *)
Lemma v2_backoff_is_linear :
  exists r st' strategy,
    V2.run_test 5 Scenario.v2_env_always_retry Scenario.v2_playbook_503
                "t1" "getPetById" 1 Scenario.v2_fresh_state
    = Some (Py.Ok r, st') /\
    strategy = V2._tool_check_playbook Scenario.v2_playbook_503 503 /\
    V2.strategy_backoff_seconds strategy = Some (PyNumber.Int 1) /\
    V2.slept st' = [PyNumber.Int 1; PyNumber.Int 2; PyNumber.Int 3] /\
    V2.retry_backoff strategy 3 = Py.Ok (PyNumber.Int 3) /\
    Qeq_bool (Adk.backoff_delay 3 1) 4 = true /\
    V2.retry_backoff strategy 11 = Py.Ok (PyNumber.Int 11) /\
    Qeq_bool (Adk.backoff_delay 11 1) 10 = true.
Proof.
  do 3 eexists. split; [vm_compute; reflexivity |].
  split; [reflexivity |]. repeat split.
Qed.

End Fallback.

(* ================================================================== *)
(** * Further properties *)

(** ** Calls of the chaos agent *)

Section ChaosCalls.

Import ChaosAgentUniversal ChaosAgentRuns.

Lemma draws_iff (rate : Q) : draws rate = true <-> (0 < rate < 1)%Q.
Proof.
  unfold draws. rewrite andb_true_iff, !negb_true_iff.
  split.
  - intros [H0 H1]. split; apply Qnot_le_lt; intros H;
      apply Qle_bool_iff in H; congruence.
  - intros [H0 H1]. split.
    + destruct (Qle_bool rate 0) eqn:E; [| reflexivity].
      apply Qle_bool_iff in E. exfalso. exact (Qle_not_lt _ _ E H0).
    + destruct (Qle_bool 1 rate) eqn:E; [| reflexivity].
      apply Qle_bool_iff in E. exfalso. exact (Qle_not_lt _ _ E H1).
Qed.

(** The counter after one call. *)
Lemma call_counter (self : ChaosAgent) (tool : string)
      (rate : option Q) (seed : option Z) :
  _call_counter (snd (call self tool rate seed))
  = if draws (effective_rate self rate)
    then Some (Py.get (_call_counter self) 0 + 1)
    else _call_counter self.
Proof.
  unfold call, effective_rate, draws, _should_inject_chaos.
  destruct (Qle_bool (Py.get rate _) 0); cbn; [reflexivity |].
  destruct (Qle_bool 1 (Py.get rate _)); cbn; [reflexivity |].
  destruct (PyChoices.Qltb _ _); reflexivity.
Qed.

Lemma call_keeps_config (self : ChaosAgent) (tool : string)
      (rate : option Q) (seed : option Z) :
  config (snd (call self tool rate seed)) = config self.
Proof.
  destruct (call_outcome self tool rate seed) as [[Hc _] _]. now symmetry.
Qed.

(** X1: every call whose rate lies strictly between 0 and 1 advances the
    counter by one and no other call touches it: after a run of calls the
    counter has grown by the number of such calls, and the attribute is
    still absent if there was none. *)
Theorem call_counter_counts_draws (rates : list (option Q)) (self : ChaosAgent)
        (tool : string) (seed : option Z) :
  let drawn := List.length (filter (fun r => draws (effective_rate self r)) rates) in
  Py.get (_call_counter (agent_after rates self tool seed)) 0
  = Py.get (_call_counter self) 0 + Z.of_nat drawn /\
  (drawn = 0%nat ->
   _call_counter (agent_after rates self tool seed) = _call_counter self).
Proof.
  revert self. induction rates as [| rate rates IH]; intros self; cbn zeta.
  - cbn. split; [lia | reflexivity].
  - cbn [agent_after filter].
    specialize (IH (snd (call self tool rate seed))). cbn zeta in IH.
    assert (forall r, effective_rate (snd (call self tool rate seed)) r
                      = effective_rate self r) as Hrate.
    { intros r. unfold effective_rate. now rewrite call_keeps_config. }
    assert (filter (fun r => draws (effective_rate (snd (call self tool rate seed)) r))
                   rates
            = filter (fun r => draws (effective_rate self r)) rates) as Hf
        by (apply filter_ext; intros r; now rewrite Hrate).
    rewrite Hf in IH. clear Hf.
    destruct IH as [IHv IHabsent].
    rewrite (call_counter self tool rate seed) in IHv, IHabsent.
    destruct (draws (effective_rate self rate)); cbn [List.length Py.get] in *.
    + split; [lia | discriminate].
    + split; [exact IHv | exact IHabsent].
Qed.


(** *** The weighted choice *)

Lemma bisect_bounds (fuel : nat) (a : list Z) (x : Q) :
  forall lo hi, lo <= hi -> lo <= PyChoices.bisect fuel a x lo hi <= hi.
Proof.
  induction fuel as [| fuel IH]; intros lo hi Hle; cbn [PyChoices.bisect];
    [lia |].
  destruct (lo <? hi) eqn:Hlt; [| lia].
  apply Z.ltb_lt in Hlt.
  assert (lo <= (lo + hi) / 2 < hi) as Hmid.
  { split; [apply Z.div_le_lower_bound | apply Z.div_lt_upper_bound]; lia. }
  destruct (PyChoices.Qltb _ _).
  - specialize (IH lo ((lo + hi) / 2)). lia.
  - specialize (IH ((lo + hi) / 2 + 1) hi). lia.
Qed.

Lemma accumulate_from_length (acc : Z) (weights : list Z) :
  List.length (PyChoices.accumulate_from acc weights) = List.length weights.
Proof.
  revert acc. induction weights as [| w weights IH]; intros acc; cbn;
    [reflexivity | now rewrite IH].
Qed.

Lemma accumulate_from_last (weights : list Z) :
  forall acc d, weights <> [] ->
    last (PyChoices.accumulate_from acc weights) d
    = acc + fold_right Z.add 0 weights.
Proof.
  induction weights as [| w weights IH]; intros acc d Hne; [congruence |].
  destruct weights as [| w' weights].
  - cbn. lia.
  - change (PyChoices.accumulate_from acc (w :: w' :: weights))
      with ((acc + w) :: PyChoices.accumulate_from (acc + w) (w' :: weights)).
    change (last ((acc + w) :: PyChoices.accumulate_from (acc + w) (w' :: weights)) d)
      with (last (PyChoices.accumulate_from (acc + w) (w' :: weights)) d).
    rewrite IH by discriminate. cbn [fold_right]. lia.
Qed.

(** *** The conversion of an [int] to a [float] *)

Lemma nearest_double_integer (m : Z) :
  0 <= m ->
  exists v,
    PyChoices.nearest_double m 0 = Qmake v 1 /\
    (m < PyChoices.float_limit -> 0 <= v < 2 ^ 1024 /\ (0 < m -> 0 < v)) /\
    (PyChoices.float_limit <= m -> 2 ^ 1024 <= v).
Proof.
  intros Hm. unfold PyChoices.nearest_double.
  change (Z.to_pos (2 ^ 0)) with 1%positive.
  destruct (m =? 0) eqn:Hzero.
  { apply Z.eqb_eq in Hzero. subst m. cbn [Z.leb Z.compare].
    exists 0. split; [reflexivity |]. unfold PyChoices.float_limit. split; [| lia].
    intros _. split; [| lia]. split; [lia |]. apply Z.pow_pos_nonneg; lia. }
  apply Z.eqb_neq in Hzero.
  assert (0 < m) as Hpos by lia.
  destruct (Z.log2_spec m Hpos) as [Hlow Hhigh].
  pose proof (Z.log2_nonneg m) as HL.
  set (L := Z.log2 m) in *.
  destruct (L + 1 <=? 53) eqn:Hsmall.
  { apply Z.leb_le in Hsmall. exists m. split; [reflexivity |].
    assert (2 ^ Z.succ L <= 2 ^ 53) as Hle
        by (apply Z.pow_le_mono_r; lia).
    unfold PyChoices.float_limit.
    assert (2 ^ 53 < 2 ^ 1024 - 2 ^ 970) as Hbig by (vm_compute; reflexivity).
    assert (2 ^ 53 < 2 ^ 1024) as Hbig' by (vm_compute; reflexivity).
    split; [intros _; lia | lia]. }
  apply Z.leb_gt in Hsmall.
  set (sh := L + 1 - 53).
  assert (1 <= sh) as Hsh by (unfold sh; lia).
  rewrite Z.shiftr_div_pow2 by lia.
  replace (2 ^ sh - 1) with (Z.ones sh) by (rewrite Z.ones_equiv; lia).
  rewrite Z.land_ones by lia.
  set (P := 2 ^ sh).
  assert (0 < P) as HP by (apply Z.pow_pos_nonneg; lia).
  assert (2 ^ (sh - 1) * 2 = P) as Hhalf.
  { unfold P. replace sh with (Z.succ (sh - 1)) at 2 by lia.
    rewrite Z.pow_succ_r by lia. lia. }
  set (half := 2 ^ (sh - 1)) in *.
  assert (2 ^ Z.succ L = 2 ^ 53 * P) as Htop.
  { unfold P, sh. rewrite <- Z.pow_add_r by lia. f_equal. lia. }
  assert (2 ^ L = 2 ^ 52 * P) as Hbot.
  { unfold P, sh. rewrite <- Z.pow_add_r by lia. f_equal. lia. }
  pose proof (Z.div_mod m P ltac:(lia)) as Hdiv.
  pose proof (Z.mod_pos_bound m P HP) as Hr.
  set (q := m / P) in *. set (r := m mod P) in *.
  assert (2 ^ 52 <= q < 2 ^ 53) as Hq.
  { assert (0 < 2 ^ 52) by (vm_compute; reflexivity).
    assert (0 < 2 ^ 53) by (vm_compute; reflexivity).
    split; nia. }
  set (up := (half <? r) || ((half =? r) && Z.odd q)).
  exists ((if up then q + 1 else q) * P). split; [reflexivity |].
  assert (q * P <= (if up then q + 1 else q) * P <= (q + 1) * P) as Hv
      by (destruct up; nia).
  unfold PyChoices.float_limit. split.
  - intros Hfits.
    assert (0 < (if up then q + 1 else q) * P) as Hvpos.
    { assert (0 < 2 ^ 52) by (vm_compute; reflexivity). nia. }
    split; [| intros _; exact Hvpos]. split; [lia |].
    destruct (Z_le_gt_dec (L + 1) 1023) as [Hlow_exp | Hhigh_exp].
    + assert (2 ^ Z.succ L <= 2 ^ 1023) as Hle
          by (apply Z.pow_le_mono_r; lia).
      assert (2 ^ 1023 < 2 ^ 1024) by (vm_compute; reflexivity).
      nia.
    + destruct (Z_le_gt_dec L 1023) as [Heq | Hmore].
      * assert (L = 1023) as HLeq by lia.
        assert (sh = 971) as Hsh_eq by (unfold sh; lia).
        assert (P = 2 ^ 971) as HPeq by (unfold P; now rewrite Hsh_eq).
        assert (half = 2 ^ 970) as Hhalf_eq by (unfold half; now rewrite Hsh_eq).
        assert (2 ^ 1024 = 2 ^ 53 * 2 ^ 971) as H1024 by (vm_compute; reflexivity).
        assert (2 ^ 971 = 2 * 2 ^ 970) as H971 by (vm_compute; reflexivity).
        assert (0 < 2 ^ 970) by (vm_compute; reflexivity).
        destruct (Z_le_gt_dec q (2 ^ 53 - 2)) as [Hq' | Hq'].
        { destruct up; nia. }
        assert (q = 2 ^ 53 - 1) as Hqeq by lia.
        assert (r < half) as Hrsmall by nia.
        assert (up = false) as ->.
        { unfold up. apply orb_false_iff. split.
          - apply Z.ltb_ge. lia.
          - apply andb_false_iff. left. apply Z.eqb_neq. lia. }
        nia.
      * assert (2 ^ 1024 <= 2 ^ L) as Hle
            by (apply Z.pow_le_mono_r; lia).
        assert (0 < 2 ^ 970) by (vm_compute; reflexivity).
        lia.
  - intros Hover.
    assert (1023 <= L) as Hexp.
    { apply Z.log2_le_pow2 in Hlow; [| lia].
      destruct (Z_le_gt_dec 1023 L); [assumption |].
      assert (2 ^ Z.succ L <= 2 ^ 1023) as Hle
          by (apply Z.pow_le_mono_r; lia).
      assert (2 ^ 1023 < 2 ^ 1024 - 2 ^ 970) by (vm_compute; reflexivity).
      lia. }
    destruct (Z_le_gt_dec L 1023) as [Heq | Hmore].
    + assert (L = 1023) as HLeq by lia.
      assert (sh = 971) as Hsh_eq by (unfold sh; lia).
      assert (P = 2 ^ 971) as HPeq by (unfold P; now rewrite Hsh_eq).
      assert (half = 2 ^ 970) as Hhalf_eq by (unfold half; now rewrite Hsh_eq).
      assert (2 ^ 1024 = 2 ^ 53 * 2 ^ 971) as H1024 by (vm_compute; reflexivity).
      assert (2 ^ 971 = 2 * 2 ^ 970) as H971 by (vm_compute; reflexivity).
      assert (0 < 2 ^ 970) by (vm_compute; reflexivity).
      assert (q = 2 ^ 53 - 1) as Hqeq by nia.
      assert (half <= r) as Hrbig by nia.
      assert (up = true) as ->.
      { unfold up. destruct (Z.eq_dec half r) as [He | Hne].
        - apply orb_true_iff. right. apply andb_true_iff. split.
          + now apply Z.eqb_eq.
          + rewrite Hqeq. vm_compute. reflexivity.
        - apply orb_true_iff. left. apply Z.ltb_lt. lia. }
      nia.
    + assert (2 ^ 1024 <= 2 ^ L) as Hle
          by (apply Z.pow_le_mono_r; lia).
      nia.
Qed.

Lemma float_of_int_positive (n : Z) :
  0 < n -> n < PyChoices.float_limit ->
  exists x, PyChoices.float_of_int n = Py.Ok x /\ Qle_bool x 0 = false.
Proof.
  intros Hpos Hfits. unfold PyChoices.float_of_int.
  rewrite Z.abs_eq by lia.
  destruct (nearest_double_integer n ltac:(lia)) as (v & -> & Hv & _).
  destruct (Hv Hfits) as ([_ Hlt] & Hvpos). specialize (Hvpos Hpos).
  assert (Qle_bool (inject_Z (2 ^ 1024)) (Qmake v 1) = false) as ->.
  { destruct (Qle_bool _ _) eqn:E; [| reflexivity].
    apply Qle_bool_iff in E. unfold Qle in E. cbn [Qnum Qden inject_Z] in E. lia. }
  assert ((n <? 0) = false) as -> by (apply Z.ltb_ge; lia).
  eexists. split; [reflexivity |].
  destruct (Qle_bool _ _) eqn:E; [| reflexivity].
  apply Qle_bool_iff in E. unfold Qle in E. cbn [Qnum Qden] in E. lia.
Qed.

Lemma float_of_int_nonpositive (n : Z) :
  n <= 0 -> - PyChoices.float_limit < n ->
  exists x, PyChoices.float_of_int n = Py.Ok x /\ Qle_bool x 0 = true.
Proof.
  intros Hneg Hfits.
  destruct (Z.eq_dec n 0) as [-> | Hne].
  { exists 0%Q. split; reflexivity. }
  unfold PyChoices.float_of_int.
  destruct (nearest_double_integer (Z.abs n) (Z.abs_nonneg n))
    as (v & -> & Hv & _).
  destruct (Hv ltac:(lia)) as ([Hge Hlt] & _).
  assert (Qle_bool (inject_Z (2 ^ 1024)) (Qmake v 1) = false) as ->.
  { destruct (Qle_bool _ _) eqn:E; [| reflexivity].
    apply Qle_bool_iff in E. unfold Qle in E. cbn [Qnum Qden inject_Z] in E. lia. }
  assert ((n <? 0) = true) as -> by (apply Z.ltb_lt; lia).
  eexists. split; [reflexivity |].
  apply Qle_bool_iff. unfold Qle. cbn [Qnum Qden Qopp]. lia.
Qed.

Lemma float_of_int_overflows (n : Z) :
  PyChoices.float_limit <= Z.abs n ->
  PyChoices.float_of_int n
  = Py.Raise (Py.OverflowError "int too large to convert to float").
Proof.
  intros Hover. unfold PyChoices.float_of_int.
  destruct (nearest_double_integer (Z.abs n) (Z.abs_nonneg n)) as (v & -> & _ & Hv).
  specialize (Hv Hover).
  assert (Qle_bool (inject_Z (2 ^ 1024)) (Qmake v 1) = true) as ->; [| reflexivity].
  apply Qle_bool_iff. unfold Qle. cbn [Qnum Qden inject_Z]. lia.
Qed.

(** [choices] on as many weights as candidates, by the sum of the
    weights: [ValueError] for a sum of zero or less, a candidate for a
    positive sum that has a double, [OverflowError] for a sum beyond the
    doubles. *)
Lemma choices_outcome (rng : PyRandom.Random) (population : list string)
      (weights : list Z) :
  population <> [] ->
  List.length weights = List.length population ->
  (- PyChoices.float_limit < fold_right Z.add 0 weights <= 0 ->
   PyChoices.choices rng population weights
   = Py.Raise (Py.ValueError "Total of weights must be greater than zero")) /\
  (0 < fold_right Z.add 0 weights < PyChoices.float_limit ->
   exists c, PyChoices.choices rng population weights = Py.Ok c /\
             In c population) /\
  (PyChoices.float_limit <= Z.abs (fold_right Z.add 0 weights) ->
   PyChoices.choices rng population weights
   = Py.Raise (Py.OverflowError "int too large to convert to float")).
Proof.
  intros Hne Hlen. unfold PyChoices.choices, PyChoices.accumulate.
  rewrite accumulate_from_length, Hlen, Z.eqb_refl. cbn [negb].
  assert (weights <> []) as Hw by (destruct weights, population; cbn in *; congruence).
  rewrite (accumulate_from_last weights 0 0 Hw), Z.add_0_l.
  split; [| split]; intros Hsum.
  - destruct (float_of_int_nonpositive _ (proj2 Hsum) (proj1 Hsum))
      as (x & -> & Hx).
    cbn [Py.bind]. now rewrite Hx.
  - destruct (float_of_int_positive _ (proj1 Hsum) (proj2 Hsum))
      as (x & -> & Hx).
    cbn [Py.bind]. rewrite Hx.
    eexists. split; [reflexivity |].
    apply nth_In.
    assert (0 < Z.of_nat (List.length population)) as Hpos
        by (destruct population; cbn in *; [congruence | lia]).
    pose proof (bisect_bounds (S (List.length population))
                  (PyChoices.accumulate_from 0 weights)
                  (PyChoices.nearest_double
                     (fst (PyRandom.random_bits rng) * Qnum x) 53)
                  0 (Z.of_nat (List.length population) - 1)) as Hb.
    lia.
  - now rewrite (float_of_int_overflows _ Hsum).
Qed.

Lemma select_error_code_declared (self : ChaosAgent) (tool : string) (seed : Z) :
  get_error_codes_for_operation self tool <> [] ->
  (- PyChoices.float_limit < fold_right Z.add 0 (operation_weights self tool) <= 0 ->
   select_error_code self tool seed
   = Py.Raise (Py.ValueError "Total of weights must be greater than zero")) /\
  (0 < fold_right Z.add 0 (operation_weights self tool) < PyChoices.float_limit ->
   exists code,
     select_error_code self tool seed = Py.Ok code /\
     In code (get_error_codes_for_operation self tool)) /\
  (PyChoices.float_limit <= Z.abs (fold_right Z.add 0 (operation_weights self tool)) ->
   select_error_code self tool seed
   = Py.Raise (Py.OverflowError "int too large to convert to float")).
Proof.
  unfold operation_weights, get_error_codes_for_operation, select_error_code.
  destruct (Py.lookup tool (chaos_strategies self)) as [errors |];
    [| congruence].
  intros Hne.
  destruct (Py.keys errors) as [| code codes] eqn:Hkeys; [congruence |].
  apply choices_outcome; [discriminate | apply length_map].
Qed.

(** X2: for an operation with declared error codes, [select_error_code]
    goes by the sum of their weights.  It raises [ValueError] for a sum
    of zero or less, returns one of the declared codes for a positive sum
    below 2^1024 - 2^970, and raises [OverflowError] for a sum that has no
    double, of either sign. *)
Theorem select_error_code_outcome (self : ChaosAgent) (tool : string) (seed : Z) :
  get_error_codes_for_operation self tool <> [] ->
  (- PyChoices.float_limit < fold_right Z.add 0 (operation_weights self tool) <= 0 ->
   select_error_code self tool seed
   = Py.Raise (Py.ValueError "Total of weights must be greater than zero")) /\
  (0 < fold_right Z.add 0 (operation_weights self tool) < PyChoices.float_limit ->
   exists code,
     select_error_code self tool seed = Py.Ok code /\
     In code (get_error_codes_for_operation self tool)) /\
  (PyChoices.float_limit <= Z.abs (fold_right Z.add 0 (operation_weights self tool)) ->
   select_error_code self tool seed
   = Py.Raise (Py.OverflowError "int too large to convert to float")).
Proof.
  apply select_error_code_declared.
Qed.

(** The theorem for [getPetById] of the petstore agent. *)
Lemma select_error_code_outcome_witness :
  (- PyChoices.float_limit
   < fold_right Z.add 0 (operation_weights (petstore_agent None) "getPetById")
   <= 0 ->
   select_error_code (petstore_agent None) "getPetById" 42
   = Py.Raise (Py.ValueError "Total of weights must be greater than zero")) /\
  (0 < fold_right Z.add 0 (operation_weights (petstore_agent None) "getPetById")
   < PyChoices.float_limit ->
   exists code,
     select_error_code (petstore_agent None) "getPetById" 42 = Py.Ok code /\
     In code (get_error_codes_for_operation (petstore_agent None) "getPetById")) /\
  (PyChoices.float_limit
   <= Z.abs (fold_right Z.add 0
               (operation_weights (petstore_agent None) "getPetById")) ->
   select_error_code (petstore_agent None) "getPetById" 42
   = Py.Raise (Py.OverflowError "int too large to convert to float")).
Proof.
  apply (select_error_code_outcome (petstore_agent None) "getPetById" 42).
  discriminate.
Defined.

Lemma lookup_of_key {V : Type} (key : string) (d : Py.dict V) :
  In key (Py.keys d) -> exists v, Py.lookup key d = Some v.
Proof.
  induction d as [| [k v] d IH]; cbn; [intros [] |].
  destruct (String.eqb key k) eqn:E; [eauto |].
  intros [Hk | Hin]; [| now apply IH].
  subst k. now rewrite String.eqb_refl in E.
Qed.

(** The responses of [call], by the kind of operation. *)
Lemma call_response (self : ChaosAgent) (tool : string)
      (rate : option Q) (seed : option Z) :
  fst (call self tool rate seed) = Py.Ok (mock_success_response self tool) \/
  fst (call self tool rate seed)
  = (error_code <- select_error_code self tool
                     (Py.get seed (default_seed (config self))) ;;
     mock_error_response self tool error_code).
Proof.
  destruct (call_outcome self tool rate seed) as [_ H]. exact H.
Qed.

(** X3: on an operation that declares error codes, a response of [call]
    is the mocked success or the error response of one code of the
    operation's table: status [int(code)], body the code and the message
    the table gives for it, error "HTTP code", [chaos_injected] true; the
    "Internal server error" response does not occur. *)
Theorem call_on_declared_codes (self : ChaosAgent) (tool : string)
        (rate : option Q) (seed : option Z) (response : Response) :
  get_error_codes_for_operation self tool <> [] ->
  fst (call self tool rate seed) = Py.Ok response ->
  response = mock_success_response self tool \/
  exists errors code info status,
    Py.lookup tool (chaos_strategies self) = Some errors /\
    Py.lookup code errors = Some info /\
    In code (get_error_codes_for_operation self tool) /\
    Py.int code = Py.Ok status /\
    response = declared_error tool code info status.
Proof.
  intros Hne Hcall.
  destruct (call_response self tool rate seed) as [Hs | Hf].
  { left. rewrite Hcall in Hs. now injection Hs. }
  right. rewrite Hcall in Hf. symmetry in Hf.
  destruct (select_error_code_declared self tool
              (Py.get seed (default_seed (config self))) Hne)
    as (Hbad & Hgood & Hhuge).
  set (total := fold_right Z.add 0 (operation_weights self tool)) in *.
  destruct (Z_le_gt_dec PyChoices.float_limit (Z.abs total)) as [Hover | Hfits].
  { rewrite (Hhuge Hover) in Hf. discriminate. }
  destruct (Z_le_gt_dec total 0) as [Hle | Hgt].
  { rewrite (Hbad ltac:(lia)) in Hf. discriminate. }
  destruct (Hgood ltac:(lia)) as (code & Hsel & Hin).
  rewrite Hsel in Hf. cbn [Py.bind] in Hf.
  unfold get_error_codes_for_operation in Hin.
  unfold mock_error_response in Hf.
  destruct (Py.lookup tool (chaos_strategies self)) as [errors |] eqn:Htool;
    [| destruct Hin].
  destruct (lookup_of_key code errors Hin) as [info Hinfo].
  rewrite Hinfo in Hf.
  destruct (Py.int code) as [status | err] eqn:Hint; [| discriminate].
  exists errors, code, info, status.
  unfold get_error_codes_for_operation. rewrite Htool.
  repeat split; trivial. cbn [Py.bind] in Hf. now injection Hf as <-.
Qed.

(** The theorem at an injected call on [getPetById]. *)
Lemma call_on_declared_codes_witness :
  declared_error "getPetById" "404"
                 (mkErrorInfo "Pet not found" "GET" "/pet/{petId}") 404
  = mock_success_response (petstore_agent None) "getPetById" \/
  exists errors code info status,
    Py.lookup "getPetById" (chaos_strategies (petstore_agent None))
    = Some errors /\
    Py.lookup code errors = Some info /\
    In code (get_error_codes_for_operation (petstore_agent None) "getPetById") /\
    Py.int code = Py.Ok status /\
    declared_error "getPetById" "404"
                   (mkErrorInfo "Pet not found" "GET" "/pet/{petId}") 404
    = declared_error "getPetById" code info status.
Proof.
  apply (call_on_declared_codes (petstore_agent None) "getPetById"
                                (Some 1%Q) (Some 42)).
  - discriminate.
  - vm_compute. reflexivity.
Defined.

(** X4: on a known operation that declares no error code an injected
    call answers the 500 "Internal server error" response, marked
    [chaos_injected]: [select_error_code] falls back to "400", which the
    operation's empty table does not have.  Such a call never raises. *)
Theorem call_without_declared_codes (self : ChaosAgent) (tool : string)
        (rate : option Q) (seed : option Z) :
  Py.lookup tool (chaos_strategies self) = Some [] ->
  (fst (call self tool rate seed) = Py.Ok (mock_success_response self tool) \/
   fst (call self tool rate seed) = Py.Ok (internal_error tool)) /\
  ((1 <= effective_rate self rate)%Q ->
   fst (call self tool rate seed) = Py.Ok (internal_error tool)).
Proof.
  intros Htool.
  assert ((error_code <- select_error_code self tool
                           (Py.get seed (default_seed (config self))) ;;
           mock_error_response self tool error_code)
          = Py.Ok (internal_error tool)) as Hfail.
  { unfold select_error_code, mock_error_response. now rewrite Htool. }
  split.
  - destruct (call_response self tool rate seed) as [H | H];
      [now left | right; congruence].
  - intros Hrate. unfold call, effective_rate in *.
    rewrite (should_inject_always self _ _ Hrate). cbn [negb fst].
    exact Hfail.
Qed.

(** The theorem for the operation of the agent without error codes. *)
Lemma call_without_declared_codes_witness :
  (fst (call quiet_agent "getInventory" (Some 1%Q) (Some 42))
   = Py.Ok (mock_success_response quiet_agent "getInventory") \/
   fst (call quiet_agent "getInventory" (Some 1%Q) (Some 42))
   = Py.Ok (internal_error "getInventory")) /\
  ((1 <= effective_rate quiet_agent (Some 1%Q))%Q ->
   fst (call quiet_agent "getInventory" (Some 1%Q) (Some 42))
   = Py.Ok (internal_error "getInventory")).
Proof.
  apply (call_without_declared_codes quiet_agent "getInventory"
                                     (Some 1%Q) (Some 42)).
  reflexivity.
Defined.

(** X5: on an operation the specification does not have, [call] never
    raises: it answers the mocked 200 success when it does not inject, and
    when it injects, the 404 "Unknown operation" response with
    [chaos_injected] false. *)
Theorem call_on_unknown_operation (self : ChaosAgent) (tool : string)
        (rate : option Q) (seed : option Z) :
  Py.lookup tool (chaos_strategies self) = None ->
  (fst (call self tool rate seed) = Py.Ok (mock_success_response self tool) \/
   fst (call self tool rate seed) = Py.Ok (unknown_operation tool)) /\
  ((effective_rate self rate <= 0)%Q ->
   fst (call self tool rate seed) = Py.Ok (mock_success_response self tool)) /\
  ((1 <= effective_rate self rate)%Q ->
   fst (call self tool rate seed) = Py.Ok (unknown_operation tool)).
Proof.
  intros Htool.
  assert ((error_code <- select_error_code self tool
                           (Py.get seed (default_seed (config self))) ;;
           mock_error_response self tool error_code)
          = Py.Ok (unknown_operation tool)) as Hfail.
  { unfold select_error_code, mock_error_response. now rewrite Htool. }
  split; [| split].
  - destruct (call_response self tool rate seed) as [H | H];
      [now left | right; congruence].
  - intros Hrate. unfold call, effective_rate in *.
    now rewrite (should_inject_never self _ _ Hrate).
  - intros Hrate. unfold call, effective_rate in *.
    rewrite (should_inject_always self _ _ Hrate). cbn [negb fst].
    exact Hfail.
Qed.

(** The theorem for an operation the petstore agent does not have. *)
Lemma call_on_unknown_operation_witness :
  (fst (call (petstore_agent None) "deletePet" None (Some 42))
   = Py.Ok (mock_success_response (petstore_agent None) "deletePet") \/
   fst (call (petstore_agent None) "deletePet" None (Some 42))
   = Py.Ok (unknown_operation "deletePet")) /\
  ((effective_rate (petstore_agent None) None <= 0)%Q ->
   fst (call (petstore_agent None) "deletePet" None (Some 42))
   = Py.Ok (mock_success_response (petstore_agent None) "deletePet")) /\
  ((1 <= effective_rate (petstore_agent None) None)%Q ->
   fst (call (petstore_agent None) "deletePet" None (Some 42))
   = Py.Ok (unknown_operation "deletePet")).
Proof.
  apply (call_on_unknown_operation (petstore_agent None) "deletePet"
                                   None (Some 42)).
  reflexivity.
Defined.

(** X6: a run of calls whose rates are all at or below 0 (the configured
    default standing in for a missing rate) answers nothing but the mocked
    success, one whose rates are all at or above 1 answers nothing but the
    injected failure of the seed; neither changes the agent. *)
Theorem calls_at_the_boundaries (rates : list (option Q)) (self : ChaosAgent)
        (tool : string) (seed : option Z) :
  ((forall r, In r rates -> (effective_rate self r <= 0)%Q) ->
   agent_after rates self tool seed = self /\
   forall response, In response (call_sequence rates self tool seed) ->
     response = Py.Ok (mock_success_response self tool)) /\
  ((forall r, In r rates -> (1 <= effective_rate self r)%Q) ->
   agent_after rates self tool seed = self /\
   forall response, In response (call_sequence rates self tool seed) ->
     response = injected_failure self tool
                  (Py.get seed (default_seed (config self)))).
Proof.
  split; intros Hrates.
  - induction rates as [| rate rates IH]; [split; [reflexivity | intros ? []] |].
    cbn [agent_after call_sequence].
    assert (call self tool rate seed
            = (Py.Ok (mock_success_response self tool), self)) as Hcall.
    { unfold call. pose proof (Hrates rate (or_introl eq_refl)) as Hr.
      unfold effective_rate in Hr.
      now rewrite (should_inject_never self _ _ Hr). }
    rewrite Hcall. cbn [snd].
    destruct IH as [IHa IHr]; [intros r Hr; apply Hrates; now right |].
    split; [exact IHa |].
    intros response [<- | Hin]; [reflexivity | now apply IHr].
  - induction rates as [| rate rates IH]; [split; [reflexivity | intros ? []] |].
    cbn [agent_after call_sequence].
    assert (call self tool rate seed
            = (injected_failure self tool
                 (Py.get seed (default_seed (config self))), self)) as Hcall.
    { unfold call. pose proof (Hrates rate (or_introl eq_refl)) as Hr.
      unfold effective_rate in Hr.
      now rewrite (should_inject_always self _ _ Hr). }
    rewrite Hcall. cbn [snd].
    destruct IH as [IHa IHr]; [intros r Hr; apply Hrates; now right |].
    split; [exact IHa |].
    intros response [<- | Hin]; [reflexivity | now apply IHr].
Qed.

End ChaosCalls.

(** ** The suite runner of [test_agent.py] *)

Section RunTests.

Import ChaosAgentUniversal ChaosAgentRuns TestAgentPy.

(** One call, seen from an agent with the same tables. *)
Lemma call_is_response_at (self other : ChaosAgent) (op : string)
      (rate : Q) (seed : Z) :
  same_tables self other ->
  fst (call other op (Some rate) (Some seed))
  = response_at self op rate seed (Py.get (_call_counter other) 0).
Proof.
  intros Hsame. unfold call, response_at, _should_inject_chaos, variate.
  cbn [Py.get].
  rewrite (mock_success_same_tables self other op Hsame).
  rewrite (injected_failure_same_tables self other op seed Hsame).
  destruct (Qle_bool rate 0); [reflexivity |].
  destruct (Qle_bool 1 rate); [reflexivity |].
  destruct (PyChoices.Qltb _ rate); reflexivity.
Qed.

Lemma call_same_tables (self other : ChaosAgent) (op : string)
      (rate : option Q) (seed : option Z) :
  same_tables self other -> same_tables self (snd (call other op rate seed)).
Proof.
  intros [Hc Hs].
  destruct (call_outcome other op rate seed) as [[Hc' Hs'] _].
  split; congruence.
Qed.

(** The loop against its closed form. *)
Lemma run_tests_from_closed (rate : Q) (seed_offset : Z) (self : ChaosAgent)
      (cases : list TestCase) :
  Forall well_formed cases ->
  forall idx other counter,
    same_tables self other ->
    (draws rate = true -> counter = Py.get (_call_counter other) 0) ->
    fst (run_tests_from idx cases other rate seed_offset)
    = Py.Ok (outcomes_from idx counter cases self rate seed_offset) /\
    same_tables self (snd (run_tests_from idx cases other rate seed_offset)) /\
    _call_counter (snd (run_tests_from idx cases other rate seed_offset))
    = (if draws rate
       then match cases with
            | [] => _call_counter other
            | _ => Some (counter + Z.of_nat (List.length cases))
            end
       else _call_counter other).
Proof.
  induction 1 as [| test cases [Hop Hargs] _ IH];
    intros idx other counter Hsame Hcounter.
  { cbn. split; [reflexivity |].
    split; [exact Hsame | now destruct (draws rate)]. }
  cbn [run_tests_from outcomes_from].
  destruct (case_operation test) as [op |]; [| congruence].
  destruct (case_params test) as [args |]; [| congruence].
  cbn [Py.subscript Py.get].
  pose proof (call_is_response_at self other op rate (seed_offset + idx) Hsame)
    as Hcall.
  pose proof (call_same_tables self other op (Some rate)
                (Some (seed_offset + idx)) Hsame) as Hnext.
  pose proof (call_counter other op (Some rate) (Some (seed_offset + idx)))
    as Hctr.
  unfold effective_rate in Hctr. cbn [Py.get] in Hctr.
  destruct (call other op (Some rate) (Some (seed_offset + idx)))
    as [called other'].
  cbn [fst snd] in Hcall, Hnext, Hctr.
  destruct (IH (idx + 1) other' (counter + 1) Hnext) as (Hres & Htab & Hc).
  { intros Hd. rewrite Hd in Hctr. rewrite Hctr. cbn [Py.get].
    now rewrite (Hcounter Hd). }
  destruct (run_tests_from (idx + 1) cases other' rate seed_offset)
    as [results other''].
  cbn [fst snd] in *. subst results.
  split; [| split; [exact Htab |]].
  - f_equal. f_equal. rewrite Hcall.
    destruct (draws rate) eqn:Hd; [now rewrite (Hcounter eq_refl) |].
    unfold response_at. unfold draws in Hd.
    destruct (Qle_bool rate 0); [reflexivity |].
    destruct (Qle_bool 1 rate); [reflexivity | discriminate].
  - rewrite Hc. destruct (draws rate) eqn:Hd; [| exact Hctr].
    destruct cases as [| test' cases].
    + rewrite Hctr, (Hcounter eq_refl). reflexivity.
    + f_equal. cbn [List.length]. lia.
Qed.





Lemma agent_eq (a b : ChaosAgent) :
  same_tables a b -> _call_counter a = _call_counter b -> a = b.
Proof.
  destruct a, b. intros [Hc Hs] Hctr. cbn in *. congruence.
Qed.

Lemma outcomes_without_chaos (rate : Q) (seed_offset : Z) (self : ChaosAgent)
      (cases : list TestCase) :
  (rate <= 0)%Q ->
  forall idx counter,
    List.length (outcomes_from idx counter cases self rate seed_offset)
    = List.length cases /\
    Forall (fun outcome =>
              status_code outcome = Some 200 /\
              chaos_injected outcome = false /\
              error outcome = NoError /\
              ok outcome = expected_success outcome)
           (outcomes_from idx counter cases self rate seed_offset).
Proof.
  intros Hrate. apply Qle_bool_iff in Hrate.
  induction cases as [| test cases IH]; intros idx counter;
    cbn [outcomes_from List.length]; [split; [reflexivity | constructor] |].
  destruct (IH (idx + 1) (counter + 1)) as [Hlen Hall].
  split; [now rewrite Hlen |]. constructor; [| exact Hall].
  unfold response_at, judged, mock_success_response. rewrite Hrate.
  destruct (negb (mock_success_enabled (config self))); cbn;
    repeat split; now destruct (Py.get (case_expected_success test) true).
Qed.

(** X8: at a failure rate of 0 or below no chaos is injected into a
    suite: every result has status 200, [chaos_injected] false and no
    error, its [ok] is the test's expectation, and the agent is left as it
    was. *)
Theorem run_tests_without_chaos (chaos_agent : ChaosAgent)
        (test_suite : TestSuite) (cases : list TestCase)
        (failure_rate : Q) (seed_offset : Z) :
  tests test_suite = Some cases ->
  Forall well_formed cases ->
  (failure_rate <= 0)%Q ->
  snd (run_tests chaos_agent test_suite failure_rate seed_offset) = chaos_agent /\
  exists outcomes,
    fst (run_tests chaos_agent test_suite failure_rate seed_offset)
    = Py.Ok outcomes /\
    List.length outcomes = List.length cases /\
    Forall (fun outcome =>
              status_code outcome = Some 200 /\
              chaos_injected outcome = false /\
              error outcome = NoError /\
              ok outcome = expected_success outcome) outcomes.
Proof.
  intros Hsuite Hcases Hrate. unfold run_tests. rewrite Hsuite.
  cbn [Py.subscript].
  assert (draws failure_rate = false) as Hd.
  { unfold draws. apply Qle_bool_iff in Hrate. now rewrite Hrate. }
  destruct (run_tests_from_closed failure_rate seed_offset chaos_agent cases
              Hcases 0 chaos_agent 0) as (Hres & Htab & Hctr);
    [now split | congruence |].
  rewrite Hd in Hctr. split.
  { symmetry. now apply agent_eq. }
  eexists. split; [exact Hres |].
  now apply outcomes_without_chaos.
Qed.

(** The theorem for the petstore suite at rate 0. *)
Lemma run_tests_without_chaos_witness :
  snd (run_tests (petstore_agent None) petstore_suite 0 7) = petstore_agent None /\
  exists outcomes,
    fst (run_tests (petstore_agent None) petstore_suite 0 7) = Py.Ok outcomes /\
    List.length outcomes = List.length (Py.get (tests petstore_suite) []) /\
    Forall (fun outcome =>
              status_code outcome = Some 200 /\
              chaos_injected outcome = false /\
              error outcome = NoError /\
              ok outcome = expected_success outcome) outcomes.
Proof.
  apply (run_tests_without_chaos (petstore_agent None) petstore_suite
           (Py.get (tests petstore_suite) []) 0 7).
  - reflexivity.
  - repeat constructor; discriminate.
  - discriminate.
Defined.


Lemma outcomes_from_nth (rate : Q) (seed_offset : Z) (self : ChaosAgent)
      (cases : list TestCase) :
  forall idx counter i test,
    nth_error cases i = Some test ->
    nth_error (outcomes_from idx counter cases self rate seed_offset) i
    = Some (judged (Py.get (case_test_id test)
                           ("test_" ++ zero_padded4 (idx + Z.of_nat i + 1))%string)
                   (Py.get (case_operation test) EmptyString)
                   (Py.get (case_params test) Json.Null) test
                   (response_at self (Py.get (case_operation test) EmptyString)
                                rate (seed_offset + (idx + Z.of_nat i))
                                (counter + Z.of_nat i))).
Proof.
  induction cases as [| test0 cases IH]; intros idx counter i test Hnth;
    [destruct i; discriminate |].
  destruct i as [| i]; cbn [nth_error outcomes_from] in *.
  - injection Hnth as ->. cbn [Z.of_nat]. now rewrite !Z.add_0_r.
  - rewrite (IH (idx + 1) (counter + 1) i test Hnth).
    replace (idx + 1 + Z.of_nat i) with (idx + Z.of_nat (S i)) by lia.
    replace (counter + 1 + Z.of_nat i) with (counter + Z.of_nat (S i)) by lia.
    reflexivity.
Qed.

(** X9: at a rate strictly between 0 and 1 the suite draws once per
    test.  With the agent's counter at [c] before the suite, the test at
    index [i] is injected exactly when
    [random.Random(seed_offset + i + c + i + 1).random()] is below the
    rate, its failure being the one [select_error_code] fixes for seed
    [seed_offset + i]; the suite leaves the counter at [c] plus the number
    of tests. *)
Theorem run_tests_draw_schedule (chaos_agent : ChaosAgent)
        (test_suite : TestSuite) (cases : list TestCase)
        (failure_rate : Q) (seed_offset : Z) :
  tests test_suite = Some cases ->
  Forall well_formed cases ->
  (0 < failure_rate < 1)%Q ->
  let c := Py.get (_call_counter chaos_agent) 0 in
  exists outcomes,
    fst (run_tests chaos_agent test_suite failure_rate seed_offset)
    = Py.Ok outcomes /\
    (forall i test,
        nth_error cases i = Some test ->
        let op := Py.get (case_operation test) EmptyString in
        let seed := seed_offset + Z.of_nat i in
        nth_error outcomes i
        = Some (judged (Py.get (case_test_id test)
                               ("test_" ++ zero_padded4 (Z.of_nat i + 1))%string)
                       op (Py.get (case_params test) Json.Null) test
                       (if PyChoices.Qltb (variate seed (c + Z.of_nat i + 1))
                                          failure_rate
                        then injected_failure chaos_agent op seed
                        else Py.Ok (mock_success_response chaos_agent op)))) /\
    (cases <> [] ->
     _call_counter (snd (run_tests chaos_agent test_suite failure_rate seed_offset))
     = Some (c + Z.of_nat (List.length cases))).
Proof.
  intros Hsuite Hcases Hrate c. unfold run_tests. rewrite Hsuite.
  cbn [Py.subscript].
  destruct (run_tests_from_closed failure_rate seed_offset chaos_agent cases
              Hcases 0 chaos_agent c) as (Hres & _ & Hctr);
    [now split | reflexivity |].
  apply draws_iff in Hrate as Hd. rewrite Hd in Hctr.
  eexists. split; [exact Hres |]. split.
  - intros i test Hnth. cbn zeta.
    rewrite (outcomes_from_nth failure_rate seed_offset chaos_agent cases
               0 c i test Hnth).
    cbn [Z.add]. unfold response_at.
    destruct Hrate as [Hlo Hhi].
    assert (Qle_bool failure_rate 0 = false) as ->.
    { destruct (Qle_bool failure_rate 0) eqn:E; [| reflexivity].
      apply Qle_bool_iff in E. exfalso. exact (Qle_not_lt _ _ E Hlo). }
    assert (Qle_bool 1 failure_rate = false) as ->.
    { destruct (Qle_bool 1 failure_rate) eqn:E; [| reflexivity].
      apply Qle_bool_iff in E. exfalso. exact (Qle_not_lt _ _ E Hhi). }
    reflexivity.
  - intros Hne. rewrite Hctr. destruct cases; [congruence | reflexivity].
Qed.

(** The theorem for the petstore suite at rate 0.3. *)
Lemma run_tests_draw_schedule_witness :
  let c := Py.get (_call_counter (petstore_agent None)) 0 in
  exists outcomes,
    fst (run_tests (petstore_agent None) petstore_suite (3 # 10) 0)
    = Py.Ok outcomes /\
    (forall i test,
        nth_error (Py.get (tests petstore_suite) []) i = Some test ->
        let op := Py.get (case_operation test) EmptyString in
        let seed := 0 + Z.of_nat i in
        nth_error outcomes i
        = Some (judged (Py.get (case_test_id test)
                               ("test_" ++ zero_padded4 (Z.of_nat i + 1))%string)
                       op (Py.get (case_params test) Json.Null) test
                       (if PyChoices.Qltb (variate seed (c + Z.of_nat i + 1))
                                          (3 # 10)
                        then injected_failure (petstore_agent None) op seed
                        else Py.Ok (mock_success_response (petstore_agent None) op)))) /\
    (Py.get (tests petstore_suite) [] <> [] ->
     _call_counter (snd (run_tests (petstore_agent None) petstore_suite (3 # 10) 0))
     = Some (c + Z.of_nat (List.length (Py.get (tests petstore_suite) [])))).
Proof.
  apply (run_tests_draw_schedule (petstore_agent None) petstore_suite
           (Py.get (tests petstore_suite) []) (3 # 10) 0).
  - reflexivity.
  - repeat constructor; discriminate.
  - split; reflexivity.
Defined.

Lemma run_tests_from_aborts (rate : Q) (seed_offset : Z)
      (test : TestCase) (after : list TestCase) (key : string) :
  (case_operation test = None /\ key = "operation"%string) \/
  (case_operation test <> None /\ case_params test = None /\
   key = "params"%string) ->
  forall before, Forall well_formed before ->
    forall idx other,
      fst (run_tests_from idx (before ++ test :: after) other rate seed_offset)
      = Py.Raise (Py.KeyError key).
Proof.
  intros Hbad before Hbefore.
  induction Hbefore as [| test0 before [Hop Hargs] _ IH]; intros idx other.
  - cbn [app run_tests_from].
    destruct Hbad as [[-> ->] | (Hop & -> & ->)]; [reflexivity |].
    destruct (case_operation test); [reflexivity | congruence].
  - cbn [app run_tests_from].
    destruct (case_operation test0) as [op |]; [| congruence].
    destruct (case_params test0) as [args |]; [| congruence].
    cbn [Py.subscript].
    destruct (call other op (Some rate) (Some (seed_offset + idx)))
      as [called other'].
    specialize (IH (idx + 1) other').
    destruct (run_tests_from (idx + 1) (before ++ test :: after) other' rate
                             seed_offset) as [results other''].
    cbn [fst] in *. now rewrite IH.
Qed.

(** X10: a test without [operation], or with it but without [params],
    aborts the suite: [run_tests] raises [KeyError] for the missing key
    of the first such test and returns no result, not even for the tests
    that ran before it. *)
Theorem run_tests_aborts_on_malformed_test (chaos_agent : ChaosAgent)
        (test_suite : TestSuite) (before after : list TestCase)
        (test : TestCase) (failure_rate : Q) (seed_offset : Z) :
  tests test_suite = Some (before ++ test :: after) ->
  Forall well_formed before ->
  (case_operation test = None ->
   fst (run_tests chaos_agent test_suite failure_rate seed_offset)
   = Py.Raise (Py.KeyError "operation")) /\
  (case_operation test <> None -> case_params test = None ->
   fst (run_tests chaos_agent test_suite failure_rate seed_offset)
   = Py.Raise (Py.KeyError "params")).
Proof.
  intros Hsuite Hbefore. unfold run_tests. rewrite Hsuite.
  cbn [Py.subscript]. split.
  - intros Hop. apply run_tests_from_aborts; [left; now split | exact Hbefore].
  - intros Hop Hargs.
    apply run_tests_from_aborts; [right; now repeat split | exact Hbefore].
Qed.

(** The theorem for the suite whose second test has no [operation]. *)
Lemma run_tests_aborts_on_malformed_test_witness :
  (case_operation (mkTestCase (Some "broken"%string) None
                              (Some (Json.Obj [])) None) = None ->
   fst (run_tests (petstore_agent None) malformed_suite (3 # 10) 0)
   = Py.Raise (Py.KeyError "operation")) /\
  (case_operation (mkTestCase (Some "broken"%string) None
                              (Some (Json.Obj [])) None) <> None ->
   case_params (mkTestCase (Some "broken"%string) None
                           (Some (Json.Obj [])) None) = None ->
   fst (run_tests (petstore_agent None) malformed_suite (3 # 10) 0)
   = Py.Raise (Py.KeyError "params")).
Proof.
  apply (run_tests_aborts_on_malformed_test (petstore_agent None) malformed_suite
           [mkTestCase (Some "find"%string) (Some "getPetById"%string)
                       (Some (Json.Obj [])) None]
           [mkTestCase None (Some "getPetById"%string) (Some (Json.Obj [])) None]).
  - reflexivity.
  - repeat constructor; discriminate.
Defined.

End RunTests.

(** ** The v3 retry loop: what one test costs *)

(** One step through the code of the loop: unfold the tool at hand. *)
Ltac resolve_decision H :=
  match type of H with
  | context [V3.decide_retry_tool ?e ?a ?m ?sa ?reply] =>
      let d := fresh "d" in
      let Hd := fresh "Hd" in
      let Hact := fresh "Hact" in
      destruct (decide_retry_tool_returns e a m sa reply) as (d & Hd & Hact);
      rewrite Hd in H
  end.

Section V3Accounting.

Import Adk V3Suite.

Variables (env : Env) (playbook : Playbook) (tid op : string).

Lemma v3_loop_accounting (fuel : nat) :
  forall (attempt : Z) (st : State) out r,
    0 <= attempt -> attempt < 3 ->
    V3.retry_loop fuel env playbook tid op attempt st = Some out ->
    fst out = Py.Ok r ->
    let n := attempts r - attempt in
    let failures := if ok r then n - 1 else n in
    let m := metrics st in
    let m' := metrics (snd out) in
    1 <= n /\
    total_attempts m' = total_attempts m + n /\
    llm_calls m' = llm_calls m + failures /\
    tests_with_llm_reasoning m' = tests_with_llm_reasoning m + failures /\
    tool_calls m' = tool_calls m + 2 * n + failures - 1 /\
    total_tests m' = total_tests m /\
    passed m' = passed m /\ failed m' = failed m /\
    operations_called (snd out) = (operations_called st + Z.to_nat n)%nat /\
    reasoner_asked (snd out) = (reasoner_asked st + Z.to_nat failures)%nat /\
    slept (snd out) = slept st ++ backoffs attempt (Z.to_nat (n - 1)) /\
    final_status r
    = Some (Py.get (status_code
                      (chaos_agent_func env (pred (operations_called (snd out)))))
                   500) /\
    (ok r = true <-> final_status r = Some 200) /\
    (ok r = false ->
     result_error r
     = error (chaos_agent_func env (pred (operations_called (snd out))))).
Proof.
  induction fuel as [| fuel IH]; intros attempt st out r Hlo Hhi Hrun Hr;
    [discriminate |].
  cbn [V3.retry_loop] in Hrun.
  assert ((attempt <? V3.max_retries) = true) as Hlt
      by (apply Z.ltb_lt; unfold V3.max_retries; lia).
  rewrite Hlt in Hrun.
  unfold _tool_call_operation, _tool_check_playbook, V3._tool_decide_retry,
    _tool_apply_backoff in Hrun.
  cbn [fst snd operations_called reasoner_asked metrics count_attempt
       count_tool_call count_llm_call with_metrics strategy_action] in Hrun.
  set (result := chaos_agent_func env (operations_called st)) in *.
  destruct (Py.get (status_code result) 500 =? 200) eqn:Hstatus.
  { injection Hrun as <-. cbn [fst snd] in *. injection Hr as <-.
    apply Z.eqb_eq in Hstatus. cbn.
    replace (attempt + 1 - attempt) with 1 by lia. cbn.
    rewrite app_nil_r. fold result. rewrite Hstatus.
    repeat split; try lia; try reflexivity; discriminate. }
  destruct (find_strategy _ _ _) as [strategy | e]; [| now injection Hrun as <-].
  resolve_decision Hrun.
  destruct (negb (String.eqb (action d) "retry") || (V3.max_retries <=? attempt + 1))
    eqn:Hstop.
  { injection Hrun as <-. cbn [fst snd] in *. injection Hr as <-.
    apply Z.eqb_neq in Hstatus. cbn.
    replace (attempt + 1 - attempt) with 1 by lia. cbn.
    rewrite app_nil_r. fold result.
    repeat split; try lia; try reflexivity; try discriminate.
    intros [= H200]. contradiction. }
  apply orb_false_iff in Hstop. destruct Hstop as [_ Hmore].
  apply Z.leb_gt in Hmore. unfold V3.max_retries in Hmore.
  assert ((1024 <=? attempt + 1 - 1) = false) as Hfits
      by (apply Z.leb_gt; lia).
  rewrite Hfits in Hrun.
  specialize (IH (attempt + 1) _ out r ltac:(lia) ltac:(lia) Hrun Hr).
  cbn zeta in IH.
  destruct IH as (H1 & H2 & H3 & H4 & H5 & H6 & H7 & H8 & H9 & H10 & H11
                  & H12 & H13 & H14).
  cbn [metrics total_attempts llm_calls tests_with_llm_reasoning tool_calls
       total_tests passed failed operations_called reasoner_asked slept sleep
       record_decision count_tool_call with_metrics] in H2, H3, H4, H5, H6, H7,
    H8, H9, H10, H11.
  cbn zeta.
  replace (Z.to_nat (attempts r - attempt - 1))
    with (S (Z.to_nat (attempts r - (attempt + 1) - 1))) by lia.
  cbn [backoffs]. rewrite H11, <- app_assoc. cbn [app].
  destruct (ok r); repeat split; trivial; try lia.
  all: try (destruct H13 as [Ha Hb]; auto).
Qed.


End V3Accounting.

Section V3Results.

Import Adk V3Suite.

(** X11: what one v3 test adds to the metrics.  A test whose operation
    answers every call ends, by returning a result or by raising.  For a
    result, with [attempts] its attempts and
    [failures] the failed ones among them (all of them, or all but the
    last when the test passed): [total_attempts]
    grows by [attempts]; [llm_calls] and [tests_with_llm_reasoning] both
    grow by [failures], the latter counting reasoner calls rather than
    tests; [tool_calls] grows by [2 * attempts + failures - 1];
    [total_tests], [passed] and [failed] are not touched. *)
Theorem single_test_metrics (env : Env) (playbook : Playbook) (tid op : string)
        (st : State) :
  exists out,
    V3._run_single_test env playbook tid op st = Some out /\
    forall r, fst out = Py.Ok r ->
      let failures := if ok r then attempts r - 1 else attempts r in
      let m := metrics st in
      let m' := metrics (snd out) in
      total_attempts m' = total_attempts m + attempts r /\
      llm_calls m' = llm_calls m + failures /\
      tests_with_llm_reasoning m' = tests_with_llm_reasoning m + failures /\
      tool_calls m' = tool_calls m + 2 * attempts r + failures - 1 /\
      total_tests m' = total_tests m /\
      passed m' = passed m /\ failed m' = failed m.
Proof.
  destruct (v3_loop_terminates env playbook tid op 4 0 st) as [out Hrun];
    [cbn; lia |].
  exists out. split; [exact Hrun |]. intros r Hr.
  destruct (v3_loop_accounting env playbook tid op 4 0 st out r)
    as (_ & H2 & H3 & H4 & H5 & H6 & H7 & H8 & _); trivial; try lia.
  rewrite Z.sub_0_r in *. cbn zeta. now repeat split.
Qed.

(** X12: the backoff of a v3 test.  A test that ends at attempt [n]
    has slept [n - 1] times, first 0.5 seconds and then 1 second, so never
    more than 1.5 seconds in all. *)
Theorem single_test_sleeps (env : Env) (playbook : Playbook) (tid op : string)
        (st : State) :
  exists out,
    V3._run_single_test env playbook tid op st = Some out /\
    forall r, fst out = Py.Ok r ->
      slept (snd out)
      = slept st ++ firstn (Z.to_nat (attempts r - 1))
                           [backoff_delay 1 default_base_delay;
                            backoff_delay 2 default_base_delay] /\
      (backoff_delay 1 default_base_delay == 1 # 2)%Q /\
      (backoff_delay 2 default_base_delay == 1)%Q.
Proof.
  destruct (v3_loop_terminates env playbook tid op 4 0 st) as [out Hrun];
    [cbn; lia |].
  exists out. split; [exact Hrun |]. intros r Hr.
  destruct (v3_loop env playbook tid op 4 0 st out) as (new & _ & _ & Hres);
    trivial; try lia.
  destruct (Hres r Hr) as (Hlo & Hhi & _).
  destruct (v3_loop_accounting env playbook tid op 4 0 st out r)
    as (_ & _ & _ & _ & _ & _ & _ & _ & _ & _ & Hslept & _); trivial; try lia.
  rewrite Z.sub_0_r in Hslept. rewrite Hslept.
  split; [| split; reflexivity].
  f_equal.
  assert (attempts r = 1 \/ attempts r = 2 \/ attempts r = 3) as [-> | [-> | ->]]
      by lia; reflexivity.
Qed.

(** X13: the verdict of a v3 test.  [attempts] is the number of
    invocations of the operation; [final_status] is the status of the
    last one (500 when its answer has no status), the test has passed
    exactly when that status is 200, so any other status, 201 or 204
    included, is a failure; a failed result carries the last answer's
    [error]. *)
Theorem single_test_verdict (env : Env) (playbook : Playbook) (tid op : string)
        (st : State) :
  exists out,
    V3._run_single_test env playbook tid op st = Some out /\
    forall r, fst out = Py.Ok r ->
      let last := chaos_agent_func env (pred (operations_called (snd out))) in
      operations_called (snd out)
      = (operations_called st + Z.to_nat (attempts r))%nat /\
      final_status r = Some (Py.get (status_code last) 500) /\
      (ok r = true <-> Py.get (status_code last) 500 = 200) /\
      (ok r = false -> result_error r = error last).
Proof.
  destruct (v3_loop_terminates env playbook tid op 4 0 st) as [out Hrun];
    [cbn; lia |].
  exists out. split; [exact Hrun |]. intros r Hr.
  destruct (v3_loop_accounting env playbook tid op 4 0 st out r)
    as (_ & _ & _ & _ & _ & _ & _ & _ & Hops & _ & _ & Hfinal & Hok & Herr);
    trivial; try lia.
  rewrite Z.sub_0_r in Hops. cbn zeta.
  split; [exact Hops |]. split; [exact Hfinal |].
  split; [| exact Herr].
  rewrite Hfinal in Hok. rewrite Hok. split; congruence.
Qed.

End V3Results.

(** ** The v3 retry loop when the reasoner is out of service *)

Section V3ReasonerDown.

Import Adk V3Suite.

Variables (env : Env) (playbook : Playbook) (tid op : string) (status : Z).

Hypothesis reasoner_down : forall n, Json.unusable (reasoner env n) = true.
Hypothesis always_answers :
  forall n, Py.get (status_code (chaos_agent_func env n)) 500 = status.
Hypothesis never_200 : status <> 200.
Hypothesis playbook_complete :
  forall p, In p (Py.get (procedures playbook) []) -> recovery_strategy p <> None.

Lemma find_strategy_returns (code : Z) (key : string) :
  exists strategy,
    find_strategy code key (Py.get (procedures playbook) []) = Py.Ok strategy.
Proof.
  induction (Py.get (procedures playbook) []) as [| p procs IH]; cbn;
    [eauto |].
  destruct (Py.contains key (Py.get (error_codes p) [])).
  - destruct (recovery_strategy p) eqn:E; cbn; [eauto |].
    now destruct (playbook_complete p (or_introl eq_refl)).
  - apply IH. intros q Hq. apply playbook_complete. now right.
Qed.

Lemma decide_when_down (code attempt m : Z) (sa : string) (n : nat) :
  V3.decide_retry_tool code attempt m sa (reasoner env n)
  = Py.Ok (fallback_decision code attempt m "Fallback heuristic").
Proof.
  unfold V3.decide_retry_tool.
  destruct (v3_unusable_reply_raises (reasoner env n) (reasoner_down n))
    as [e He].
  now rewrite He.
Qed.

Lemma v3_down_loop (fuel : nat) :
  forall (attempt : Z) (st : State) out,
    0 <= attempt -> attempt < 3 ->
    V3.retry_loop fuel env playbook tid op attempt st = Some out ->
    exists r new,
      fst out = Py.Ok r /\
      ok r = false /\
      attempts r = (if (status =? 400) || (status =? 422)
                    then attempt + 1 else 3) /\
      result_reason r = Some "fail"%string /\
      decisions_made (snd out) = decisions_made st ++ new /\
      Forall (fun d => llm_called d = false) new /\
      Z.of_nat (List.length new) = attempts r - attempt.
Proof.
  induction fuel as [| fuel IH]; intros attempt st out Hlo Hhi Hrun;
    [discriminate |].
  cbn [V3.retry_loop] in Hrun.
  assert ((attempt <? V3.max_retries) = true) as Hlt
      by (apply Z.ltb_lt; unfold V3.max_retries; lia).
  rewrite Hlt in Hrun.
  unfold _tool_call_operation, _tool_check_playbook, V3._tool_decide_retry,
    _tool_apply_backoff in Hrun.
  cbn [fst snd operations_called reasoner_asked metrics count_attempt
       count_tool_call count_llm_call with_metrics strategy_action] in Hrun.
  rewrite always_answers in Hrun.
  assert ((status =? 200) = false) as H200 by now apply Z.eqb_neq.
  rewrite H200 in Hrun.
  destruct (find_strategy_returns status (Py.str status)) as [strategy Hfind].
  rewrite Hfind, decide_when_down in Hrun.
  unfold V3.max_retries in Hrun.
  remember (fallback_decision status (attempt + 1) 3 "Fallback heuristic")
    as d eqn:Hd.
  assert (llm_called d = false) as Hllm by now subst d.
  assert (action d
          = if heuristic_should_retry status (attempt + 1) 3
            then "retry"%string else "fail"%string) as Hact by now subst d.
  unfold heuristic_should_retry in Hact. clear Hd.
  cbn beta iota zeta in Hrun.
  destruct ((status =? 400) || (status =? 422)) eqn:Hclient.
  { assert (negb (status =? 400) && negb (status =? 422) = false) as Hno.
    { apply orb_true_iff in Hclient. destruct Hclient as [-> | ->];
        [reflexivity | apply andb_false_r]. }
    rewrite Hno in Hact. cbn [andb] in Hact.
    rewrite Hact in Hrun. cbn [String.eqb Ascii.eqb Bool.eqb negb orb] in Hrun.
    injection Hrun as <-.
    eexists. exists [d]. split; [reflexivity |].
    cbn. repeat split; try lia; trivial.
    repeat constructor. exact Hllm. }
  apply orb_false_iff in Hclient. destruct Hclient as [H400 H422].
  rewrite H400, H422 in Hact. cbn [negb andb] in Hact.
  destruct (attempt + 1 <? 3) eqn:Hnext; rewrite Hact in Hrun;
    cbn [String.eqb Ascii.eqb Bool.eqb negb orb] in Hrun.
  - apply Z.ltb_lt in Hnext.
    assert ((3 <=? attempt + 1) = false) as Hmore by (apply Z.leb_gt; lia).
    assert ((1024 <=? attempt + 1 - 1) = false) as Hfits by (apply Z.leb_gt; lia).
    rewrite Hmore, Hfits in Hrun.
    apply IH in Hrun; try lia.
    destruct Hrun as (r & new & Hr & Hok & Hatt & Hreason & Hnew & Hall & Hlen).
    cbn [decisions_made sleep record_decision count_tool_call with_metrics]
      in Hnew.
    exists r, (d :: new).
    repeat split; trivial.
    + now rewrite Hnew, <- app_assoc.
    + constructor; [exact Hllm | exact Hall].
    + cbn [List.length]. lia.
  - apply Z.ltb_ge in Hnext. injection Hrun as <-.
    eexists. exists [d]. split; [reflexivity |].
    cbn. repeat split; try lia; trivial.
    repeat constructor. exact Hllm.
Qed.


(** X14: a v3 test whose reasoner is out of service and whose operation
    always answers the same status other than 200.  Every decision is the
    heuristic's ([llm_called] false), and the playbook's recommendation
    plays no part: a 400 or a 422 is given up at the first attempt, any
    other status is retried up to the third attempt; the test fails with
    reason "fail". *)
Theorem reasoner_down_outcome (st : State) :
  exists r st' new,
    V3._run_single_test env playbook tid op st = Some (Py.Ok r, st') /\
    ok r = false /\
    attempts r = (if (status =? 400) || (status =? 422) then 1 else 3) /\
    result_reason r = Some "fail"%string /\
    decisions_made st' = decisions_made st ++ new /\
    Forall (fun d => llm_called d = false) new /\
    Z.of_nat (List.length new) = attempts r.
Proof.
  destruct (v3_loop_terminates env playbook tid op 4 0 st) as [[res st'] Hrun];
    [cbn; lia |].
  destruct (v3_down_loop 4 0 st (res, st')) as
      (r & new & Hr & Hok & Hatt & Hreason & Hnew & Hall & Hlen);
    trivial; try lia.
  cbn [fst snd] in *. subst res.
  exists r, st', new. rewrite Z.sub_0_r in Hlen. now repeat split.
Qed.

End V3ReasonerDown.

(** The theorem for a 503 and the playbook of the 503 example. *)
Lemma reasoner_down_outcome_witness :
  exists r st' new,
    V3._run_single_test (V3Suite.env_reasoner_down 503) Scenario.playbook_503
                        "t1" "getPetById" Scenario.fresh_state
    = Some (Py.Ok r, st') /\
    Adk.ok r = false /\
    Adk.attempts r = (if (503 =? 400) || (503 =? 422) then 1 else 3) /\
    Adk.result_reason r = Some "fail"%string /\
    Adk.decisions_made st' = Adk.decisions_made Scenario.fresh_state ++ new /\
    Forall (fun d => Adk.llm_called d = false) new /\
    Z.of_nat (List.length new) = Adk.attempts r.
Proof.
  apply (reasoner_down_outcome (V3Suite.env_reasoner_down 503)
           Scenario.playbook_503 "t1" "getPetById" 503).
  - intros n. reflexivity.
  - intros n. reflexivity.
  - discriminate.
  - intros p [<- | []]. discriminate.
Defined.

(** ** The v3 suite runner *)

Section V3SuiteRun.

Import Adk V3Suite.

Variables (env : Env) (playbook : Playbook).

Lemma count_passed_among (r : TestResult) (results : list TestResult) :
  passed_among (r :: results)
  = (if ok r then 1 else 0) + passed_among results.
Proof.
  unfold passed_among. cbn [filter]. destruct (ok r); cbn [List.length]; lia.
Qed.

Lemma suite_loop_accounting (tests : list TestSpec) :
  forall i st,
  exists out,
    suite_loop i tests env playbook st = Some out /\
    forall results, fst out = Py.Ok results ->
      let m := metrics st in
      let m' := metrics (snd out) in
      List.length results = List.length tests /\
      Forall (fun r => 1 <= attempts r <= 3) results /\
      total_tests m' = total_tests m /\
      passed m' = passed m + passed_among results /\
      failed m' = failed m + (Z.of_nat (List.length tests) - passed_among results) /\
      total_attempts m' = total_attempts m + attempts_among results.
Proof.
  induction tests as [| test_spec tests IH]; intros i st; cbn [suite_loop].
  { eexists. split; [reflexivity |]. intros results [= <-]. cbn.
    repeat split; try constructor; lia. }
  set (test_id := Py.get (spec_test_id test_spec) _).
  set (operation := Py.get (spec_operation test_spec) _).
  destruct (v3_loop_terminates env playbook test_id operation 4 0 st)
    as [[res st1] Hrun]; [cbn; lia |].
  unfold V3._run_single_test.
  change (S (Z.to_nat V3.max_retries)) with 4%nat.
  rewrite Hrun.
  destruct res as [r | e]; [| eexists; split; [reflexivity | discriminate]].
  destruct (v3_loop env playbook test_id operation 4 0 st (Py.Ok r, st1))
    as (new & _ & _ & Hres); trivial; try lia.
  destruct (Hres r eq_refl) as (Hlo & Hhi & _).
  destruct (v3_loop_accounting env playbook test_id operation 4 0 st
              (Py.Ok r, st1) r)
    as (_ & Hatt & _ & _ & _ & Htot & Hpass & Hfail & _); trivial; try lia.
  cbn [fst snd] in *. rewrite Z.sub_0_r in Hatt.
  destruct (IH (i + 1) (if ok r then count_passed st1 else count_failed st1))
    as ([res' st2] & Hrest & Hacc).
  rewrite Hrest.
  destruct res' as [results | e]; [| eexists; split; [reflexivity | discriminate]].
  eexists. split; [reflexivity |].
  intros results' [= <-].
  destruct (Hacc results eq_refl) as (Hlen & Hall & Ht & Hp & Hf & Ha).
  cbn [fst snd] in *. cbn zeta.
  rewrite count_passed_among. unfold attempts_among in *.
  cbn [List.length map fold_right].
  split; [now rewrite Hlen |].
  split; [constructor; [lia | exact Hall] |].
  destruct (ok r); cbn [metrics count_passed count_failed with_metrics
                        total_tests passed failed total_attempts] in *;
    repeat split; lia.
Qed.

(** X15: [run_test_suite] always ends.  When it returns, there is one
    result per test, each with 1 to 3 attempts; [total_tests] has been set
    to the number of tests of this suite, while [passed], [failed] and
    [total_attempts] have grown by the passed tests, the failed tests and
    the attempts of this suite on top of what earlier suites left. *)
Theorem run_test_suite_metrics (tests : list TestSpec) (st : State) :
  exists out,
    run_test_suite env playbook tests st = Some out /\
    forall results, fst out = Py.Ok results ->
      let m := metrics st in
      let m' := metrics (snd out) in
      List.length results = List.length tests /\
      Forall (fun r => 1 <= attempts r <= 3) results /\
      total_tests m' = Z.of_nat (List.length tests) /\
      passed m' = passed m + passed_among results /\
      failed m' = failed m + (Z.of_nat (List.length tests) - passed_among results) /\
      total_attempts m' = total_attempts m + attempts_among results.
Proof.
  unfold run_test_suite.
  destruct (suite_loop_accounting tests 1
              (set_total_tests (Z.of_nat (List.length tests)) st))
    as (out & Hrun & Hacc).
  exists out. split; [exact Hrun |].
  intros results Hr. exact (Hacc results Hr).
Qed.

End V3SuiteRun.

(** ** [test_agent_adk_v2.py]: the recursion of [run_test] *)

(** The delay of a retry can be computed unless the attempt has no
    double: always for an [int] backoff, and for a [float] one at an
    attempt below 2^1024 - 2^970 in size. *)
Lemma v2_retry_backoff_returns (strategy : V2.Strategy) (attempt : Z) :
  Z.abs attempt < PyChoices.float_limit ->
  exists backoff, V2.retry_backoff strategy attempt = Py.Ok backoff.
Proof.
  intros Hfits. unfold V2.retry_backoff, PyNumber.mul_int.
  destruct (Py.get (V2.strategy_backoff_seconds strategy) (PyNumber.Int 1))
    as [a | a]; [eexists; reflexivity |].
  destruct (Z_le_gt_dec attempt 0) as [Hle | Hgt].
  - destruct (float_of_int_nonpositive attempt Hle ltac:(lia)) as (x & -> & _).
    eexists. reflexivity.
  - destruct (float_of_int_positive attempt ltac:(lia) ltac:(lia))
      as (x & -> & _).
    eexists. reflexivity.
Qed.

Section V2Runs.

Import V2.

Variables (env : Env) (playbook : Playbook) (tid op : string).

Lemma v2_call_effect (st : State) :
  let out := _tool_call_operation env st in
  llm_calls (snd out) = llm_calls st /\
  tool_calls (snd out) = tool_calls st + 1 /\
  reasoner_asked (snd out) = reasoner_asked st /\
  slept (snd out) = slept st.
Proof.
  unfold _tool_call_operation.
  destruct (chaos_agent_func env) as [func |]; [| now cbn].
  destruct (func _); now cbn.
Qed.

Lemma v2_decide_effect (e a m : Z) (strategy : Strategy) (st : State) :
  let out := _tool_decide_retry env e a m strategy st in
  llm_calls (snd out) = llm_calls st + 1 /\
  tool_calls (snd out) = tool_calls st /\
  slept (snd out) = slept st /\
  operations_called (snd out) = operations_called st /\
  forall d, fst out = Py.Ok d ->
            decision_attempt d = a /\ decision_max_retries d = m.
Proof.
  unfold _tool_decide_retry.
  destruct (format_prompt strategy) as [[] | err]; [| now cbn].
  cbn [llm_calls tool_calls slept operations_called reasoner_asked].
  destruct (result_json <- Json.loaded _ ;; llm_decision a m result_json)
    as [d | err] eqn:Hllm; cbn [fst snd llm_calls tool_calls slept
                                 operations_called].
  - do 4 (split; [reflexivity |]). intros d' [= <-].
    destruct (Json.loaded _) as [v | ?]; cbn in Hllm; [| discriminate].
    unfold llm_decision in Hllm.
    destruct (Json.subscript v "should_retry"); cbn in Hllm; [| discriminate].
    destruct (Json.subscript v "reasoning"); cbn in Hllm; [| discriminate].
    destruct (Json.subscript v "confidence"); cbn in Hllm; [| discriminate].
    destruct (Json.get v "error_type" _); cbn in Hllm; [| discriminate].
    injection Hllm as <-. now cbn.
  - do 4 (split; [reflexivity |]). intros d Hd.
    unfold _fallback_decide_retry in Hd.
    destruct (m <=? a); cbn in Hd; [injection Hd as <-; now cbn |].
    destruct (strategy_action strategy); cbn in Hd; [| discriminate].
    destruct (String.eqb _ _); cbn in Hd; injection Hd as <-; now cbn.
Qed.

Lemma v2_run_test_accounting (fuel : nat) :
  forall (attempt : Z) (st : State) out r,
    run_test fuel env playbook tid op attempt st = Some out ->
    fst out = Py.Ok r ->
    attempt <= attempts r /\
    tool_calls (snd out) = tool_calls st + (attempts r - attempt) + 1 /\
    llm_calls (snd out)
    = llm_calls st + (attempts r - attempt) + (if ok r then 0 else 1) /\
    List.length (slept (snd out))
    = (List.length (slept st) + Z.to_nat (attempts r - attempt))%nat /\
    (ok r = true ->
     result_status_code r < 400 /\ decision r = Success /\
     result_error r = None /\
     llm_used r = negb (attempts r =? 1) /\
     playbook_used r = negb (attempts r =? 1)) /\
    (ok r = false ->
     400 <= result_status_code r /\ llm_used r = true /\
     playbook_used r = true /\
     exists d, decision r = Taken d /\ action d <> "retry"%string /\
               decision_attempt d = attempts r).
Proof.
  induction fuel as [| fuel IH]; intros attempt st out r Hrun Hr;
    [discriminate |].
  cbn [run_test] in Hrun.
  destruct (v2_call_effect st) as (Hl1 & Ht1 & _ & Hs1).
  destruct (_tool_call_operation env st) as [answer st1]. cbn [snd] in *.
  destruct (Py.subscript "status_code" (status_code answer)) as [status | err];
    [| injection Hrun as <-; discriminate].
  destruct (400 <=? status) eqn:Hfail.
  - apply Z.leb_le in Hfail.
    destruct (v2_decide_effect status attempt
                (Py.get (strategy_max_retries (_tool_check_playbook playbook status)) 0)
                (_tool_check_playbook playbook status) st1)
      as (Hl2 & Ht2 & Hs2 & _ & Hd).
    destruct (_tool_decide_retry env status attempt _ _ st1) as [decided st2].
    cbn [fst snd] in *.
    destruct decided as [d | err]; [| injection Hrun as <-; discriminate].
    destruct (String.eqb (action d) "retry") eqn:Hact.
    + destruct (retry_backoff (_tool_check_playbook playbook status) attempt)
        as [backoff | err]; [| injection Hrun as <-; discriminate].
      unfold _tool_apply_backoff in Hrun.
      destruct (asyncio_sleep backoff) as [| err |];
        [| injection Hrun as <-; discriminate | discriminate].
      specialize (IH _ _ _ _ Hrun Hr).
      destruct IH as (Hle & Ht & Hl & Hs & Hpass & Hfails).
      cbn [llm_calls tool_calls slept] in *.
      rewrite length_app in Hs. cbn [List.length] in Hs.
      replace (attempts r - attempt) with (Z.succ (attempts r - (attempt + 1)))
        by lia.
      rewrite Z2Nat.inj_succ by lia.
      rewrite Hs, Hs2, Hs1.
      repeat split; try lia; try tauto.
    + injection Hrun as <-. cbn [fst snd] in *. injection Hr as <-.
      cbn [attempts ok result_status_code decision llm_used playbook_used
           result_error].
      rewrite Z.sub_diag. cbn [Z.to_nat].
      rewrite Hs2, Hs1.
      repeat split; try lia; try discriminate.
      exists d. split; [reflexivity |]. split.
      * now apply String.eqb_neq.
      * now destruct (Hd d eq_refl).
  - apply Z.leb_gt in Hfail.
    injection Hrun as <-. cbn [fst snd] in *. injection Hr as <-.
    cbn [attempts ok result_status_code decision llm_used playbook_used
         result_error].
    rewrite Z.sub_diag. cbn [Z.to_nat]. rewrite Hs1.
    repeat split; try lia; try discriminate.
Qed.

(** X18: what a result of v2's [run_test] says.  The result of a run
    started at [attempt] has [attempts >= attempt]; every attempt made one
    tool call, every failed call one reasoner step ([llm_calls]), every
    retry one sleep.  A passing result has a status below 400, the
    decision [{'action': 'success'}], and [llm_used] and [playbook_used]
    true exactly when [attempts] is not 1; a failing one has a status of
    at least 400, a decision that is not "retry" taken at its last
    attempt, and [llm_used] and [playbook_used] true whoever decided. *)
Theorem v2_run_test_result (fuel : nat) (attempt : Z) (st : State) out r :
  run_test fuel env playbook tid op attempt st = Some out ->
  fst out = Py.Ok r ->
  attempt <= attempts r /\
  tool_calls (snd out) = tool_calls st + (attempts r - attempt) + 1 /\
  llm_calls (snd out)
  = llm_calls st + (attempts r - attempt) + (if ok r then 0 else 1) /\
  List.length (slept (snd out))
  = (List.length (slept st) + Z.to_nat (attempts r - attempt))%nat /\
  (ok r = true ->
   result_status_code r < 400 /\ decision r = Success /\
   result_error r = None /\
   llm_used r = negb (attempts r =? 1) /\
   playbook_used r = negb (attempts r =? 1)) /\
  (ok r = false ->
   400 <= result_status_code r /\ llm_used r = true /\
   playbook_used r = true /\
   exists d, decision r = Taken d /\ action d <> "retry"%string /\
             decision_attempt d = attempts r).
Proof.
  apply v2_run_test_accounting.
Qed.

End V2Runs.

(** The theorem on the run that recovers at the fourth call. *)
Lemma v2_run_test_result_witness :
  exists out r,
    V2.run_test 5 Scenario.v2_env_always_retry Scenario.v2_playbook_503
                "t1" "getPetById" 1 Scenario.v2_fresh_state = Some out /\
    fst out = Py.Ok r /\
    (1 <= V2.attempts r /\
     V2.tool_calls (snd out)
     = V2.tool_calls Scenario.v2_fresh_state + (V2.attempts r - 1) + 1 /\
     V2.llm_calls (snd out)
     = V2.llm_calls Scenario.v2_fresh_state + (V2.attempts r - 1)
       + (if V2.ok r then 0 else 1) /\
     List.length (V2.slept (snd out))
     = (List.length (V2.slept Scenario.v2_fresh_state)
        + Z.to_nat (V2.attempts r - 1))%nat /\
     (V2.ok r = true ->
      V2.result_status_code r < 400 /\ V2.decision r = V2.Success /\
      V2.result_error r = None /\
      V2.llm_used r = negb (V2.attempts r =? 1) /\
      V2.playbook_used r = negb (V2.attempts r =? 1)) /\
     (V2.ok r = false ->
      400 <= V2.result_status_code r /\ V2.llm_used r = true /\
      V2.playbook_used r = true /\
      exists d, V2.decision r = V2.Taken d /\
                V2.action d <> "retry"%string /\
                V2.decision_attempt d = V2.attempts r)).
Proof.
  do 2 eexists. split; [vm_compute; reflexivity |].
  split; [reflexivity |].
  apply (v2_run_test_result Scenario.v2_env_always_retry
           Scenario.v2_playbook_503 "t1" "getPetById" 5 1
           Scenario.v2_fresh_state).
  - vm_compute. reflexivity.
  - reflexivity.
Defined.

Section V2Playbook.

Import V2.

Lemma v2_find_strategy_match (error_code : Z) :
  forall (before after : list Procedure) (p : Procedure),
    (forall q, In q before -> V2Suite.names_code error_code q = false) ->
    V2Suite.names_code error_code p = true ->
    find_strategy error_code (before ++ p :: after)
    = mkStrategy true error_code
                 (Some (Py.get (proc_action p) "fail"%string))
                 (Some (Py.get (proc_max_retries p) 0))
                 (Some (Py.get (proc_backoff_seconds p) (PyNumber.Int 1)))
                 (Some (Py.get (proc_reason p) "No reason provided"%string)).
Proof.
  induction before as [| q before IH]; intros after p Hbefore Hp;
    cbn [app find_strategy].
  - unfold V2Suite.names_code in Hp. now rewrite Hp.
  - pose proof (Hbefore q (or_introl eq_refl)) as Hq.
    unfold V2Suite.names_code in Hq. rewrite Hq.
    apply IH; [| exact Hp]. intros q' Hin. apply Hbefore. now right.
Qed.

Lemma v2_find_strategy_none (error_code : Z) :
  forall procs : list Procedure,
    (forall q, In q procs -> V2Suite.names_code error_code q = false) ->
    find_strategy error_code procs
    = mkStrategy false error_code (Some "fail"%string) (Some 0) None
                 (Some "No strategy in playbook for this error"%string).
Proof.
  induction procs as [| q procs IH]; intros Hnone; cbn [find_strategy];
    [reflexivity |].
  pose proof (Hnone q (or_introl eq_refl)) as Hq.
  unfold V2Suite.names_code in Hq. rewrite Hq.
  apply IH. intros q' Hin. apply Hnone. now right.
Qed.

Lemma v2_find_strategy_found (error_code : Z) :
  forall procs : list Procedure,
    found (find_strategy error_code procs)
    = existsb (V2Suite.names_code error_code) procs.
Proof.
  induction procs as [| q procs IH]; cbn [find_strategy existsb];
    [reflexivity |].
  unfold V2Suite.names_code at 1.
  destruct (String.eqb _ _); [reflexivity | exact IH].
Qed.

Lemma v2_found_has_entries (error_code : Z) :
  forall procs : list Procedure,
    found (find_strategy error_code procs) = true ->
    format_prompt (find_strategy error_code procs) = Py.Ok tt /\
    exists act, strategy_action (find_strategy error_code procs) = Some act.
Proof.
  induction procs as [| q procs IH]; cbn [find_strategy]; [discriminate |].
  destruct (String.eqb _ _); [| exact IH].
  intros _. split; [reflexivity | eexists; reflexivity].
Qed.

(** X19: v2's [_tool_check_playbook] answers with the first procedure
    whose [error_code], as a string, equals the status as a string (so a
    number and its decimal spelling name the same code), filling absent
    entries with "fail", 0, 1 and "No reason provided"; when no procedure
    names the code, the answer is the "not found" strategy, which has no
    [backoff_seconds] entry.  [found] is true exactly when some procedure
    names the code. *)
Theorem v2_check_playbook_first_match (playbook : Playbook) (error_code : Z) :
  (forall before after p,
      Py.get (procedures playbook) [] = before ++ p :: after ->
      (forall q, In q before -> V2Suite.names_code error_code q = false) ->
      V2Suite.names_code error_code p = true ->
      _tool_check_playbook playbook error_code
      = mkStrategy true error_code
                   (Some (Py.get (proc_action p) "fail"%string))
                   (Some (Py.get (proc_max_retries p) 0))
                   (Some (Py.get (proc_backoff_seconds p) (PyNumber.Int 1)))
                   (Some (Py.get (proc_reason p) "No reason provided"%string))) /\
  ((forall q, In q (Py.get (procedures playbook) []) ->
              V2Suite.names_code error_code q = false) ->
   _tool_check_playbook playbook error_code
   = mkStrategy false error_code (Some "fail"%string) (Some 0) None
                (Some "No strategy in playbook for this error"%string)) /\
  found (_tool_check_playbook playbook error_code)
  = existsb (V2Suite.names_code error_code) (Py.get (procedures playbook) []) /\
  (forall p, V2Suite.names_code error_code
               (mkProcedure (Some (CodeInt error_code)) (proc_action p)
                            (proc_max_retries p) (proc_backoff_seconds p)
                            (proc_reason p))
             = true /\
             V2Suite.names_code error_code
               (mkProcedure (Some (CodeStr (Py.str error_code))) (proc_action p)
                            (proc_max_retries p) (proc_backoff_seconds p)
                            (proc_reason p))
             = true).
Proof.
  unfold _tool_check_playbook. repeat apply conj.
  - intros before after p -> Hbefore Hp. now apply v2_find_strategy_match.
  - apply v2_find_strategy_none.
  - apply v2_find_strategy_found.
  - intros p. unfold V2Suite.names_code. cbn. now rewrite String.eqb_refl.
Qed.

End V2Playbook.

Section V2Recursion.

Import V2.

Variables (env : Env) (playbook : Playbook) (tid op : string).

(** X20: v2's [run_test] cannot handle a failing status that the playbook
    does not name: the "not found" strategy has no [backoff_seconds], the
    prompt is formatted from it before the [try], and the test ends with
    [KeyError('backoff_seconds')] without the reasoner or the heuristic
    being asked. *)
Theorem v2_unnamed_status_raises (fuel : nat) (attempt : Z) (st : State)
        (status : Z) :
  status_code (fst (_tool_call_operation env st)) = Some status ->
  400 <= status ->
  (forall q, In q (Py.get (procedures playbook) []) ->
             V2Suite.names_code status q = false) ->
  exists st',
    run_test (S fuel) env playbook tid op attempt st
    = Some (Py.Raise (Py.KeyError "backoff_seconds"), st') /\
    reasoner_asked st' = reasoner_asked st /\
    slept st' = slept st.
Proof.
  intros Hstatus Hfail Hnone. cbn [run_test].
  destruct (v2_call_effect env st) as (_ & _ & Hasked & Hslept).
  destruct (_tool_call_operation env st) as [answer st1]. cbn [fst snd] in *.
  rewrite Hstatus. cbn [Py.subscript].
  apply Z.leb_le in Hfail. rewrite Hfail.
  unfold _tool_check_playbook. rewrite (v2_find_strategy_none status _ Hnone).
  cbn. eexists. split; [reflexivity |]. now split.
Qed.

Lemma v2_says_retry_decision (attempt m : Z) (reply : Json.Reply) :
  V2Suite.says_retry reply = true ->
  exists d, (result_json <- Json.loaded reply ;;
             llm_decision attempt m result_json) = Py.Ok d /\
            action d = "retry"%string.
Proof.
  destruct reply as [msg | msg | v]; cbn; try discriminate.
  destruct v; cbn; try discriminate.
  unfold llm_decision, Json.subscript, Json.get.
  destruct (Py.lookup "should_retry" fields) as [v |]; [| discriminate].
  destruct (Py.lookup "reasoning" fields); [| discriminate].
  destruct (Py.lookup "confidence" fields); [| discriminate].
  cbn. intros ->. eexists. split; reflexivity.
Qed.

Variable func : nat -> Py.Result CallResult.
Hypothesis agent_set : chaos_agent_func env = Some func.

(** X21: in v2 the number of retries is the reasoner's alone.  While
    the operation fails with a status the playbook names and the reasoner
    answers "retry", [run_test] retries, whatever [max_retries] the
    playbook gives: after [n] such calls and one that passes, the result
    is a pass with [attempts = attempt + n], and the sleeps were the
    products [backoff_seconds * attempt] of the attempts retried, as
    Python computes them (exact for an [int], rounded for a [float]),
    provided none of them raises and each sleep is over.  The recursion
    here has no depth limit; the interpreter's ends a longer run with
    [RecursionError]. *)
Theorem v2_retries_follow_the_reasoner (status : Z) (n : nat) :
  forall (attempt : Z) (st : State) (delays : list PyNumber.Number),
    400 <= status ->
    found (_tool_check_playbook playbook status) = true ->
    V2Suite.waits (_tool_check_playbook playbook status) attempt n
    = Py.Ok delays ->
    Forall (fun delay => asyncio_sleep delay = Over) delays ->
    (forall i, (i < n)%nat ->
               exists answer, func (operations_called st + i)%nat = Py.Ok answer /\
                              status_code answer = Some status) ->
    (forall i, (i < n)%nat ->
               V2Suite.says_retry (reasoner env (reasoner_asked st + i)%nat) = true) ->
    (exists answer passing,
        func (operations_called st + n)%nat = Py.Ok answer /\
        status_code answer = Some passing /\ passing < 400) ->
    exists r st',
      run_test (S n) env playbook tid op attempt st = Some (Py.Ok r, st') /\
      ok r = true /\
      attempts r = attempt + Z.of_nat n /\
      slept st' = slept st ++ delays.
Proof.
  induction n as [| n IH];
    intros attempt st delays Hfail Hfound Hwaits Hover Hcalls Hsays Hlast.
  - destruct Hlast as (answer & passing & Hcall & Hstatus & Hpass).
    rewrite Nat.add_0_r in Hcall.
    cbn [V2Suite.waits] in Hwaits. injection Hwaits as <-.
    cbn [run_test]. unfold _tool_call_operation. rewrite agent_set.
    cbn [operations_called]. rewrite Hcall, Hstatus. cbn [Py.subscript].
    apply Z.leb_gt in Hpass. rewrite Hpass.
    eexists. eexists. split; [reflexivity |]. cbn.
    repeat split; [lia | now rewrite app_nil_r].
  - destruct (Hcalls 0%nat ltac:(lia)) as (answer & Hcall & Hstatus).
    pose proof (Hsays 0%nat ltac:(lia)) as Hsay.
    rewrite Nat.add_0_r in Hcall, Hsay.
    destruct (v2_found_has_entries status _ Hfound) as (Hprompt & _).
    cbn [V2Suite.waits] in Hwaits.
    destruct (retry_backoff (_tool_check_playbook playbook status) attempt)
      as [backoff | err] eqn:Hbackoff; [| discriminate].
    cbn [Py.bind] in Hwaits.
    destruct (V2Suite.waits (_tool_check_playbook playbook status)
                            (attempt + 1) n) as [rest | err] eqn:Hrest;
      [| discriminate].
    cbn [Py.bind] in Hwaits. injection Hwaits as <-.
    apply Forall_cons_iff in Hover. destruct Hover as [Hsleep Hover].
    remember (S n) as fuel eqn:Hfuel. cbn [run_test]. subst fuel.
    unfold _tool_call_operation at 1. rewrite agent_set.
    cbn [operations_called]. rewrite Hcall, Hstatus. cbn [Py.subscript].
    pose proof Hfail as Hfailb. apply Z.leb_le in Hfailb. rewrite Hfailb.
    unfold _tool_decide_retry. fold (_tool_check_playbook playbook status) in Hprompt.
    rewrite Hprompt. cbn [reasoner_asked llm_calls tool_calls operations_called slept].
    destruct (v2_says_retry_decision attempt
                (Py.get (strategy_max_retries (_tool_check_playbook playbook status)) 0)
                _ Hsay) as (d & Hd & Hact).
    rewrite Hd, Hact. cbn [String.eqb Ascii.eqb Bool.eqb].
    rewrite Hbackoff.
    unfold _tool_apply_backoff. rewrite Hsleep.
    cbn [reasoner_asked llm_calls tool_calls operations_called slept].
    match goal with
    | |- context [run_test (S n) env playbook tid op (attempt + 1) ?s] =>
        destruct (IH (attempt + 1) s rest Hfail Hfound Hrest Hover)
          as (r & st' & Hrun & Hok & Hatt & Hsl)
    end.
    + intros i Hi. cbn [operations_called].
      destruct (Hcalls (S i) ltac:(lia)) as (a' & Ha' & Hs').
      exists a'. split; [| exact Hs'].
      now rewrite Nat.add_succ_comm.
    + intros i Hi. cbn [reasoner_asked].
      rewrite Nat.add_succ_comm. apply Hsays. lia.
    + destruct Hlast as (a' & passing & Ha' & Hs' & Hp).
      exists a', passing. cbn [operations_called].
      rewrite Nat.add_succ_comm. now repeat split.
    + exists r, st'. split; [exact Hrun |]. split; [exact Hok |].
      split; [lia |].
      rewrite Hsl. cbn [slept]. now rewrite <- app_assoc.
Qed.


End V2Recursion.

(** The theorem for a 503 against an empty playbook. *)
Lemma v2_unnamed_status_raises_witness :
  exists st',
    V2.run_test 1 Scenario.v2_env_always_retry (V2.mkPlaybook (Some []))
                "t1" "getPetById" 1 Scenario.v2_fresh_state
    = Some (Py.Raise (Py.KeyError "backoff_seconds"), st') /\
    V2.reasoner_asked st' = V2.reasoner_asked Scenario.v2_fresh_state /\
    V2.slept st' = V2.slept Scenario.v2_fresh_state.
Proof.
  apply (v2_unnamed_status_raises Scenario.v2_env_always_retry
           (V2.mkPlaybook (Some [])) "t1" "getPetById" 0 1
           Scenario.v2_fresh_state 503).
  - reflexivity.
  - lia.
  - intros q [].
Defined.

(** The theorem for three 503s under the playbook whose backoff is the
    double 0.1 and whose [max_retries] is 3: the test passes at its fourth
    attempt, and the third delay is the double 0.30000000000000004, not
    three tenths. *)
Lemma v2_retries_follow_the_reasoner_witness :
  exists delays third,
    V2Suite.waits (V2._tool_check_playbook V2Suite.playbook_tenth 503) 1 3
    = Py.Ok delays /\
    Forall (fun delay => V2.asyncio_sleep delay = V2.Over) delays /\
    nth_error delays 2 = Some (PyNumber.Flt (PyNumber.Finite third)) /\
    Qeq_bool third (1351079888211149 # 4503599627370496) = true /\
    Qeq_bool third (3 # 10) = false /\
    exists r st',
      V2.run_test 4 Scenario.v2_env_always_retry V2Suite.playbook_tenth
                  "t1" "getPetById" 1 Scenario.v2_fresh_state
      = Some (Py.Ok r, st') /\
      V2.ok r = true /\
      V2.attempts r = 1 + Z.of_nat 3 /\
      V2.slept st' = V2.slept Scenario.v2_fresh_state ++ delays.
Proof.
  eexists. eexists. split; [vm_compute; reflexivity |].
  split; [repeat constructor |].
  split; [reflexivity |]. split; [reflexivity |]. split; [reflexivity |].
  apply (v2_retries_follow_the_reasoner Scenario.v2_env_always_retry
           V2Suite.playbook_tenth "t1" "getPetById"
           Scenario.v2_recovers_on_fourth eq_refl 503 3 1
           Scenario.v2_fresh_state).
  - lia.
  - reflexivity.
  - vm_compute. reflexivity.
  - repeat constructor.
  - intros i Hi.
    exists (V2.mkCallResult (Some 503) (Some "HTTP 503"%string) (Some true)).
    split; [| reflexivity].
    cbn. unfold Scenario.v2_recovers_on_fourth.
    destruct (Nat.ltb_spec i 3); [reflexivity | lia].
  - intros i Hi. reflexivity.
  - eexists. exists 200. split; [reflexivity |]. split; [reflexivity | lia].
Defined.


(** ** [test_agent_adk_v2.py]: a suite and its metrics *)

Section V2SuiteRun.

Import V2.

Variables (env : Env) (playbook : Playbook).

Lemma sum_app (xs ys : list Z) :
  fold_right Z.add 0 (xs ++ ys) = fold_right Z.add 0 xs + fold_right Z.add 0 ys.
Proof.
  induction xs as [| x xs IH]; cbn [app fold_right]; lia.
Qed.

Lemma v2_suite_accounting (fuel : nat) :
  forall (tests : list V2Suite.TestSpec) (st : State)
         (test_results results : list TestResult) (st' : State)
         (test_results' : list TestResult),
    V2Suite.run_test_suite fuel env playbook tests st test_results
    = Some (Py.Ok results, st', test_results') ->
    test_results' = test_results ++ results /\
    List.length results = List.length tests /\
    tool_calls st'
    = tool_calls st + fold_right Z.add 0 (map attempts results) /\
    llm_calls st'
    = llm_calls st + fold_right Z.add 0 (map attempts results)
      - Z.of_nat (List.length (filter ok results)).
Proof.
  induction tests as [| test tests IH];
    intros st trs results st' trs' Hrun; cbn [V2Suite.run_test_suite] in Hrun.
  - injection Hrun as <- <- <-. cbn. rewrite app_nil_r.
    repeat split; lia.
  - unfold V2Suite.run_test_spec in Hrun.
    destruct (V2Suite.spec_test_id test) as [tid |]; [| discriminate].
    destruct (V2Suite.spec_operation test) as [op |]; [| discriminate].
    destruct (run_test fuel env playbook tid op 1 st) as [[[r | e] st1] |]
      eqn:Hone; try discriminate.
    destruct (V2Suite.run_test_suite fuel env playbook tests st1 (trs ++ [r]))
      as [[[[rest | e] st2] trs2] |] eqn:Hrest; try discriminate.
    injection Hrun as <- <- <-.
    destruct (IH _ _ _ _ _ Hrest) as (Htrs & Hlen & Htool & Hllm).
    destruct (v2_run_test_accounting env playbook tid op fuel 1 st _ r Hone
                                     eq_refl)
      as (_ & Ht & Hl & _).
    cbn [snd] in Ht, Hl.
    cbn [map fold_right filter List.length].
    split; [now rewrite Htrs, <- app_assoc |].
    split; [now rewrite Hlen |].
    destruct (ok r); cbn [List.length]; lia.
Qed.

(** X23: what [get_metrics] reports after [run_test_suite] returned.
    The results are appended to [test_results], one per test;
    [total_tests] grows by the number of tests; [tool_calls] grows by as
    much as [total_attempts], and [llm_calls] by [total_attempts] less
    the tests that passed; and [passed + failed = total_tests]. *)
Theorem v2_suite_metrics (fuel : nat) (tests : list V2Suite.TestSpec)
        (st : State) (test_results results : list TestResult) (st' : State)
        (test_results' : list TestResult) :
  V2Suite.run_test_suite fuel env playbook tests st test_results
  = Some (Py.Ok results, st', test_results') ->
  test_results' = test_results ++ results /\
  List.length results = List.length tests /\
  V2Suite.total_tests (V2Suite.get_metrics st' test_results')
  = V2Suite.total_tests (V2Suite.get_metrics st test_results)
    + Z.of_nat (List.length tests) /\
  V2Suite.metric_tool_calls (V2Suite.get_metrics st' test_results')
  - V2Suite.metric_tool_calls (V2Suite.get_metrics st test_results)
  = V2Suite.total_attempts (V2Suite.get_metrics st' test_results')
    - V2Suite.total_attempts (V2Suite.get_metrics st test_results) /\
  V2Suite.metric_llm_calls (V2Suite.get_metrics st' test_results')
  - V2Suite.metric_llm_calls (V2Suite.get_metrics st test_results)
  = V2Suite.total_attempts (V2Suite.get_metrics st' test_results')
    - V2Suite.total_attempts (V2Suite.get_metrics st test_results)
    - (V2Suite.passed (V2Suite.get_metrics st' test_results')
       - V2Suite.passed (V2Suite.get_metrics st test_results)) /\
  V2Suite.passed (V2Suite.get_metrics st' test_results')
  + V2Suite.failed (V2Suite.get_metrics st' test_results')
  = V2Suite.total_tests (V2Suite.get_metrics st' test_results').
Proof.
  intros Hrun.
  destruct (v2_suite_accounting fuel _ _ _ _ _ _ Hrun)
    as (Htrs & Hlen & Htool & Hllm).
  split; [exact Htrs |]. split; [exact Hlen |].
  unfold V2Suite.get_metrics.
  cbn [V2Suite.total_tests V2Suite.metric_tool_calls V2Suite.total_attempts
       V2Suite.metric_llm_calls V2Suite.passed V2Suite.failed].
  rewrite Htrs, filter_app, map_app, sum_app, !length_app, Hlen.
  repeat split; lia.
Qed.

End V2SuiteRun.

(** The theorem on a suite of two tests: the first recovers at its
    fourth call, the second passes at once. *)
Lemma v2_suite_metrics_witness :
  exists results st' test_results',
    V2Suite.run_test_suite 5 Scenario.v2_env_always_retry
      Scenario.v2_playbook_503
      [V2Suite.mkTestSpec (Some "t1"%string) (Some "getPetById"%string);
       V2Suite.mkTestSpec (Some "t2"%string) (Some "getPetById"%string)]
      Scenario.v2_fresh_state []
    = Some (Py.Ok results, st', test_results') /\
    (test_results' = [] ++ results /\
     List.length results = 2%nat /\
     V2Suite.total_tests (V2Suite.get_metrics st' test_results')
     = V2Suite.total_tests (V2Suite.get_metrics Scenario.v2_fresh_state [])
       + Z.of_nat 2 /\
     V2Suite.metric_tool_calls (V2Suite.get_metrics st' test_results')
     - V2Suite.metric_tool_calls
         (V2Suite.get_metrics Scenario.v2_fresh_state [])
     = V2Suite.total_attempts (V2Suite.get_metrics st' test_results')
       - V2Suite.total_attempts
           (V2Suite.get_metrics Scenario.v2_fresh_state []) /\
     V2Suite.metric_llm_calls (V2Suite.get_metrics st' test_results')
     - V2Suite.metric_llm_calls
         (V2Suite.get_metrics Scenario.v2_fresh_state [])
     = V2Suite.total_attempts (V2Suite.get_metrics st' test_results')
       - V2Suite.total_attempts
           (V2Suite.get_metrics Scenario.v2_fresh_state [])
       - (V2Suite.passed (V2Suite.get_metrics st' test_results')
          - V2Suite.passed (V2Suite.get_metrics Scenario.v2_fresh_state [])) /\
     V2Suite.passed (V2Suite.get_metrics st' test_results')
     + V2Suite.failed (V2Suite.get_metrics st' test_results')
     = V2Suite.total_tests (V2Suite.get_metrics st' test_results')).
Proof.
  do 3 eexists. split; [vm_compute; reflexivity |].
  apply (v2_suite_metrics Scenario.v2_env_always_retry
           Scenario.v2_playbook_503 5
           [V2Suite.mkTestSpec (Some "t1"%string) (Some "getPetById"%string);
            V2Suite.mkTestSpec (Some "t2"%string) (Some "getPetById"%string)]
           Scenario.v2_fresh_state []).
  vm_compute. reflexivity.
Defined.
